(** * btstack_uart_posix.c: asynchronous block and SLIP frame transfer

    A shallow embedding of the POSIX UART driver of BTstack
    (platform/posix/btstack_uart_posix.c).  The driver keeps its state in
    file-level statics; here they are the fields of [state], and every C
    function becomes a function from a state to a new state and the list
    of calls it made to its environment (run loop, syscalls, log, the
    registered handlers), in program order.  The termios configuration
    ([open], [set_baudrate], [set_parity], [set_flowcontrol]) moves no
    data and is left out. *)

From Stdlib Require Import ZArith List String Bool Lia.
Import ListNotations.
Open Scope Z_scope.

(** ** Machine integers *)

(** [uint16_t] and [uint32_t] values are kept as [Z]; arithmetic on them
    wraps as written out here. *)
Definition wrap16 (z : Z) : Z := z mod 65536.
Definition wrap32 (z : Z) : Z := z mod 4294967296.

(** max size of outgoing SLIP chunks *)
Definition SLIP_TX_CHUNK_LEN : Z := 128.
Definition SLIP_RECEIVE_BUFFER_SIZE : Z := 128.

(** ** The environment *)

Inductive btstack_data_source_callback_type_t :=
| DATA_SOURCE_CALLBACK_POLL
| DATA_SOURCE_CALLBACK_READ
| DATA_SOURCE_CALLBACK_WRITE.

(** What the driver does to the outside world.  The handlers registered
    by the caller are invoked in tail position everywhere in the file, so
    recording the invocation and letting the caller's reaction be the next
    call of the API loses nothing. *)
Inductive event :=
| btstack_run_loop_enable_data_source_callbacks (t : btstack_data_source_callback_type_t)
| btstack_run_loop_disable_data_source_callbacks (t : btstack_data_source_callback_type_t)
| btstack_run_loop_remove_data_source
| sys_write (fd data len : Z)
| sys_read (fd len : Z)
| sys_close (fd : Z)
| log_error (fmt : string) (args : list Z)
| log_info (fmt : string) (args : list Z)
| log_debug (fmt : string) (args : list Z)
| call_block_sent
| call_block_received
| call_frame_sent
| call_frame_received (frame_size : Z)
| call_null.

Definition trace := list event.

(** Answers of the environment during one readiness dispatch: the two
    readings of [btstack_run_loop_get_time_ms] around the syscall, the
    value the syscall returns, the bytes a [read] leaves in the buffer, and
    the clock reading taken when a frame is delivered. *)
Record syscall := {
  sys_start : Z;
  sys_end : Z;
  sys_ret : Z;
  sys_data : list Z;
  sys_now : Z
}.

(** Modelled from the spec: the SLIP codec (btstack_slip.h) is not among
    the sources; section 6 gives its call contract ([decoder_init],
    [decoder_feed] with the frame size or zero, [encoder_start],
    [encoder_has_pending], [encoder_next_byte]).  The driver is written
    against any implementation: [slip_t] is the codec's private state. *)
Class SlipCodec := {
  slip_t : Type;
  btstack_slip_encoder_start : slip_t -> list Z -> Z -> slip_t;
  btstack_slip_encoder_has_data : slip_t -> Z;
  btstack_slip_encoder_get_byte : slip_t -> Z * slip_t;
  btstack_slip_decoder_init : slip_t -> Z -> Z -> slip_t;
  btstack_slip_decoder_process : slip_t -> Z -> slip_t;
  btstack_slip_decoder_frame_size : slip_t -> Z
}.

(** ** The statics of the driver *)

(** block write *)
Record block_write_t := {
  btstack_uart_block_write_bytes_len : Z;
  btstack_uart_block_write_bytes_data : Z
}.

(** block read *)
Record block_read_t := {
  btstack_uart_block_read_bytes_len : Z;
  btstack_uart_block_read_bytes_data : Z
}.

(** callbacks: [true] when a handler is stored, [false] for NULL *)
Record callbacks_t := {
  block_sent : bool;
  block_received : bool;
  frame_sent : bool;
  frame_received : bool
}.

(** encoded SLIP chunk and its block write; the data pointer is an offset
    into the outgoing buffer *)
Record slip_write_t := {
  btstack_uart_slip_outgoing_buffer : list Z;
  btstack_uart_slip_write_bytes_len : Z;
  btstack_uart_slip_write_bytes_data : Z;
  btstack_uart_slip_write_active : Z
}.

(** SLIP block read *)
Record slip_receive_t := {
  btstack_uart_slip_receive_buffer : list Z;
  btstack_uart_slip_receive_pos : Z;
  btstack_uart_slip_receive_len : Z;
  btstack_uart_slip_receive_track_start : Z;
  btstack_uart_slip_receive_start_time : Z;
  btstack_uart_slip_receive_active : Z
}.

Record state {C : SlipCodec} := {
  transport_data_source_fd : Z;
  bw : block_write_t;
  br : block_read_t;
  cb : callbacks_t;
  sw : slip_write_t;
  sr : slip_receive_t;
  slip : slip_t
}.

Section Driver.
Context {C : SlipCodec}.

Definition set_fd (v : Z) (s : state) : state :=
  {| transport_data_source_fd := v; bw := bw s; br := br s; cb := cb s;
     sw := sw s; sr := sr s; slip := slip s |}.
Definition set_bw (v : block_write_t) (s : state) : state :=
  {| transport_data_source_fd := transport_data_source_fd s; bw := v;
     br := br s; cb := cb s; sw := sw s; sr := sr s; slip := slip s |}.
Definition set_br (v : block_read_t) (s : state) : state :=
  {| transport_data_source_fd := transport_data_source_fd s; bw := bw s;
     br := v; cb := cb s; sw := sw s; sr := sr s; slip := slip s |}.
Definition set_cb (v : callbacks_t) (s : state) : state :=
  {| transport_data_source_fd := transport_data_source_fd s; bw := bw s;
     br := br s; cb := v; sw := sw s; sr := sr s; slip := slip s |}.
Definition set_sw (v : slip_write_t) (s : state) : state :=
  {| transport_data_source_fd := transport_data_source_fd s; bw := bw s;
     br := br s; cb := cb s; sw := v; sr := sr s; slip := slip s |}.
Definition set_sr (v : slip_receive_t) (s : state) : state :=
  {| transport_data_source_fd := transport_data_source_fd s; bw := bw s;
     br := br s; cb := cb s; sw := sw s; sr := v; slip := slip s |}.
Definition set_slip (v : slip_t) (s : state) : state :=
  {| transport_data_source_fd := transport_data_source_fd s; bw := bw s;
     br := br s; cb := cb s; sw := sw s; sr := sr s; slip := v |}.

(** [if (end - start > 10) log_info(fmt, end - start)] on [uint32_t] *)
Definition log_slow (fmt : string) (io : syscall) : trace :=
  if 10 <? wrap32 (sys_end io - sys_start io)
  then [log_info fmt [wrap32 (sys_end io - sys_start io)]]
  else [].

(** ** Block transfer *)

Definition btstack_uart_block_posix_process_write
    (s : state) (io : syscall) : state * trace :=
  let len := btstack_uart_block_write_bytes_len (bw s) in
  let data := btstack_uart_block_write_bytes_data (bw s) in
  if len =? 0 then (s, []) else
  let bytes_written := sys_ret io in
  let t := sys_write (transport_data_source_fd s) data len
           :: log_slow "write took %u ms" io in
  if bytes_written =? 0 then
    (s, t ++ [log_error "wrote zero bytes\n" []])
  else if bytes_written <? 0 then
    (s, t ++ [log_error "write returned error\n" [];
              btstack_run_loop_enable_data_source_callbacks DATA_SOURCE_CALLBACK_WRITE])
  else
    let s1 := set_bw {| btstack_uart_block_write_bytes_len := len - bytes_written;
                        btstack_uart_block_write_bytes_data := data + bytes_written |} s in
    if negb (len - bytes_written =? 0) then
      (s1, t ++ [btstack_run_loop_enable_data_source_callbacks DATA_SOURCE_CALLBACK_WRITE])
    else
      (s1, t ++ btstack_run_loop_disable_data_source_callbacks DATA_SOURCE_CALLBACK_WRITE
             :: (if block_sent (cb s) then [call_block_sent] else [])).

Definition btstack_uart_block_posix_process_read
    (s : state) (io : syscall) : state * trace :=
  let len := btstack_uart_block_read_bytes_len (br s) in
  let data := btstack_uart_block_read_bytes_data (br s) in
  let t0 := if len =? 0
            then [log_info "called but no read pending" [];
                  btstack_run_loop_disable_data_source_callbacks DATA_SOURCE_CALLBACK_READ]
            else [] in
  let bytes_read := sys_ret io in
  let t := t0 ++ sys_read (transport_data_source_fd s) len
              :: log_slow "read took %u ms" io in
  if bytes_read =? 0 then
    (s, t ++ [log_error "read zero bytes\n" []])
  else if bytes_read <? 0 then
    (s, t ++ [log_error "read returned error\n" []])
  else
    let s1 := set_br {| btstack_uart_block_read_bytes_len := wrap16 (len - bytes_read);
                        btstack_uart_block_read_bytes_data := data + bytes_read |} s in
    if 0 <? wrap16 (len - bytes_read) then (s1, t)
    else
      (s1, t ++ btstack_run_loop_disable_data_source_callbacks DATA_SOURCE_CALLBACK_READ
             :: (if block_received (cb s) then [call_block_received] else [])).

Definition btstack_uart_posix_close_new (s : state) : state * trace * Z :=
  (set_fd (-1) s,
   [btstack_run_loop_remove_data_source; sys_close (transport_data_source_fd s)],
   0).

Definition btstack_uart_posix_set_block_received (s : state) (block_handler : bool) : state :=
  set_cb {| block_sent := block_sent (cb s); block_received := block_handler;
            frame_sent := frame_sent (cb s); frame_received := frame_received (cb s) |} s.

Definition btstack_uart_posix_set_block_sent (s : state) (block_handler : bool) : state :=
  set_cb {| block_sent := block_handler; block_received := block_received (cb s);
            frame_sent := frame_sent (cb s); frame_received := frame_received (cb s) |} s.

Definition btstack_uart_posix_send_block (s : state) (data size : Z) : state * trace :=
  (set_bw {| btstack_uart_block_write_bytes_len := size;
             btstack_uart_block_write_bytes_data := data |} s,
   [btstack_run_loop_enable_data_source_callbacks DATA_SOURCE_CALLBACK_WRITE]).

Definition btstack_uart_posix_receive_block (s : state) (buffer len : Z) : state * trace :=
  (set_br {| btstack_uart_block_read_bytes_len := len;
             btstack_uart_block_read_bytes_data := buffer |} s,
   [btstack_run_loop_enable_data_source_callbacks DATA_SOURCE_CALLBACK_READ]).

(** ** SLIP frames *)

(** [a[i] = v]; [i] is inside the array wherever the driver stores, as
    long as the array has its declared length. *)
Definition array_set (a : list Z) (i : Z) (v : Z) : list Z :=
  firstn (Z.to_nat i) a ++ v :: skipn (Z.to_nat i + 1) a.

(** the first [n] bytes of [a] replaced by what [read] delivered *)
Definition array_fill (a : list Z) (data : list Z) (n : Z) : list Z :=
  firstn (Z.to_nat n) data ++ skipn (Z.to_nat n) a.

Definition btstack_uart_slip_posix_set_frame_received (s : state) (block_handler : bool) : state :=
  set_cb {| block_sent := block_sent (cb s); block_received := block_received (cb s);
            frame_sent := frame_sent (cb s); frame_received := block_handler |} s.

Definition btstack_uart_slip_posix_set_frame_sent (s : state) (block_handler : bool) : state :=
  set_cb {| block_sent := block_sent (cb s); block_received := block_received (cb s);
            frame_sent := block_handler; frame_received := frame_received (cb s) |} s.

(** The loop of [btstack_uart_slip_posix_encode_chunk_and_send]:
    [while (has_data() & (pos < SLIP_TX_CHUNK_LEN)) buffer[pos++] = get_byte();]
    with the bitwise [&] of the source.  [pos] grows by one per round, so
    [SLIP_TX_CHUNK_LEN] rounds of fuel reach the exit. *)
Fixpoint encode_chunk (fuel : nat) (c : slip_t) (buf : list Z) (pos : Z)
    : slip_t * list Z * Z :=
  match fuel with
  | O => (c, buf, pos)
  | S fuel' =>
      if Z.land (btstack_slip_encoder_has_data c) (Z.b2z (pos <? SLIP_TX_CHUNK_LEN)) =? 0
      then (c, buf, pos)
      else
        let (b, c') := btstack_slip_encoder_get_byte c in
        encode_chunk fuel' c' (array_set buf pos b) (wrap16 (pos + 1))
  end.

Definition btstack_uart_slip_posix_encode_chunk_and_send (s : state) : state * trace :=
  let '(c, buf, pos) :=
    encode_chunk (Z.to_nat SLIP_TX_CHUNK_LEN) (slip s)
                 (btstack_uart_slip_outgoing_buffer (sw s)) 0 in
  (set_slip c
     (set_sw {| btstack_uart_slip_outgoing_buffer := buf;
                btstack_uart_slip_write_bytes_len := pos;
                btstack_uart_slip_write_bytes_data := 0;
                btstack_uart_slip_write_active := btstack_uart_slip_write_active (sw s) |} s),
   [log_debug "slip: send %d bytes" [pos];
    btstack_run_loop_enable_data_source_callbacks DATA_SOURCE_CALLBACK_WRITE]).

Definition btstack_uart_slip_posix_block_sent (s : state) : state * trace :=
  if negb (btstack_slip_encoder_has_data (slip s) =? 0) then
    btstack_uart_slip_posix_encode_chunk_and_send s
  else
    (set_sw {| btstack_uart_slip_outgoing_buffer := btstack_uart_slip_outgoing_buffer (sw s);
               btstack_uart_slip_write_bytes_len := btstack_uart_slip_write_bytes_len (sw s);
               btstack_uart_slip_write_bytes_data := btstack_uart_slip_write_bytes_data (sw s);
               btstack_uart_slip_write_active := 0 |} s,
     if frame_sent (cb s) then [call_frame_sent] else []).

Definition btstack_uart_slip_posix_process_write
    (s : state) (io : syscall) : state * trace :=
  let len := btstack_uart_slip_write_bytes_len (sw s) in
  let data := btstack_uart_slip_write_bytes_data (sw s) in
  if len =? 0 then (s, []) else
  let bytes_written := sys_ret io in
  let w := sys_write (transport_data_source_fd s) data len in
  if bytes_written <? 0 then
    (s, [w; btstack_run_loop_enable_data_source_callbacks DATA_SOURCE_CALLBACK_WRITE])
  else
    let t := w :: log_slow "write took %u ms" io in
    let s1 := set_sw {| btstack_uart_slip_outgoing_buffer := btstack_uart_slip_outgoing_buffer (sw s);
                        btstack_uart_slip_write_bytes_len := len - bytes_written;
                        btstack_uart_slip_write_bytes_data := data + bytes_written;
                        btstack_uart_slip_write_active := btstack_uart_slip_write_active (sw s) |} s in
    if negb (len - bytes_written =? 0) then
      (s1, t ++ [btstack_run_loop_enable_data_source_callbacks DATA_SOURCE_CALLBACK_WRITE])
    else
      let (s2, t2) := btstack_uart_slip_posix_block_sent s1 in
      (s2, t ++ btstack_run_loop_disable_data_source_callbacks DATA_SOURCE_CALLBACK_WRITE :: t2).

(** The loop of [btstack_uart_slip_posix_process_buffer]:
    [while (pos < len && frame_size == 0) { process(buffer[pos++]); frame_size = frame_size(); }]
    Every round moves [pos] one step towards [len]. *)
Fixpoint decode_bytes (fuel : nat) (buf : list Z) (len : Z)
    (c : slip_t) (pos frame_size : Z) : slip_t * Z * Z :=
  match fuel with
  | O => (c, pos, frame_size)
  | S fuel' =>
      if (pos <? len) && (frame_size =? 0) then
        let c' := btstack_slip_decoder_process c (nth (Z.to_nat pos) buf 0) in
        decode_bytes fuel' buf len c' (wrap16 (pos + 1))
                     (btstack_slip_decoder_frame_size c')
      else (c, pos, frame_size)
  end.

(** returns the frame size if a complete frame was decoded and delivered *)
Definition btstack_uart_slip_posix_process_buffer
    (s : state) (now : Z) : state * trace * Z :=
  let r := sr s in
  let t0 := log_debug "process buffer: pos %u, len %u"
              [btstack_uart_slip_receive_pos r; btstack_uart_slip_receive_len r] in
  let '(c, pos, frame_size) :=
    decode_bytes (Z.to_nat (btstack_uart_slip_receive_len r - btstack_uart_slip_receive_pos r))
                 (btstack_uart_slip_receive_buffer r) (btstack_uart_slip_receive_len r)
                 (slip s) (btstack_uart_slip_receive_pos r) 0 in
  (* reset buffer if fully processed *)
  let full := pos =? btstack_uart_slip_receive_len r in
  let pos1 := if full then 0 else pos in
  let len1 := if full then 0 else btstack_uart_slip_receive_len r in
  if frame_size =? 0 then
    (set_slip c
       (set_sr {| btstack_uart_slip_receive_buffer := btstack_uart_slip_receive_buffer r;
                  btstack_uart_slip_receive_pos := pos1;
                  btstack_uart_slip_receive_len := len1;
                  btstack_uart_slip_receive_track_start := btstack_uart_slip_receive_track_start r;
                  btstack_uart_slip_receive_start_time := btstack_uart_slip_receive_start_time r;
                  btstack_uart_slip_receive_active := btstack_uart_slip_receive_active r |} s),
     [t0], frame_size)
  else
    (* deliver frame; only print if read was involved *)
    let printed := btstack_uart_slip_receive_track_start r =? 0 in
    (set_slip c
       (set_sr {| btstack_uart_slip_receive_buffer := btstack_uart_slip_receive_buffer r;
                  btstack_uart_slip_receive_pos := pos1;
                  btstack_uart_slip_receive_len := len1;
                  btstack_uart_slip_receive_track_start := btstack_uart_slip_receive_track_start r;
                  btstack_uart_slip_receive_start_time :=
                    if printed then 0 else btstack_uart_slip_receive_start_time r;
                  btstack_uart_slip_receive_active := 0 |} s),
     t0 :: (if printed
            then [log_info "frame receive time %u ms"
                           [wrap32 (now - btstack_uart_slip_receive_start_time r)]]
            else [])
        ++ [if frame_received (cb s) then call_frame_received frame_size else call_null],
     frame_size).

Definition btstack_uart_slip_posix_process_read
    (s : state) (io : syscall) : state * trace :=
  let r := sr s in
  let r1 :=
    if negb (btstack_uart_slip_receive_track_start r =? 0) then
      {| btstack_uart_slip_receive_buffer := btstack_uart_slip_receive_buffer r;
         btstack_uart_slip_receive_pos := btstack_uart_slip_receive_pos r;
         btstack_uart_slip_receive_len := btstack_uart_slip_receive_len r;
         btstack_uart_slip_receive_track_start := 0;
         btstack_uart_slip_receive_start_time := sys_start io;
         btstack_uart_slip_receive_active := btstack_uart_slip_receive_active r |}
    else r in
  let bytes_read := sys_ret io in
  let t := sys_read (transport_data_source_fd s) SLIP_RECEIVE_BUFFER_SIZE
           :: log_debug "requested %u bytes, got %d" [SLIP_RECEIVE_BUFFER_SIZE; bytes_read]
           :: log_slow "read took %u ms" io in
  if bytes_read <? 0 then (set_sr r1 s, t)
  else
    let r2 :=
      {| btstack_uart_slip_receive_buffer :=
           array_fill (btstack_uart_slip_receive_buffer r1) (sys_data io) bytes_read;
         btstack_uart_slip_receive_pos := 0;
         btstack_uart_slip_receive_len := wrap16 bytes_read;
         btstack_uart_slip_receive_track_start := btstack_uart_slip_receive_track_start r1;
         btstack_uart_slip_receive_start_time := btstack_uart_slip_receive_start_time r1;
         btstack_uart_slip_receive_active := btstack_uart_slip_receive_active r1 |} in
    let '(s', t', _) := btstack_uart_slip_posix_process_buffer (set_sr r2 s) (sys_now io) in
    (s', t ++ t').

Definition btstack_uart_slip_posix_send_frame
    (s : state) (frame : list Z) (frame_size : Z) : state * trace :=
  let s1 := set_sw {| btstack_uart_slip_outgoing_buffer := btstack_uart_slip_outgoing_buffer (sw s);
                      btstack_uart_slip_write_bytes_len := btstack_uart_slip_write_bytes_len (sw s);
                      btstack_uart_slip_write_bytes_data := btstack_uart_slip_write_bytes_data (sw s);
                      btstack_uart_slip_write_active := 1 |} s in
  btstack_uart_slip_posix_encode_chunk_and_send
    (set_slip (btstack_slip_encoder_start (slip s1) frame frame_size) s1).

(** [now] is the clock reading [process_buffer] would use for its log line. *)
Definition btstack_uart_slip_posix_receive_frame
    (s : state) (buffer len : Z) (now : Z) : state * trace :=
  let r := sr s in
  let s1 :=
    set_slip (btstack_slip_decoder_init (slip s) buffer len)
      (set_sr {| btstack_uart_slip_receive_buffer := btstack_uart_slip_receive_buffer r;
                 btstack_uart_slip_receive_pos := btstack_uart_slip_receive_pos r;
                 btstack_uart_slip_receive_len := btstack_uart_slip_receive_len r;
                 btstack_uart_slip_receive_track_start := 1;
                 btstack_uart_slip_receive_start_time := btstack_uart_slip_receive_start_time r;
                 btstack_uart_slip_receive_active := 1 |} s) in
  let t0 := log_debug "receive block, size %u" [len] in
  if negb (btstack_uart_slip_receive_len r =? 0) then
    let '(s2, t2, frame_found) := btstack_uart_slip_posix_process_buffer s1 now in
    if negb (frame_found =? 0) then (s2, t0 :: t2)
    else (s2, t0 :: t2 ++ [btstack_run_loop_enable_data_source_callbacks DATA_SOURCE_CALLBACK_READ])
  else
    (s1, [t0; btstack_run_loop_enable_data_source_callbacks DATA_SOURCE_CALLBACK_READ]).

(** ** Dispatch into block or SLIP code *)

Definition hci_uart_posix_process
    (s : state) (callback_type : btstack_data_source_callback_type_t) (io : syscall)
    : state * trace :=
  if transport_data_source_fd s <? 0 then (s, []) else
  match callback_type with
  | DATA_SOURCE_CALLBACK_READ =>
      if negb (btstack_uart_slip_receive_active (sr s) =? 0)
      then btstack_uart_slip_posix_process_read s io
      else btstack_uart_block_posix_process_read s io
  | DATA_SOURCE_CALLBACK_WRITE =>
      if negb (btstack_uart_slip_write_active (sw s) =? 0)
      then btstack_uart_slip_posix_process_write s io
      else btstack_uart_block_posix_process_write s io
  | _ => (s, [])
  end.

(** ** Runs of the driver *)

(** The entries of the [btstack_uart_t] table that move data, and the
    readiness dispatch of the run loop. *)
Inductive call :=
| Close
| Set_block_received (h : bool)
| Set_block_sent (h : bool)
| Set_frame_received (h : bool)
| Set_frame_sent (h : bool)
| Receive_block (buffer len : Z)
| Send_block (data size : Z)
| Receive_frame (buffer len now : Z)
| Send_frame (frame : list Z) (frame_size : Z)
| Ready (t : btstack_data_source_callback_type_t) (io : syscall).

Definition step (s : state) (c : call) : state * trace :=
  match c with
  | Close => fst (btstack_uart_posix_close_new s)
  | Set_block_received h => (btstack_uart_posix_set_block_received s h, [])
  | Set_block_sent h => (btstack_uart_posix_set_block_sent s h, [])
  | Set_frame_received h => (btstack_uart_slip_posix_set_frame_received s h, [])
  | Set_frame_sent h => (btstack_uart_slip_posix_set_frame_sent s h, [])
  | Receive_block buffer len => btstack_uart_posix_receive_block s buffer len
  | Send_block data size => btstack_uart_posix_send_block s data size
  | Receive_frame buffer len now => btstack_uart_slip_posix_receive_frame s buffer len now
  | Send_frame frame frame_size => btstack_uart_slip_posix_send_frame s frame frame_size
  | Ready t io => hci_uart_posix_process s t io
  end.

Fixpoint run (s : state) (cs : list call) : state * trace :=
  match cs with
  | [] => (s, [])
  | c :: cs' =>
      let (s1, t1) := step s c in
      let (s2, t2) := run s1 cs' in
      (s2, t1 ++ t2)
  end.

End Driver.

(** ** A codec to run the driver on concrete inputs *)

(** Modelled from the spec: the codec itself is outside the sources, so
    this instance follows the glossary (byte stuffing that escapes the
    delimiter 0xC0) and the scenario of section 8, in which a frame of
    three plain bytes leaves in three one-byte chunks: the encoder stuffs
    the frame and adds nothing, the decoder reports the number of decoded
    bytes when it meets the delimiter after at least one byte. *)
Record sample_slip := {
  enc_pending : list Z;
  dec_capacity : Z;
  dec_pos : Z;
  dec_escape : bool;
  dec_frame_size : Z
}.

Definition sample_stuff (b : Z) : list Z :=
  if b =? 192 then [219; 220]
  else if b =? 219 then [219; 221]
  else [b].

Definition sample_encoder_start (c : sample_slip) (frame : list Z) (len : Z) : sample_slip :=
  {| enc_pending := flat_map sample_stuff (firstn (Z.to_nat len) frame);
     dec_capacity := dec_capacity c; dec_pos := dec_pos c;
     dec_escape := dec_escape c; dec_frame_size := dec_frame_size c |}.

Definition sample_encoder_has_data (c : sample_slip) : Z :=
  match enc_pending c with [] => 0 | _ :: _ => 1 end.

Definition sample_encoder_get_byte (c : sample_slip) : Z * sample_slip :=
  (hd 0 (enc_pending c),
   {| enc_pending := tl (enc_pending c);
      dec_capacity := dec_capacity c; dec_pos := dec_pos c;
      dec_escape := dec_escape c; dec_frame_size := dec_frame_size c |}).

Definition sample_decoder_init (c : sample_slip) (buffer max_size : Z) : sample_slip :=
  {| enc_pending := enc_pending c;
     dec_capacity := max_size; dec_pos := 0;
     dec_escape := false; dec_frame_size := 0 |}.

Definition sample_decoder_process (c : sample_slip) (b : Z) : sample_slip :=
  if b =? 192 then
    {| enc_pending := enc_pending c; dec_capacity := dec_capacity c;
       dec_pos := dec_pos c; dec_escape := false;
       dec_frame_size := dec_pos c |}
  else if b =? 219 then
    {| enc_pending := enc_pending c; dec_capacity := dec_capacity c;
       dec_pos := dec_pos c; dec_escape := true;
       dec_frame_size := dec_frame_size c |}
  else
    {| enc_pending := enc_pending c; dec_capacity := dec_capacity c;
       dec_pos := if dec_pos c <? dec_capacity c then dec_pos c + 1 else dec_pos c;
       dec_escape := false;
       dec_frame_size := dec_frame_size c |}.

#[local] Instance sample_codec : SlipCodec := {|
  slip_t := sample_slip;
  btstack_slip_encoder_start := sample_encoder_start;
  btstack_slip_encoder_has_data := sample_encoder_has_data;
  btstack_slip_encoder_get_byte := sample_encoder_get_byte;
  btstack_slip_decoder_init := sample_decoder_init;
  btstack_slip_decoder_process := sample_decoder_process;
  btstack_slip_decoder_frame_size := dec_frame_size
|}.

(** The statics as the loader leaves them (all zero), with an open
    descriptor and all four handlers registered. *)
Definition sample_state : @state sample_codec :=
  {| transport_data_source_fd := 3;
     bw := {| btstack_uart_block_write_bytes_len := 0;
              btstack_uart_block_write_bytes_data := 0 |};
     br := {| btstack_uart_block_read_bytes_len := 0;
              btstack_uart_block_read_bytes_data := 0 |};
     cb := {| block_sent := true; block_received := true;
              frame_sent := true; frame_received := true |};
     sw := {| btstack_uart_slip_outgoing_buffer := repeat 0 129;
              btstack_uart_slip_write_bytes_len := 0;
              btstack_uart_slip_write_bytes_data := 0;
              btstack_uart_slip_write_active := 0 |};
     sr := {| btstack_uart_slip_receive_buffer := repeat 0 128;
              btstack_uart_slip_receive_pos := 0;
              btstack_uart_slip_receive_len := 0;
              btstack_uart_slip_receive_track_start := 0;
              btstack_uart_slip_receive_start_time := 0;
              btstack_uart_slip_receive_active := 0 |};
     slip := {| enc_pending := []; dec_capacity := 0; dec_pos := 0;
                dec_escape := false; dec_frame_size := 0 |} |}.

(** a dispatch in which the syscall returns [n] and, for a read, leaves
    [data] in the buffer; the clock stands still *)
Definition answer (n : Z) (data : list Z) : syscall :=
  {| sys_start := 0; sys_end := 0; sys_ret := n; sys_data := data; sys_now := 0 |}.

(** ** Reading traces *)

Definition event_eq_dec : forall a b : event, {a = b} + {a <> b}.
Proof.
  pose proof Z.eq_dec. pose proof string_dec.
  pose proof (list_eq_dec Z.eq_dec).
  decide equality; decide equality.
Defined.

Definition sum_ret (ios : list syscall) : Z :=
  fold_right (fun io acc => sys_ret io + acc) 0 ios.

Definition ready_each (t : btstack_data_source_callback_type_t) (ios : list syscall)
    : list call :=
  map (Ready t) ios.

(** the chunk lengths announced by [encode_chunk_and_send], in order *)
Fixpoint chunk_sends (t : trace) : list Z :=
  match t with
  | [] => []
  | log_debug "slip: send %d bytes" [pos] :: t' => pos :: chunk_sends t'
  | _ :: t' => chunk_sends t'
  end.

(** ** What the codec is fed and what it yields *)

(** the bytes [buf[pos]], ..., [buf[pos + n - 1]] *)
Definition window (buf : list Z) (pos n : nat) : list Z :=
  map (fun i => nth i buf 0) (seq pos n).

(** Feeding bytes to the decoder one at a time until it reports a frame:
    the codec afterwards, the number of bytes fed, and the frame size
    reported last (zero if the bytes ran out first). *)
Fixpoint feed {C : SlipCodec} (c : slip_t) (l : list Z) : slip_t * nat * Z :=
  match l with
  | [] => (c, O, 0)
  | b :: l' =>
      let c' := btstack_slip_decoder_process c b in
      if btstack_slip_decoder_frame_size c' =? 0 then
        let '(c'', n, fs) := feed c' l' in (c'', S n, fs)
      else (c', 1%nat, btstack_slip_decoder_frame_size c')
  end.

(** [enc] carries one complete frame for the decoder in state [c]: the
    decoder reports a frame, of size [fs], at the last byte of [enc] and
    not before. *)
Definition frame_encoding {C : SlipCodec} (c : slip_t) (enc : list Z) (fs : Z) : Prop :=
  let '(_, n, fs') := feed c enc in
  n = List.length enc /\ fs' = fs /\ fs <> 0.

(** the encoder in state [c] has exactly [n] more bytes to give *)
Fixpoint encoder_pending {C : SlipCodec} (n : nat) (c : slip_t) : Prop :=
  match n with
  | O => btstack_slip_encoder_has_data c = 0
  | S n' => btstack_slip_encoder_has_data c = 1
            /\ encoder_pending n' (snd (btstack_slip_encoder_get_byte c))
  end.

(** the byte count the driver passes to [read] or [write] on a dispatch *)
Definition syscall_count {C : SlipCodec} (s : state)
    (t : btstack_data_source_callback_type_t) : Z :=
  match t with
  | DATA_SOURCE_CALLBACK_READ =>
      if negb (btstack_uart_slip_receive_active (sr s) =? 0)
      then SLIP_RECEIVE_BUFFER_SIZE
      else btstack_uart_block_read_bytes_len (br s)
  | DATA_SOURCE_CALLBACK_WRITE =>
      if negb (btstack_uart_slip_write_active (sw s) =? 0)
      then btstack_uart_slip_write_bytes_len (sw s)
      else btstack_uart_block_write_bytes_len (bw s)
  | DATA_SOURCE_CALLBACK_POLL => 0
  end.

(** POSIX [read] and [write] return at most the count they were given. *)
Definition posix_ok {C : SlipCodec} (s : state) (c : call) : Prop :=
  match c with
  | Ready t io => sys_ret io <= syscall_count s t
  | _ => True
  end.

Fixpoint run_ok {C : SlipCodec} (s : state) (cs : list call) : Prop :=
  match cs with
  | [] => True
  | c :: cs' => posix_ok s c /\ run_ok (fst (step s c)) cs'
  end.

(** every write of the run makes progress: it returns between one and
    the count it was given *)
Fixpoint writes_progress {C : SlipCodec} (s : state) (ios : list syscall) : Prop :=
  match ios with
  | [] => True
  | io :: ios' =>
      0 < sys_ret io <= syscall_count s DATA_SOURCE_CALLBACK_WRITE
      /\ writes_progress (fst (hci_uart_posix_process s DATA_SOURCE_CALLBACK_WRITE io)) ios'
  end.

(** the cursors of the receive buffer *)
Definition receive_cursors_bounded {C : SlipCodec} (s : state) : Prop :=
  0 <= btstack_uart_slip_receive_pos (sr s)
  /\ btstack_uart_slip_receive_pos (sr s) <= btstack_uart_slip_receive_len (sr s)
  /\ btstack_uart_slip_receive_len (sr s) <= SLIP_RECEIVE_BUFFER_SIZE.

Definition receive_cursors_inv {C : SlipCodec} (s : state) : Prop :=
  receive_cursors_bounded s
  /\ (btstack_uart_slip_receive_pos (sr s) = btstack_uart_slip_receive_len (sr s) ->
      btstack_uart_slip_receive_pos (sr s) = 0 /\ btstack_uart_slip_receive_len (sr s) = 0).

Definition is_send_frame (c : call) : bool :=
  match c with Send_frame _ _ => true | _ => false end.

Definition is_log (e : event) : bool :=
  match e with
  | log_error _ _ | log_info _ _ | log_debug _ _ => true
  | _ => false
  end.

(** events that complete a frame send or disarm write interest *)
Definition completes_write (e : event) : bool :=
  match e with
  | call_frame_sent => true
  | btstack_run_loop_disable_data_source_callbacks DATA_SOURCE_CALLBACK_WRITE => true
  | _ => false
  end.

(** ** Vocabulary for whole runs *)

Definition is_ready (c : call) : bool :=
  match c with Ready _ _ => true | _ => false end.

(** the bytes moved by a list of syscall answers: failed and empty
    syscalls move none *)
Definition sum_pos (ios : list syscall) : Z :=
  fold_right (fun io acc => Z.max 0 (sys_ret io) + acc) 0 ios.

Definition is_handler_call (e : event) : bool :=
  match e with
  | call_block_sent | call_block_received | call_frame_sent
  | call_frame_received _ | call_null => true
  | _ => false
  end.

(** [e], if it is a write syscall, covers the bytes up to [stop] *)
Definition writes_up_to (stop : Z) (e : event) : Prop :=
  match e with
  | sys_write _ data len => data + len = stop
  | _ => True
  end.

(** [e], if it is a read syscall, asks for no byte *)
Definition reads_nothing (e : event) : Prop :=
  match e with
  | sys_read _ len => len = 0
  | _ => True
  end.

Definition is_setter (c : call) : bool :=
  match c with
  | Set_block_received _ | Set_block_sent _
  | Set_frame_received _ | Set_frame_sent _ => true
  | _ => false
  end.

(** [e] is a handler invocation that the handler table [k] justifies: a
    handler that is stored, or the call through NULL when [frame_received]
    is not *)
Definition justified (k : callbacks_t) (e : event) : bool :=
  match e with
  | call_block_sent => block_sent k
  | call_block_received => block_received k
  | call_frame_sent => frame_sent k
  | call_frame_received _ => frame_received k
  | call_null => negb (frame_received k)
  | _ => true
  end.

(** no handler is invoked in [t], unless as its very last event *)
Definition handler_only_last (t : trace) : Prop :=
  exists t' tl,
    t = t' ++ tl
    /\ forallb (fun e => negb (is_handler_call e)) t' = true
    /\ (List.length tl <= 1)%nat.

(** the chunk in flight lies inside the outgoing buffer, whose size is
    the declared [SLIP_TX_CHUNK_LEN + 1] *)
Definition send_chunk_inv {C : SlipCodec} (s : state) : Prop :=
  Z.of_nat (List.length (btstack_uart_slip_outgoing_buffer (sw s))) = SLIP_TX_CHUNK_LEN + 1
  /\ 0 <= btstack_uart_slip_write_bytes_data (sw s)
  /\ 0 <= btstack_uart_slip_write_bytes_len (sw s)
  /\ btstack_uart_slip_write_bytes_data (sw s) + btstack_uart_slip_write_bytes_len (sw s)
     <= SLIP_TX_CHUNK_LEN.

(** the next [n] bytes the encoder gives, and the encoder after them *)
Fixpoint encoder_take {C : SlipCodec} (n : nat) (c : slip_t) : list Z * slip_t :=
  match n with
  | O => ([], c)
  | S n' =>
      let (b, c') := btstack_slip_encoder_get_byte c in
      let (l, c'') := encoder_take n' c' in
      (b :: l, c'')
  end.

(** the frame sizes handed to [frame_received], in order *)
Definition frame_calls (t : trace) : list Z :=
  flat_map (fun e => match e with call_frame_received n => [n] | _ => [] end) t.

Definition is_sys_read (e : event) : bool :=
  match e with sys_read _ _ => true | _ => false end.

Definition arms_read (e : event) : bool :=
  match e with
  | btstack_run_loop_enable_data_source_callbacks DATA_SOURCE_CALLBACK_READ => true
  | _ => false
  end.

(** One expected frame: its encoding on the wire, the size the decoder
    reports for it, and the arguments of the [receive_frame] call that is
    to take it. *)
Record frame_req := {
  fr_enc : list Z;
  fr_size : Z;
  fr_buffer : Z;
  fr_len : Z;
  fr_now : Z
}.

Definition receive_frame_call (r : frame_req) : call :=
  Receive_frame (fr_buffer r) (fr_len r) (fr_now r).

(** [r]'s encoding is a complete frame for the decoder as
    [decoder_init] leaves it, whatever the codec did before *)
Definition frame_req_ok {C : SlipCodec} (r : frame_req) : Prop :=
  forall c, frame_encoding (btstack_slip_decoder_init c (fr_buffer r) (fr_len r))
                           (fr_enc r) (fr_size r).

(** ** Serial port configuration *)

(** [struct termios], with the members the driver and the library
    functions it calls work on; flag words are [tcflag_t] values kept as
    non-negative [Z]. *)
Record termios := {
  c_iflag : Z;
  c_oflag : Z;
  c_cflag : Z;
  c_lflag : Z;
  c_cc : list Z;
  c_ispeed : Z;
  c_ospeed : Z
}.

(** What <termios.h> and <fcntl.h> provide: flag masks, indices into
    [c_cc], speed constants, and the library functions on [struct
    termios].  They belong to the platform, not to the driver, which is
    written against any of them. *)
Class Platform := {
  PARENB : Z; CRTSCTS : Z; CSTOPB : Z; CS8 : Z; CREAD : Z; CLOCAL : Z;
  IXON : Z; IXOFF : Z; IXANY : Z;
  VMIN : Z; VTIME : Z;
  B57600 : Z; B115200 : Z; B230400 : Z; B460800 : Z; B921600 : Z;
  O_RDWR : Z; O_NOCTTY : Z; O_NONBLOCK : Z;
  TCSANOW : Z;
  cfmakeraw : termios -> termios;
  cfsetospeed : termios -> Z -> termios;
  cfsetispeed : termios -> Z -> termios
}.

(** Modelled from the spec: the configuration structure (btstack_uart.h)
    is not among the sources; section 6 has [open(device_name, baud_rate,
    flow_control)], and these are the three members [open] reads, under
    the names the code uses. *)
Record btstack_uart_config_t := {
  baudrate : Z;
  flowcontrol : Z;
  device_name : string
}.

(** calls to the operating system and the run loop made while
    configuring; log arguments are not recorded *)
Inductive os_event :=
| os_open (name : string) (flags : Z)
| os_tcgetattr (fd : Z)
| os_tcsetattr (fd : Z) (optional_actions : Z) (toptions : termios)
| os_log_error (fmt : string)
| os_log_info (fmt : string) (args : list Z)
| os_set_data_source_fd (fd : Z)
| os_set_data_source_handler
| os_add_data_source
| os_usleep (usec : Z).

(** the answers to one [tcgetattr] and the [tcsetattr] that follows it *)
Record tc_answer := {
  tcget_ret : Z;
  tcget_attr : termios;
  tcset_ret : Z
}.

Definition set_c_cflag (v : Z) (t : termios) : termios :=
  {| c_iflag := c_iflag t; c_oflag := c_oflag t; c_cflag := v; c_lflag := c_lflag t;
     c_cc := c_cc t; c_ispeed := c_ispeed t; c_ospeed := c_ospeed t |}.
Definition set_c_iflag (v : Z) (t : termios) : termios :=
  {| c_iflag := v; c_oflag := c_oflag t; c_cflag := c_cflag t; c_lflag := c_lflag t;
     c_cc := c_cc t; c_ispeed := c_ispeed t; c_ospeed := c_ospeed t |}.
Definition set_c_cc (v : list Z) (t : termios) : termios :=
  {| c_iflag := c_iflag t; c_oflag := c_oflag t; c_cflag := c_cflag t; c_lflag := c_lflag t;
     c_cc := v; c_ispeed := c_ispeed t; c_ospeed := c_ospeed t |}.

Section Configuration.
Context {C : SlipCodec} {P : Platform}.

(** [c_cflag |= PARENB] or [c_cflag &= ~PARENB] *)
Definition btstack_uart_posix_set_parity_option (toptions : termios) (parity : Z) : termios :=
  if negb (parity =? 0)
  then set_c_cflag (Z.lor (c_cflag toptions) PARENB) toptions
  else set_c_cflag (Z.land (c_cflag toptions) (Z.lnot PARENB)) toptions.

Definition btstack_uart_posix_set_flowcontrol_option
    (toptions : termios) (flowcontrol : Z) : termios :=
  if negb (flowcontrol =? 0)
  then set_c_cflag (Z.lor (c_cflag toptions) CRTSCTS) toptions
  else set_c_cflag (Z.land (c_cflag toptions) (Z.lnot CRTSCTS)) toptions.

Definition btstack_uart_posix_set_parity
    (s : state) (parity : Z) (a : tc_answer) : list os_event * Z :=
  let fd := transport_data_source_fd s in
  if tcget_ret a <? 0 then
    ([os_tcgetattr fd;
      os_log_error "btstack_uart_posix_set_parity: Couldn't get term attributes"], -1)
  else
    let toptions := btstack_uart_posix_set_parity_option (tcget_attr a) parity in
    if tcset_ret a <? 0 then
      ([os_tcgetattr fd; os_tcsetattr fd TCSANOW toptions;
        os_log_error "posix_set_parity: Couldn't set term attributes"], -1)
    else
      ([os_tcgetattr fd; os_tcsetattr fd TCSANOW toptions], 0).

Definition btstack_uart_posix_set_flowcontrol
    (s : state) (flowcontrol : Z) (a : tc_answer) : list os_event * Z :=
  let fd := transport_data_source_fd s in
  if tcget_ret a <? 0 then
    ([os_tcgetattr fd;
      os_log_error "btstack_uart_posix_set_parity: Couldn't get term attributes"], -1)
  else
    let toptions := btstack_uart_posix_set_flowcontrol_option (tcget_attr a) flowcontrol in
    if tcset_ret a <? 0 then
      ([os_tcgetattr fd; os_tcsetattr fd TCSANOW toptions;
        os_log_error "posix_set_flowcontrol: Couldn't set term attributes"], -1)
    else
      ([os_tcgetattr fd; os_tcsetattr fd TCSANOW toptions], 0).

(** The [switch] of [btstack_uart_posix_set_baudrate], in the build
    without [__APPLE__], with [B230400], [B460800] and [B921600] defined
    and none of the [HAVE_POSIX_B..._MAPPED_TO_...] macros: the cases
    for 2000000 and 3000000 then only [break]. *)
Definition baudrate_to_speed (baudrate : Z) : Z :=
  if baudrate =? 57600 then B57600
  else if baudrate =? 115200 then B115200
  else if baudrate =? 230400 then B230400
  else if baudrate =? 460800 then B460800
  else if baudrate =? 921600 then B921600
  else baudrate.

Definition btstack_uart_posix_set_baudrate
    (s : state) (baudrate : Z) (a : tc_answer) : list os_event * Z :=
  let fd := transport_data_source_fd s in
  let t0 := os_log_info "h4_set_baudrate %u" [baudrate] in
  if tcget_ret a <? 0 then
    ([t0; os_tcgetattr fd;
      os_log_error "btstack_uart_posix_set_baudrate: Couldn't get term attributes"], -1)
  else
    let brate := baudrate_to_speed baudrate in
    let toptions := cfsetispeed (cfsetospeed (tcget_attr a) brate) brate in
    if tcset_ret a <? 0 then
      ([t0; os_tcgetattr fd; os_tcsetattr fd TCSANOW toptions;
        os_log_error "btstack_uart_posix_set_baudrate: Couldn't set term attributes"], -1)
    else
      ([t0; os_tcgetattr fd; os_tcsetattr fd TCSANOW toptions], 0).

(** the attributes [btstack_uart_posix_open] builds from the ones it
    read: raw mode, 8N1, receiver on, no software flow control, one byte
    at a time, no parity, hardware flow control as configured *)
Definition open_attributes (toptions : termios) (flowcontrol : Z) : termios :=
  let toptions := cfmakeraw toptions in
  let toptions := set_c_cflag (Z.land (c_cflag toptions) (Z.lnot CSTOPB)) toptions in
  let toptions := set_c_cflag (Z.lor (c_cflag toptions) CS8) toptions in
  let toptions := set_c_cflag (Z.lor (c_cflag toptions) (Z.lor CREAD CLOCAL)) toptions in
  let toptions :=
    set_c_iflag (Z.land (c_iflag toptions) (Z.lnot (Z.lor (Z.lor IXON IXOFF) IXANY)))
                toptions in
  let toptions := set_c_cc (array_set (c_cc toptions) VMIN 1) toptions in
  let toptions := set_c_cc (array_set (c_cc toptions) VTIME 0) toptions in
  let toptions := btstack_uart_posix_set_parity_option toptions 0 in
  btstack_uart_posix_set_flowcontrol_option toptions flowcontrol.

(** [uart_config] is the static that [btstack_uart_posix_init] stores;
    [open_ret] is what [open] returns, [a1] answers the [tcgetattr] and
    [tcsetattr] of [open] itself, [a2] those of [set_baudrate]. *)
Definition btstack_uart_posix_open
    (uart_config : btstack_uart_config_t) (s : state)
    (open_ret : Z) (a1 a2 : tc_answer) : state * list os_event * Z :=
  let flags := Z.lor (Z.lor O_RDWR O_NOCTTY) O_NONBLOCK in
  let fd := open_ret in
  let t_open := os_open (device_name uart_config) flags in
  if fd =? -1 then
    (s, [t_open; os_log_error "posix_open: Unable to open port %s"], -1)
  else if tcget_ret a1 <? 0 then
    (s, [t_open; os_tcgetattr fd;
         os_log_error "posix_open: Couldn't get term attributes"], -1)
  else
    let toptions := open_attributes (tcget_attr a1) (flowcontrol uart_config) in
    if tcset_ret a1 <? 0 then
      (s, [t_open; os_tcgetattr fd; os_tcsetattr fd TCSANOW toptions;
           os_log_error "posix_open: Couldn't set term attributes"], -1)
    else
      (* store fd in data source, also set baudrate *)
      let s1 := set_fd fd s in
      let t := [t_open; os_tcgetattr fd; os_tcsetattr fd TCSANOW toptions] in
      let (tb, rb) := btstack_uart_posix_set_baudrate s1 (baudrate uart_config) a2 in
      if rb <? 0 then (s1, t ++ tb, -1)
      else
        (s1,
         t ++ tb ++ [os_set_data_source_fd fd; os_set_data_source_handler;
                     os_add_data_source; os_usleep 100000],
         0).

End Configuration.

(** ** A platform to run the configuration on concrete inputs *)

(** The constants have the values of Linux (asm-generic/termbits.h,
    fcntl.h).  The library functions are simple stand-ins: [cfmakeraw]
    clears and sets the flags its manual page lists, the speed setters
    store the speed. *)
#[local] Instance sample_platform : Platform := {|
  PARENB := 256; CRTSCTS := 2147483648; CSTOPB := 64; CS8 := 48;
  CREAD := 128; CLOCAL := 2048;
  IXON := 1024; IXOFF := 4096; IXANY := 2048;
  VMIN := 6; VTIME := 5;
  B57600 := 4097; B115200 := 4098; B230400 := 4099; B460800 := 4100; B921600 := 4103;
  O_RDWR := 2; O_NOCTTY := 256; O_NONBLOCK := 2048;
  TCSANOW := 0;
  cfmakeraw := fun t =>
    {| c_iflag := Z.land (c_iflag t) (Z.lnot 1515);
       c_oflag := Z.land (c_oflag t) (Z.lnot 1);
       c_cflag := Z.lor (Z.land (c_cflag t) (Z.lnot 304)) 48;
       c_lflag := Z.land (c_lflag t) (Z.lnot 32843);
       c_cc := array_set (array_set (c_cc t) 6 1) 5 0;
       c_ispeed := c_ispeed t; c_ospeed := c_ospeed t |};
  cfsetospeed := fun t speed =>
    {| c_iflag := c_iflag t; c_oflag := c_oflag t; c_cflag := c_cflag t;
       c_lflag := c_lflag t; c_cc := c_cc t;
       c_ispeed := c_ispeed t; c_ospeed := speed |};
  cfsetispeed := fun t speed =>
    {| c_iflag := c_iflag t; c_oflag := c_oflag t; c_cflag := c_cflag t;
       c_lflag := c_lflag t; c_cc := c_cc t;
       c_ispeed := speed; c_ospeed := c_ospeed t |}
|}.

Definition sample_termios : termios :=
  {| c_iflag := 1280; c_oflag := 5; c_cflag := 3261; c_lflag := 35387;
     c_cc := repeat 0 32; c_ispeed := 13; c_ospeed := 13 |}.

Definition sample_config : btstack_uart_config_t :=
  {| baudrate := 115200; flowcontrol := 1; device_name := "/dev/ttyUSB0" |}.

Definition tc_ok (t : termios) : tc_answer :=
  {| tcget_ret := 0; tcget_attr := t; tcset_ret := 0 |}.

(** * Properties *)


(** closed goals over concrete states *)
Ltac by_compute :=
  vm_compute; repeat split;
  first [ reflexivity | discriminate | (intro; discriminate) | lia ].

Lemma log_slow_no_event (fmt : string) (io : syscall) (e : event) :
  (forall f a, e <> log_info f a) -> ~ In e (log_slow fmt io).
Proof.
  intros He. unfold log_slow. destruct (10 <? _); simpl; [|tauto].
  intros [H|[]]. symmetry in H. now apply He in H.
Qed.

(** ** Block write *)

(** One write-readiness dispatch of a pending block write on which the
    syscall makes progress. *)
Lemma block_write_dispatch {C : SlipCodec} (s : state) (io : syscall) :
  0 <= transport_data_source_fd s ->
  btstack_uart_slip_write_active (sw s) = 0 ->
  btstack_uart_block_write_bytes_len (bw s) <> 0 ->
  0 < sys_ret io ->
  hci_uart_posix_process s DATA_SOURCE_CALLBACK_WRITE io =
  (set_bw {| btstack_uart_block_write_bytes_len :=
               btstack_uart_block_write_bytes_len (bw s) - sys_ret io;
             btstack_uart_block_write_bytes_data :=
               btstack_uart_block_write_bytes_data (bw s) + sys_ret io |} s,
   (sys_write (transport_data_source_fd s)
              (btstack_uart_block_write_bytes_data (bw s))
              (btstack_uart_block_write_bytes_len (bw s))
    :: log_slow "write took %u ms" io)
   ++ (if btstack_uart_block_write_bytes_len (bw s) - sys_ret io =? 0
       then btstack_run_loop_disable_data_source_callbacks DATA_SOURCE_CALLBACK_WRITE
            :: (if block_sent (cb s) then [call_block_sent] else [])
       else [btstack_run_loop_enable_data_source_callbacks DATA_SOURCE_CALLBACK_WRITE])).
Proof.
  intros Hfd Hact Hlen Hret.
  unfold hci_uart_posix_process, btstack_uart_block_posix_process_write.
  rewrite Hact; simpl.
  destruct (Z.ltb_spec (transport_data_source_fd s) 0); [lia|].
  destruct (Z.eqb_spec (btstack_uart_block_write_bytes_len (bw s)) 0); [lia|].
  destruct (Z.eqb_spec (sys_ret io) 0); [lia|].
  destruct (Z.ltb_spec (sys_ret io) 0); [lia|].
  destruct (Z.eqb_spec (btstack_uart_block_write_bytes_len (bw s) - sys_ret io) 0);
    reflexivity.
Qed.

(** While the partial writes stay short of the requested length, the
    dispatches only shrink the remaining length and never call the
    handler. *)
Lemma block_write_partial {C : SlipCodec} (ios : list syscall) (s : state) :
  0 <= transport_data_source_fd s ->
  btstack_uart_slip_write_active (sw s) = 0 ->
  Forall (fun io => 0 < sys_ret io) ios ->
  sum_ret ios < btstack_uart_block_write_bytes_len (bw s) ->
  let (s1, t1) := run s (ready_each DATA_SOURCE_CALLBACK_WRITE ios) in
  btstack_uart_block_write_bytes_len (bw s1) =
    btstack_uart_block_write_bytes_len (bw s) - sum_ret ios /\
  transport_data_source_fd s1 = transport_data_source_fd s /\
  sw s1 = sw s /\ cb s1 = cb s /\
  ~ In call_block_sent t1 /\
  ~ In (btstack_run_loop_disable_data_source_callbacks DATA_SOURCE_CALLBACK_WRITE) t1.
Proof.
  revert s; induction ios as [|io ios IH]; intros s Hfd Hact Hpos Hsum; simpl in *.
  - repeat split; try lia; tauto.
  - inversion Hpos as [|? ? Hio Hrest]; subst.
    assert (Hs : 0 <= sum_ret ios).
    { clear - Hrest. induction Hrest; simpl; lia. }
    rewrite block_write_dispatch by (auto; lia).
    destruct (Z.eqb_spec (btstack_uart_block_write_bytes_len (bw s) - sys_ret io) 0); [lia|].
    match goal with |- context [run ?s' _] => specialize (IH s') end.
    simpl in IH. specialize (IH Hfd Hact Hrest ltac:(lia)).
    destruct (run _ _) as [s2 t2].
    destruct IH as (H1 & H2 & H3 & H4 & H5 & H6).
    repeat split; auto; try lia.
    + rewrite in_app_iff. intros [H|H]; [|tauto].
      simpl in H. rewrite in_app_iff in H. simpl in H.
      destruct H as [H|[H|[H|[]]]]; try discriminate.
      revert H. apply log_slow_no_event. discriminate.
    + rewrite in_app_iff. intros [H|H]; [|tauto].
      simpl in H. rewrite in_app_iff in H. simpl in H.
      destruct H as [H|[H|[H|[]]]]; try discriminate.
      revert H. apply log_slow_no_event. discriminate.
Qed.

Lemma sum_ret_app (a b : list syscall) : sum_ret (a ++ b) = sum_ret a + sum_ret b.
Proof. induction a; simpl; lia. Qed.

Lemma sum_ret_nonneg (ios : list syscall) :
  Forall (fun io => 0 < sys_ret io) ios -> 0 <= sum_ret ios.
Proof. induction 1; simpl; lia. Qed.

Lemma sum_ret_firstn (n : nat) (ios : list syscall) :
  Forall (fun io => 0 < sys_ret io) ios -> sum_ret (firstn n ios) <= sum_ret ios.
Proof.
  intros H. rewrite <- (firstn_skipn n ios) at 2. rewrite sum_ret_app.
  assert (Hs : Forall (fun io => 0 < sys_ret io) (skipn n ios)).
  { rewrite <- (firstn_skipn n ios) in H. now apply Forall_app in H. }
  apply sum_ret_nonneg in Hs. lia.
Qed.

Lemma Forall_firstn {A} (P : A -> Prop) (n : nat) (l : list A) :
  Forall P l -> Forall P (firstn n l).
Proof.
  intros H. rewrite <- (firstn_skipn n l) in H. now apply Forall_app in H.
Qed.

(** C1: a block send of length [L] whose partial writes, over the
    dispatches [ios ++ [last]], are positive and sum to [L]: after every
    number of the earlier dispatches the remaining length is still
    positive and [block_sent] has not been called nor write interest
    disarmed; the dispatch that brings the remaining length to zero ends
    with the disarming of write interest immediately followed by the one
    and only call of [block_sent]. *)
Theorem block_send_callback_once {C : SlipCodec}
    (s : state) (data L : Z) (ios : list syscall) (last : syscall) :
  0 <= transport_data_source_fd s ->
  btstack_uart_slip_write_active (sw s) = 0 ->
  block_sent (cb s) = true ->
  Forall (fun io => 0 < sys_ret io) (ios ++ [last]) ->
  sum_ret (ios ++ [last]) = L ->
  let (s0, t0) := btstack_uart_posix_send_block s data L in
  (forall n : nat,
     let (sn, tn) := run s0 (ready_each DATA_SOURCE_CALLBACK_WRITE (firstn n ios)) in
     0 < btstack_uart_block_write_bytes_len (bw sn) /\
     ~ In call_block_sent tn /\
     ~ In (btstack_run_loop_disable_data_source_callbacks DATA_SOURCE_CALLBACK_WRITE) tn) /\
  let (s1, t1) := run s0 (ready_each DATA_SOURCE_CALLBACK_WRITE ios) in
  let (s2, t2) := hci_uart_posix_process s1 DATA_SOURCE_CALLBACK_WRITE last in
  btstack_uart_block_write_bytes_len (bw s2) = 0 /\
  (exists t, t2 = t ++ [btstack_run_loop_disable_data_source_callbacks DATA_SOURCE_CALLBACK_WRITE;
                        call_block_sent]
             /\ ~ In call_block_sent t) /\
  count_occ event_eq_dec (t0 ++ t1 ++ t2) call_block_sent = 1%nat.
Proof.
  intros Hfd Hact Hcb Hpos Hsum.
  apply Forall_app in Hpos as [Hpos Hlast].
  inversion Hlast as [|? ? Hl _]; subst.
  rewrite sum_ret_app in *. simpl in *.
  pose proof (sum_ret_nonneg ios Hpos) as Hnn.
  set (s0 := set_bw _ s).
  assert (Hlen0 : btstack_uart_block_write_bytes_len (bw s0)
                  = sum_ret ios + (sys_ret last + 0)) by reflexivity.
  split.
  - intros n.
    pose proof (block_write_partial (firstn n ios) s0 Hfd Hact
                  (Forall_firstn _ n ios Hpos)) as H.
    pose proof (sum_ret_firstn n ios Hpos).
    specialize (H ltac:(lia)).
    destruct (run s0 _) as [sn tn].
    destruct H as (H1 & _ & _ & _ & H5 & H6). repeat split; auto. lia.
  - pose proof (block_write_partial ios s0 Hfd Hact Hpos ltac:(lia)) as H.
    destruct (run s0 _) as [s1 t1].
    destruct H as (H1 & H2 & H3 & H4 & H5 & H6).
    rewrite block_write_dispatch by (try rewrite H2; try rewrite H3; auto; lia).
    change (block_sent (cb s0) = true) in Hcb.
    rewrite H1, Hlen0, H4, Hcb.
    replace (sum_ret ios + (sys_ret last + 0) - sum_ret ios - sys_ret last) with 0 by lia.
    simpl. split; [reflexivity|]. split.
    + exists (sys_write (transport_data_source_fd s1)
                        (btstack_uart_block_write_bytes_data (bw s1))
                        (sum_ret ios + (sys_ret last + 0) - sum_ret ios)
              :: log_slow "write took %u ms" last).
      split; [reflexivity|].
      simpl. intros [H|H]; [discriminate|].
      revert H. apply log_slow_no_event. discriminate.
    + rewrite count_occ_app.
      rewrite (proj1 (count_occ_not_In event_eq_dec t1 call_block_sent) H5).
      simpl. rewrite count_occ_app.
      rewrite (proj1 (count_occ_not_In event_eq_dec _ call_block_sent)
                 (log_slow_no_event "write took %u ms" last call_block_sent
                    ltac:(discriminate))).
      reflexivity.
Qed.

Lemma block_send_callback_once_witness :
  let s0 := fst (btstack_uart_posix_send_block sample_state 0 10) in
  let s1 := fst (run s0 (ready_each DATA_SOURCE_CALLBACK_WRITE [answer 3 []; answer 4 []])) in
  0 < btstack_uart_block_write_bytes_len (bw s1) /\
  snd (hci_uart_posix_process s1 DATA_SOURCE_CALLBACK_WRITE (answer 3 []))
  = [sys_write 3 7 3;
     btstack_run_loop_disable_data_source_callbacks DATA_SOURCE_CALLBACK_WRITE;
     call_block_sent].
Proof.
  pose proof (block_send_callback_once sample_state 0 10
                [answer 3 []; answer 4 []] (answer 3 [])) as H.
  simpl in H.
  specialize (H ltac:(lia) eq_refl eq_refl
                ltac:(repeat constructor) eq_refl).
  destruct H as [Hn _]. specialize (Hn 2%nat). destruct Hn as [Hn _].
  split; [exact Hn | reflexivity].
Defined.

(** ** Block read *)

Lemma wrap16_small (z : Z) : 0 <= z < 65536 -> wrap16 z = z.
Proof. intros H. unfold wrap16. now apply Z.mod_small. Qed.

(** One read-readiness dispatch of a pending block read on which the
    syscall delivers between one and the requested number of bytes. *)
Lemma block_read_dispatch {C : SlipCodec} (s : state) (io : syscall) :
  0 <= transport_data_source_fd s ->
  btstack_uart_slip_receive_active (sr s) = 0 ->
  btstack_uart_block_read_bytes_len (br s) < 65536 ->
  0 < sys_ret io <= btstack_uart_block_read_bytes_len (br s) ->
  hci_uart_posix_process s DATA_SOURCE_CALLBACK_READ io =
  (set_br {| btstack_uart_block_read_bytes_len :=
               btstack_uart_block_read_bytes_len (br s) - sys_ret io;
             btstack_uart_block_read_bytes_data :=
               btstack_uart_block_read_bytes_data (br s) + sys_ret io |} s,
   (sys_read (transport_data_source_fd s) (btstack_uart_block_read_bytes_len (br s))
    :: log_slow "read took %u ms" io)
   ++ (if btstack_uart_block_read_bytes_len (br s) - sys_ret io =? 0
       then btstack_run_loop_disable_data_source_callbacks DATA_SOURCE_CALLBACK_READ
            :: (if block_received (cb s) then [call_block_received] else [])
       else [])).
Proof.
  intros Hfd Hact Hlen Hret.
  unfold hci_uart_posix_process, btstack_uart_block_posix_process_read.
  rewrite Hact; simpl.
  rewrite wrap16_small by lia.
  destruct (Z.ltb_spec (transport_data_source_fd s) 0); [lia|].
  destruct (Z.eqb_spec (btstack_uart_block_read_bytes_len (br s)) 0); [lia|].
  destruct (Z.eqb_spec (sys_ret io) 0); [lia|].
  destruct (Z.ltb_spec (sys_ret io) 0); [lia|].
  destruct (Z.eqb_spec (btstack_uart_block_read_bytes_len (br s) - sys_ret io) 0);
    destruct (Z.ltb_spec 0 (btstack_uart_block_read_bytes_len (br s) - sys_ret io));
    try lia; simpl; [reflexivity | now rewrite app_nil_r].
Qed.

Lemma block_read_partial {C : SlipCodec} (ios : list syscall) (s : state) :
  0 <= transport_data_source_fd s ->
  btstack_uart_slip_receive_active (sr s) = 0 ->
  btstack_uart_block_read_bytes_len (br s) < 65536 ->
  Forall (fun io => 0 < sys_ret io) ios ->
  sum_ret ios < btstack_uart_block_read_bytes_len (br s) ->
  let (s1, t1) := run s (ready_each DATA_SOURCE_CALLBACK_READ ios) in
  btstack_uart_block_read_bytes_len (br s1) =
    btstack_uart_block_read_bytes_len (br s) - sum_ret ios /\
  transport_data_source_fd s1 = transport_data_source_fd s /\
  sr s1 = sr s /\ cb s1 = cb s /\
  ~ In call_block_received t1 /\
  ~ In (btstack_run_loop_disable_data_source_callbacks DATA_SOURCE_CALLBACK_READ) t1.
Proof.
  revert s; induction ios as [|io ios IH]; intros s Hfd Hact Hlt Hpos Hsum; simpl in *.
  - repeat split; try lia; tauto.
  - inversion Hpos as [|? ? Hio Hrest]; subst.
    pose proof (sum_ret_nonneg ios Hrest) as Hs.
    rewrite block_read_dispatch by (auto; lia).
    destruct (Z.eqb_spec (btstack_uart_block_read_bytes_len (br s) - sys_ret io) 0); [lia|].
    match goal with |- context [run ?s' _] => specialize (IH s') end.
    simpl in IH. specialize (IH Hfd Hact ltac:(lia) Hrest ltac:(lia)).
    destruct (run _ _) as [s2 t2].
    destruct IH as (H1 & H2 & H3 & H4 & H5 & H6).
    repeat split; auto; try lia.
    + rewrite in_app_iff. intros [H|H]; [|tauto].
      rewrite app_nil_r in H. simpl in H.
      destruct H as [H|H]; try discriminate.
      revert H. apply log_slow_no_event. discriminate.
    + rewrite in_app_iff. intros [H|H]; [|tauto].
      rewrite app_nil_r in H. simpl in H.
      destruct H as [H|H]; try discriminate.
      revert H. apply log_slow_no_event. discriminate.
Qed.

(** C2: a block receive of length [L] (a [uint16_t]) whose reads, over
    the dispatches [ios ++ [last]], are positive and sum to [L]: as long
    as the bytes read stay short of [L] the remaining length is positive
    and [block_received] has not been called; the dispatch on which the
    bytes read reach [L] disarms read interest and then calls
    [block_received], and this is its only call. *)
Theorem block_receive_callback_once {C : SlipCodec}
    (s : state) (buffer L : Z) (ios : list syscall) (last : syscall) :
  0 <= transport_data_source_fd s ->
  btstack_uart_slip_receive_active (sr s) = 0 ->
  block_received (cb s) = true ->
  L < 65536 ->
  Forall (fun io => 0 < sys_ret io) (ios ++ [last]) ->
  sum_ret (ios ++ [last]) = L ->
  let (s0, t0) := btstack_uart_posix_receive_block s buffer L in
  (forall n : nat,
     let (sn, tn) := run s0 (ready_each DATA_SOURCE_CALLBACK_READ (firstn n ios)) in
     0 < btstack_uart_block_read_bytes_len (br sn) /\
     btstack_uart_block_read_bytes_len (br sn) = L - sum_ret (firstn n ios) /\
     ~ In call_block_received tn /\
     ~ In (btstack_run_loop_disable_data_source_callbacks DATA_SOURCE_CALLBACK_READ) tn) /\
  let (s1, t1) := run s0 (ready_each DATA_SOURCE_CALLBACK_READ ios) in
  let (s2, t2) := hci_uart_posix_process s1 DATA_SOURCE_CALLBACK_READ last in
  btstack_uart_block_read_bytes_len (br s2) = 0 /\
  (exists t, t2 = t ++ [btstack_run_loop_disable_data_source_callbacks DATA_SOURCE_CALLBACK_READ;
                        call_block_received]
             /\ ~ In call_block_received t) /\
  count_occ event_eq_dec (t0 ++ t1 ++ t2) call_block_received = 1%nat.
Proof.
  intros Hfd Hact Hcb HL Hpos Hsum.
  apply Forall_app in Hpos as [Hpos Hlast].
  inversion Hlast as [|? ? Hl _]; subst.
  rewrite sum_ret_app in *. simpl in *.
  pose proof (sum_ret_nonneg ios Hpos) as Hnn.
  set (s0 := set_br _ s).
  assert (Hlen0 : btstack_uart_block_read_bytes_len (br s0)
                  = sum_ret ios + (sys_ret last + 0)) by reflexivity.
  split.
  - intros n.
    pose proof (block_read_partial (firstn n ios) s0 Hfd Hact ltac:(lia)
                  (Forall_firstn _ n ios Hpos)) as H.
    pose proof (sum_ret_firstn n ios Hpos).
    specialize (H ltac:(lia)).
    destruct (run s0 _) as [sn tn].
    destruct H as (H1 & _ & _ & _ & H5 & H6). repeat split; auto; lia.
  - pose proof (block_read_partial ios s0 Hfd Hact ltac:(lia) Hpos ltac:(lia)) as H.
    destruct (run s0 _) as [s1 t1].
    destruct H as (H1 & H2 & H3 & H4 & H5 & H6).
    rewrite block_read_dispatch by (try rewrite H2; try rewrite H3; auto; lia).
    change (block_received (cb s0) = true) in Hcb.
    rewrite H1, Hlen0, H4, Hcb.
    replace (sum_ret ios + (sys_ret last + 0) - sum_ret ios - sys_ret last) with 0 by lia.
    simpl. split; [reflexivity|]. split.
    + exists (sys_read (transport_data_source_fd s1)
                       (sum_ret ios + (sys_ret last + 0) - sum_ret ios)
              :: log_slow "read took %u ms" last).
      split; [reflexivity|].
      simpl. intros [H|H]; [discriminate|].
      revert H. apply log_slow_no_event. discriminate.
    + rewrite count_occ_app.
      rewrite (proj1 (count_occ_not_In event_eq_dec t1 call_block_received) H5).
      simpl. rewrite count_occ_app.
      rewrite (proj1 (count_occ_not_In event_eq_dec _ call_block_received)
                 (log_slow_no_event "read took %u ms" last call_block_received
                    ltac:(discriminate))).
      reflexivity.
Qed.

(** The scenario of the specification: ten bytes arriving as three, then
    seven. *)
Lemma block_receive_callback_once_witness :
  let s0 := fst (btstack_uart_posix_receive_block sample_state 0 10) in
  let r1 := hci_uart_posix_process s0 DATA_SOURCE_CALLBACK_READ (answer 3 []) in
  let r2 := hci_uart_posix_process (fst r1) DATA_SOURCE_CALLBACK_READ (answer 7 []) in
  btstack_uart_block_read_bytes_len (br (fst r1)) = 7 /\
  ~ In call_block_received (snd r1) /\
  snd r2 = [sys_read 3 7;
            btstack_run_loop_disable_data_source_callbacks DATA_SOURCE_CALLBACK_READ;
            call_block_received].
Proof.
  pose proof (block_receive_callback_once sample_state 0 10
                [answer 3 []] (answer 7 [])) as H.
  simpl in H.
  specialize (H ltac:(lia) eq_refl eq_refl ltac:(lia)
                ltac:(repeat constructor) eq_refl).
  destruct H as [Hn _]. specialize (Hn 1%nat).
  destruct Hn as (_ & Hn & Hc & _).
  split; [exact Hn | split; [exact Hc | reflexivity]].
Defined.

(** ** Close *)

(** C9: closing a session whose descriptor is already -1 returns 0 and
    leaves every static, the descriptor included, as it was. *)
Theorem close_closed_session {C : SlipCodec} (s : state) :
  transport_data_source_fd s = -1 ->
  btstack_uart_posix_close_new s =
  (s, [btstack_run_loop_remove_data_source; sys_close (-1)], 0)
  /\ transport_data_source_fd (fst (fst (btstack_uart_posix_close_new s))) = -1.
Proof.
  intros H. unfold btstack_uart_posix_close_new. rewrite H. split; [|reflexivity].
  destruct s; simpl in *; subst; reflexivity.
Qed.

Lemma close_closed_session_witness :
  let closed := fst (fst (btstack_uart_posix_close_new sample_state)) in
  transport_data_source_fd closed = -1 /\
  btstack_uart_posix_close_new closed =
  (closed, [btstack_run_loop_remove_data_source; sys_close (-1)], 0).
Proof.
  split; [reflexivity|].
  apply (close_closed_session (fst (fst (btstack_uart_posix_close_new sample_state)))).
  reflexivity.
Defined.

(** ** The decoder loop *)

Lemma decode_bytes_stop {C : SlipCodec} (fuel : nat) (buf : list Z) (len : Z)
    (c : slip_t) (pos fs : Z) :
  fs <> 0 -> decode_bytes fuel buf len c pos fs = (c, pos, fs).
Proof.
  intros H. destruct fuel; simpl; [reflexivity|].
  destruct (Z.eqb_spec fs 0); [contradiction|].
  now rewrite andb_false_r.
Qed.

(** With fuel for every byte between the cursors, the loop is [feed] over
    the bytes between the cursors. *)
Lemma decode_bytes_feed {C : SlipCodec} (fuel : nat) (buf : list Z) (len : Z)
    (c : slip_t) (pos : Z) :
  0 <= pos -> pos + Z.of_nat fuel = len -> len < 65536 ->
  decode_bytes fuel buf len c pos 0 =
  let '(c', n, fs) := feed c (window buf (Z.to_nat pos) fuel) in
  (c', pos + Z.of_nat n, fs).
Proof.
  revert c pos; induction fuel as [|fuel IH]; intros c pos Hpos Hlen Hmax.
  - simpl. now rewrite Z.add_0_r.
  - cbn [decode_bytes window seq map feed].
    destruct (Z.ltb_spec pos len); [|lia]. cbn [andb Z.eqb].
    set (c' := btstack_slip_decoder_process c (nth (Z.to_nat pos) buf 0)).
    rewrite wrap16_small by lia.
    destruct (Z.eqb_spec (btstack_slip_decoder_frame_size c') 0) as [E|E].
    + rewrite E. rewrite IH by lia.
      replace (Z.to_nat (pos + 1)) with (S (Z.to_nat pos)) by lia.
      fold (window buf (S (Z.to_nat pos)) fuel).
      destruct (feed c' _) as [[c'' n] fs].
      replace (pos + Z.of_nat (S n)) with (pos + 1 + Z.of_nat n) by lia.
      reflexivity.
    + rewrite decode_bytes_stop by assumption. reflexivity.
Qed.

Lemma feed_count {C : SlipCodec} (l : list Z) (c : slip_t) :
  let '(_, n, fs) := feed c l in
  (n <= List.length l)%nat /\ (fs = 0 -> n = List.length l) /\ (fs <> 0 -> (1 <= n)%nat).
Proof.
  revert c; induction l as [|b l IH]; intros c; simpl.
  - repeat split; auto; lia.
  - destruct (Z.eqb_spec (btstack_slip_decoder_frame_size
                            (btstack_slip_decoder_process c b)) 0) as [E|E].
    + specialize (IH (btstack_slip_decoder_process c b)).
      destruct (feed _ l) as [[c'' n] fs].
      destruct IH as (H1 & H2 & H3). repeat split; lia.
    + repeat split; lia.
Qed.

Lemma feed_app_stop {C : SlipCodec} (l r : list Z) (c c' : slip_t) (n : nat) (fs : Z) :
  feed c l = (c', n, fs) -> fs <> 0 -> feed c (l ++ r) = (c', n, fs).
Proof.
  revert c n; induction l as [|b l IH]; intros c n; simpl.
  - intros H Hfs. inversion H; subst. contradiction.
  - destruct (Z.eqb_spec (btstack_slip_decoder_frame_size
                            (btstack_slip_decoder_process c b)) 0) as [E|E].
    + destruct (feed _ l) as [[c1 n1] fs1] eqn:F.
      intros H Hfs. inversion H; subst.
      now rewrite (IH _ _ F Hfs).
    + auto.
Qed.

Lemma window_middle (l1 l2 r : list Z) :
  window (l1 ++ l2 ++ r) (List.length l1) (List.length l2) = l2.
Proof.
  revert l1; induction l2 as [|x l2 IH]; intros l1; [reflexivity|].
  unfold window in *. simpl. rewrite nth_middle. f_equal.
  specialize (IH (l1 ++ [x])).
  rewrite <- app_assoc, length_app in IH. simpl in IH.
  now rewrite Nat.add_1_r in IH.
Qed.

Lemma window_prefix (l r : list Z) : window (l ++ r) 0 (List.length l) = l.
Proof. exact (window_middle [] l r). Qed.

Lemma frame_encoding_feed {C : SlipCodec} (c : slip_t) (enc : list Z) (fs : Z) :
  frame_encoding c enc fs ->
  exists c', feed c enc = (c', List.length enc, fs) /\ fs <> 0 /\ enc <> [].
Proof.
  unfold frame_encoding. destruct (feed c enc) as [[c' n] fs'] eqn:F.
  intros (H1 & H2 & H3). subst. exists c'. repeat split; auto.
  intros ->. simpl in F. inversion F; subst. contradiction.
Qed.

(** What [process_buffer] does, told by what the decoder makes of the
    bytes between the cursors. *)
Lemma process_buffer_feed {C : SlipCodec} (s : state) (now : Z)
    (c : slip_t) (n : nat) (fs : Z) :
  0 <= btstack_uart_slip_receive_pos (sr s) <= btstack_uart_slip_receive_len (sr s) ->
  btstack_uart_slip_receive_len (sr s) < 65536 ->
  feed (slip s)
       (window (btstack_uart_slip_receive_buffer (sr s))
               (Z.to_nat (btstack_uart_slip_receive_pos (sr s)))
               (Z.to_nat (btstack_uart_slip_receive_len (sr s)
                          - btstack_uart_slip_receive_pos (sr s)))) = (c, n, fs) ->
  let '(s', t, found) := btstack_uart_slip_posix_process_buffer s now in
  let full := btstack_uart_slip_receive_pos (sr s) + Z.of_nat n
              =? btstack_uart_slip_receive_len (sr s) in
  found = fs /\ slip s' = c /\
  btstack_uart_slip_receive_buffer (sr s') = btstack_uart_slip_receive_buffer (sr s) /\
  btstack_uart_slip_receive_pos (sr s') =
    (if full then 0 else btstack_uart_slip_receive_pos (sr s) + Z.of_nat n) /\
  btstack_uart_slip_receive_len (sr s') =
    (if full then 0 else btstack_uart_slip_receive_len (sr s)) /\
  btstack_uart_slip_receive_track_start (sr s') =
    btstack_uart_slip_receive_track_start (sr s) /\
  btstack_uart_slip_receive_active (sr s') =
    (if fs =? 0 then btstack_uart_slip_receive_active (sr s) else 0) /\
  transport_data_source_fd s' = transport_data_source_fd s /\
  bw s' = bw s /\ br s' = br s /\ cb s' = cb s /\ sw s' = sw s /\
  t = log_debug "process buffer: pos %u, len %u"
        [btstack_uart_slip_receive_pos (sr s); btstack_uart_slip_receive_len (sr s)]
      :: (if fs =? 0 then []
          else (if btstack_uart_slip_receive_track_start (sr s) =? 0
                then [log_info "frame receive time %u ms"
                        [wrap32 (now - btstack_uart_slip_receive_start_time (sr s))]]
                else [])
               ++ [if frame_received (cb s) then call_frame_received fs else call_null]).
Proof.
  intros Hpos Hlen Hfeed.
  unfold btstack_uart_slip_posix_process_buffer.
  rewrite decode_bytes_feed by lia. rewrite Hfeed.
  destruct (Z.eqb_spec fs 0); simpl; repeat split; reflexivity.
Qed.

Lemma process_buffer_starts {C : SlipCodec} (s : state) (now : Z) :
  exists t,
    snd (fst (btstack_uart_slip_posix_process_buffer s now)) =
    log_debug "process buffer: pos %u, len %u"
      [btstack_uart_slip_receive_pos (sr s); btstack_uart_slip_receive_len (sr s)] :: t.
Proof.
  unfold btstack_uart_slip_posix_process_buffer.
  destruct (decode_bytes _ _ _ _ _ _) as [[c p] f].
  destruct (f =? 0); simpl; eexists; reflexivity.
Qed.

(** ** Frame completion *)

(** C3, as stated, fails: two frames arrive in one read, the decoder
    reports the first (size 2) during buffer processing and
    [frame_received] is called, yet read interest is not disarmed
    anywhere in the run. *)
Lemma frame_completion_disarms_counterexample :
  let '(_, t) :=
    run sample_state
        [Receive_frame 0 100 0;
         Ready DATA_SOURCE_CALLBACK_READ (answer 5 [1; 2; 192; 3; 192])] in
  In (call_frame_received 2) t /\
  ~ In (btstack_run_loop_disable_data_source_callbacks DATA_SOURCE_CALLBACK_READ) t.
Proof.
  vm_compute. split.
  - do 6 right. now left.
  - intros H. repeat (destruct H as [H|H]; [discriminate|]). exact H.
Qed.

(** C3, amended: when the decoder, fed the bytes between the cursors
    one at a time, reports a frame size [fs] greater than zero, buffer
    processing returns that size, clears the receive-active flag (it
    does not disarm read interest), then calls [frame_received] with
    [fs] as the last thing it does; the buffer is untouched, the
    position has moved past exactly the [n] bytes fed, and if bytes are
    left (position < length) the next [receive_frame] starts by
    processing the buffer from that position.  The value returned is the
    decoder's report in every case, so a frame is delivered exactly when
    the decoder reports one. *)
Theorem frame_completion_delivers {C : SlipCodec} (s : state) (now : Z)
    (c : slip_t) (n : nat) (fs : Z) :
  0 <= btstack_uart_slip_receive_pos (sr s) <= btstack_uart_slip_receive_len (sr s) ->
  btstack_uart_slip_receive_len (sr s) < 65536 ->
  frame_received (cb s) = true ->
  feed (slip s)
       (window (btstack_uart_slip_receive_buffer (sr s))
               (Z.to_nat (btstack_uart_slip_receive_pos (sr s)))
               (Z.to_nat (btstack_uart_slip_receive_len (sr s)
                          - btstack_uart_slip_receive_pos (sr s)))) = (c, n, fs) ->
  let '(s', t, frame_size) := btstack_uart_slip_posix_process_buffer s now in
  frame_size = fs /\
  slip s' = c /\
  (0 < fs ->
   ~ In (btstack_run_loop_disable_data_source_callbacks DATA_SOURCE_CALLBACK_READ) t /\
   btstack_uart_slip_receive_active (sr s') = 0 /\
   (exists logs, t = logs ++ [call_frame_received fs]
                 /\ forallb is_log logs = true) /\
   btstack_uart_slip_receive_buffer (sr s') = btstack_uart_slip_receive_buffer (sr s) /\
   (1 <= n)%nat /\
   (if btstack_uart_slip_receive_pos (sr s) + Z.of_nat n
       <? btstack_uart_slip_receive_len (sr s)
    then btstack_uart_slip_receive_pos (sr s')
           = btstack_uart_slip_receive_pos (sr s) + Z.of_nat n
         /\ btstack_uart_slip_receive_len (sr s') = btstack_uart_slip_receive_len (sr s)
    else btstack_uart_slip_receive_pos (sr s') = 0
         /\ btstack_uart_slip_receive_len (sr s') = 0) /\
   (btstack_uart_slip_receive_pos (sr s') < btstack_uart_slip_receive_len (sr s') ->
    forall buffer len now', exists t2,
      snd (btstack_uart_slip_posix_receive_frame s' buffer len now') =
      log_debug "receive block, size %u" [len]
      :: log_debug "process buffer: pos %u, len %u"
           [btstack_uart_slip_receive_pos (sr s'); btstack_uart_slip_receive_len (sr s')]
      :: t2)).
Proof.
  intros Hpos Hlen Hcb F.
  pose proof (process_buffer_feed s now c n fs Hpos Hlen F) as H.
  pose proof (feed_count
                (window (btstack_uart_slip_receive_buffer (sr s))
                        (Z.to_nat (btstack_uart_slip_receive_pos (sr s)))
                        (Z.to_nat (btstack_uart_slip_receive_len (sr s)
                                   - btstack_uart_slip_receive_pos (sr s))))
                (slip s)) as Hn.
  rewrite F in Hn. unfold window in Hn. rewrite length_map, length_seq in Hn.
  destruct (btstack_uart_slip_posix_process_buffer s now) as [[s' t] found].
  destruct H as (-> & Hc & Hbuf & Hp & Hl & Htr & Hact & Hfd & _ & _ & Hcb' & _ & ->).
  split; [reflexivity|]. split; [exact Hc|].
  intros Hfs. destruct Hn as (Hn1 & _ & Hn3). specialize (Hn3 ltac:(lia)).
  destruct (Z.eqb_spec fs 0); [lia|]. rewrite Hcb.
  split; [|split; [exact Hact|split; [|split; [exact Hbuf|split; [exact Hn3|split]]]]].
  - simpl. intros [H|H]; [discriminate|].
    apply in_app_iff in H. destruct H as [H|[H|[]]]; [|discriminate].
    destruct (_ =? 0) in H; simpl in H; [destruct H as [H|[]]; discriminate | exact H].
  - eexists. split; [rewrite app_comm_cons; reflexivity|].
    simpl. destruct (_ =? 0); reflexivity.
  - rewrite Hp, Hl.
    destruct (Z.ltb_spec (btstack_uart_slip_receive_pos (sr s) + Z.of_nat n)
                         (btstack_uart_slip_receive_len (sr s)));
      destruct (Z.eqb_spec (btstack_uart_slip_receive_pos (sr s) + Z.of_nat n)
                           (btstack_uart_slip_receive_len (sr s))); try lia; auto.
  - intros Hleft buffer len now'.
    assert (Hne : btstack_uart_slip_receive_len (sr s') <> 0).
    { rewrite Hp, Hl in Hleft. rewrite Hl.
      destruct (_ =? _); lia. }
    unfold btstack_uart_slip_posix_receive_frame.
    destruct (Z.eqb_spec (btstack_uart_slip_receive_len (sr s')) 0); [contradiction|].
    cbn [negb].
    match goal with
    | |- context [btstack_uart_slip_posix_process_buffer ?s1 ?n1] =>
        destruct (process_buffer_starts s1 n1) as [t2 Ht2];
        destruct (btstack_uart_slip_posix_process_buffer s1 n1) as [[s2 t2'] found]
    end.
    simpl in Ht2. subst t2'.
    destruct (negb (found =? 0)); simpl; eexists; reflexivity.
Qed.

(** The receive is armed, and the read has left two frames in the
    buffer: the decoder reports the first, of size 2, at the third
    byte. *)
Lemma frame_completion_delivers_witness :
  let armed := fst (btstack_uart_slip_posix_receive_frame sample_state 0 100 0) in
  let s := set_sr {| btstack_uart_slip_receive_buffer := [1; 2; 192; 3; 192];
                     btstack_uart_slip_receive_pos := 0;
                     btstack_uart_slip_receive_len := 5;
                     btstack_uart_slip_receive_track_start := 0;
                     btstack_uart_slip_receive_start_time := 0;
                     btstack_uart_slip_receive_active := 1 |} armed in
  snd (feed (slip s) [1; 2; 192; 3; 192]) = 2 /\
  let '(s', t, frame_size) := btstack_uart_slip_posix_process_buffer s 7 in
  frame_size = 2 /\
  btstack_uart_slip_receive_active (sr s') = 0 /\
  btstack_uart_slip_receive_buffer (sr s') = [1; 2; 192; 3; 192] /\
  btstack_uart_slip_receive_pos (sr s') = 3 /\
  btstack_uart_slip_receive_len (sr s') = 5 /\
  In (call_frame_received 2) t.
Proof.
  cbv zeta.
  set (s := set_sr _ _).
  pose proof (frame_completion_delivers s 7
                (fst (fst (feed (slip s) [1; 2; 192; 3; 192]))) 3%nat 2
                ltac:(by_compute) ltac:(by_compute) eq_refl eq_refl) as H.
  split; [reflexivity|].
  destruct (btstack_uart_slip_posix_process_buffer s 7) as [[s' t] frame_size].
  destruct H as (Hfs & _ & H). specialize (H ltac:(lia)).
  destruct H as (_ & Ha & (logs & -> & _) & Hb & _ & Hcur & _).
  change (btstack_uart_slip_receive_pos (sr s')
            = btstack_uart_slip_receive_pos (sr s) + 3
          /\ btstack_uart_slip_receive_len (sr s') = btstack_uart_slip_receive_len (sr s))
    in Hcur.
  destruct Hcur as (Hp & Hl).
  split; [exact Hfs|]. split; [exact Ha|]. split; [exact Hb|].
  split; [exact Hp|]. split; [exact Hl|].
  apply in_or_app. right. left. reflexivity.
Defined.

(** ** receive_frame with bytes already buffered *)

(** C4: [receive_frame] with the cursors at [pos <= len]: if feeding the
    bytes between them to the freshly initialised decoder completes a
    frame (which needs [pos < len]), [frame_received] is called with its
    size inside the call, after nothing but log lines, and read interest
    is not armed; if no frame results, the call ends by arming read
    interest and calls no handler.  So read interest is armed exactly
    when no frame results from the buffered bytes. *)
Theorem receive_frame_drains_buffer {C : SlipCodec} (s : state) (buffer len now : Z) :
  0 <= btstack_uart_slip_receive_pos (sr s) <= btstack_uart_slip_receive_len (sr s) ->
  btstack_uart_slip_receive_len (sr s) < 65536 ->
  frame_received (cb s) = true ->
  let '(_, _, fs) :=
    feed (btstack_slip_decoder_init (slip s) buffer len)
         (window (btstack_uart_slip_receive_buffer (sr s))
                 (Z.to_nat (btstack_uart_slip_receive_pos (sr s)))
                 (Z.to_nat (btstack_uart_slip_receive_len (sr s)
                            - btstack_uart_slip_receive_pos (sr s)))) in
  let (s', t) := btstack_uart_slip_posix_receive_frame s buffer len now in
  (fs <> 0 ->
   btstack_uart_slip_receive_pos (sr s) < btstack_uart_slip_receive_len (sr s) /\
   (exists logs, t = logs ++ [call_frame_received fs] /\ forallb is_log logs = true) /\
   ~ In (btstack_run_loop_enable_data_source_callbacks DATA_SOURCE_CALLBACK_READ) t) /\
  (fs = 0 ->
   (exists logs, t = logs ++ [btstack_run_loop_enable_data_source_callbacks
                                DATA_SOURCE_CALLBACK_READ]
                 /\ forallb is_log logs = true) /\
   forall n, ~ In (call_frame_received n) t) /\
  (In (btstack_run_loop_enable_data_source_callbacks DATA_SOURCE_CALLBACK_READ) t
   <-> fs = 0).
Proof.
  intros Hpos Hlen Hcb.
  destruct (feed _ _) as [[c n] fs] eqn:F.
  unfold btstack_uart_slip_posix_receive_frame.
  destruct (Z.eqb_spec (btstack_uart_slip_receive_len (sr s)) 0) as [E|E]; cbn [negb].
  - (* nothing buffered *)
    replace (Z.to_nat (btstack_uart_slip_receive_len (sr s)
                       - btstack_uart_slip_receive_pos (sr s))) with O in F by lia.
    simpl in F. inversion F; subst.
    split; [intros H; contradiction|]. split.
    + intros _. split.
      * exists [log_debug "receive block, size %u" [len]]. split; reflexivity.
      * intros m [H|[H|[]]]; discriminate.
    + split; [reflexivity|]. intros _. simpl. auto.
  - match goal with
    | |- context [btstack_uart_slip_posix_process_buffer ?s1 now] =>
        pose proof (process_buffer_feed s1 now c n fs Hpos Hlen F) as H;
        destruct (btstack_uart_slip_posix_process_buffer s1 now) as [[s2 t2] found]
    end.
    destruct H as (-> & _ & _ & _ & _ & _ & _ & _ & _ & _ & _ & _ & ->).
    cbn [cb set_slip set_sr sr btstack_uart_slip_receive_track_start
            btstack_uart_slip_receive_pos btstack_uart_slip_receive_len].
    rewrite Hcb. cbn [Z.eqb app].
    pose proof (feed_count
                  (window (btstack_uart_slip_receive_buffer (sr s))
                          (Z.to_nat (btstack_uart_slip_receive_pos (sr s)))
                          (Z.to_nat (btstack_uart_slip_receive_len (sr s)
                                     - btstack_uart_slip_receive_pos (sr s))))
                  (btstack_slip_decoder_init (slip s) buffer len)) as Hn.
    rewrite F in Hn. unfold window in Hn. rewrite length_map, length_seq in Hn.
    destruct Hn as (Hn1 & _ & Hn3).
    destruct (Z.eqb_spec fs 0) as [Hfs|Hfs]; cbn [negb].
    + split; [intros H; contradiction|]. split.
      * intros _. split.
        -- eexists [_; _]. split; reflexivity.
        -- intros m [H|[H|[H|[]]]]; discriminate.
      * split; [intros _; exact Hfs|]. intros _. simpl. auto.
    + assert (Hnoarm : ~ In (btstack_run_loop_enable_data_source_callbacks
                               DATA_SOURCE_CALLBACK_READ)
                           [log_debug "receive block, size %u" [len];
                            log_debug "process buffer: pos %u, len %u"
                              [btstack_uart_slip_receive_pos (sr s);
                               btstack_uart_slip_receive_len (sr s)];
                            call_frame_received fs]).
      { intros [H|[H|[H|[]]]]; discriminate. }
      split; [|split; [intros H; contradiction
                      | split; [intros H; exfalso; apply Hnoarm; exact H
                               | intros H; contradiction]]].
      intros _. split; [specialize (Hn3 Hfs); lia|]. split; [|exact Hnoarm].
      eexists [_; _]. split; reflexivity.
Qed.

Lemma receive_frame_drains_buffer_witness :
  let s := fst (run sample_state
                    [Receive_frame 0 100 0;
                     Ready DATA_SOURCE_CALLBACK_READ (answer 5 [1; 2; 192; 3; 192])]) in
  btstack_uart_slip_receive_pos (sr s) = 3 /\
  btstack_uart_slip_receive_len (sr s) = 5 /\
  snd (btstack_uart_slip_posix_receive_frame s 0 100 0) =
  [log_debug "receive block, size %u" [100];
   log_debug "process buffer: pos %u, len %u" [3; 5];
   call_frame_received 1] /\
  ~ In (btstack_run_loop_enable_data_source_callbacks DATA_SOURCE_CALLBACK_READ)
       (snd (btstack_uart_slip_posix_receive_frame s 0 100 0)).
Proof.
  pose proof (receive_frame_drains_buffer
                (fst (run sample_state
                          [Receive_frame 0 100 0;
                           Ready DATA_SOURCE_CALLBACK_READ (answer 5 [1; 2; 192; 3; 192])]))
                0 100 0) as H.
  specialize (H ltac:(by_compute) ltac:(by_compute) eq_refl).
  vm_compute in H.
  destruct H as (H & _). specialize (H ltac:(intro; discriminate)).
  destruct H as (_ & _ & H).
  split; [reflexivity | split; [reflexivity | split; [reflexivity | exact H]]].
Defined.

(** ** Two frames in one read *)

(** C5: nothing is buffered, [receive_frame] is called, and the read of
    the next dispatch delivers [enc1 ++ enc2], each the encoding of one
    complete frame.  The dispatch calls [frame_received] for frame 1 and
    leaves the cursors around [enc2]; the next [receive_frame] does
    nothing but process the buffer and call [frame_received] for frame 2:
    no read, no arming of read interest. *)
Theorem two_frames_one_read {C : SlipCodec}
    (s : state) (b1 l1 n1 b2 l2 n2 : Z) (io : syscall)
    (enc1 enc2 : list Z) (fs1 fs2 : Z) :
  0 <= transport_data_source_fd s ->
  frame_received (cb s) = true ->
  btstack_uart_slip_receive_len (sr s) = 0 ->
  sys_data io = enc1 ++ enc2 ->
  sys_ret io = Z.of_nat (List.length (enc1 ++ enc2)) ->
  sys_ret io <= SLIP_RECEIVE_BUFFER_SIZE ->
  frame_encoding (btstack_slip_decoder_init (slip s) b1 l1) enc1 fs1 ->
  let (s1, t1) := btstack_uart_slip_posix_receive_frame s b1 l1 n1 in
  let (s2, t2) := hci_uart_posix_process s1 DATA_SOURCE_CALLBACK_READ io in
  frame_encoding (btstack_slip_decoder_init (slip s2) b2 l2) enc2 fs2 ->
  let (s3, t3) := btstack_uart_slip_posix_receive_frame s2 b2 l2 n2 in
  t1 = [log_debug "receive block, size %u" [l1];
        btstack_run_loop_enable_data_source_callbacks DATA_SOURCE_CALLBACK_READ] /\
  t2 = sys_read (transport_data_source_fd s) SLIP_RECEIVE_BUFFER_SIZE
       :: log_debug "requested %u bytes, got %d" [SLIP_RECEIVE_BUFFER_SIZE; sys_ret io]
       :: log_slow "read took %u ms" io
       ++ [log_debug "process buffer: pos %u, len %u" [0; sys_ret io];
           log_info "frame receive time %u ms" [wrap32 (sys_now io - sys_start io)];
           call_frame_received fs1] /\
  btstack_uart_slip_receive_pos (sr s2) = Z.of_nat (List.length enc1) /\
  btstack_uart_slip_receive_len (sr s2) = sys_ret io /\
  t3 = [log_debug "receive block, size %u" [l2];
        log_debug "process buffer: pos %u, len %u"
          [Z.of_nat (List.length enc1); sys_ret io];
        call_frame_received fs2] /\
  btstack_uart_slip_receive_pos (sr s3) = 0 /\
  btstack_uart_slip_receive_len (sr s3) = 0.
Proof.
  intros Hfd Hcb Hlen0 Hdata Hret Hmax Henc1.
  unfold SLIP_RECEIVE_BUFFER_SIZE in Hmax.
  rewrite length_app in Hret.
  apply frame_encoding_feed in Henc1 as (c1 & F1 & Hfs1 & Hne1).
  (* the first call *)
  unfold btstack_uart_slip_posix_receive_frame at 1.
  rewrite Hlen0. cbn [Z.eqb negb].
  set (s1 := set_slip _ _).
  (* the dispatch *)
  unfold hci_uart_posix_process, btstack_uart_slip_posix_process_read.
  cbn [s1 transport_data_source_fd set_slip set_sr sr btstack_uart_slip_receive_active
       btstack_uart_slip_receive_track_start btstack_uart_slip_receive_buffer
       btstack_uart_slip_receive_pos btstack_uart_slip_receive_len
       btstack_uart_slip_receive_start_time Z.eqb negb].
  destruct (Z.ltb_spec (transport_data_source_fd s) 0); [lia|].
  destruct (Z.ltb_spec (sys_ret io) 0); [lia|].
  rewrite wrap16_small by lia.
  unfold array_fill. rewrite Hdata.
  replace (Z.to_nat (sys_ret io)) with (List.length (enc1 ++ enc2))
    by (rewrite length_app; lia).
  rewrite firstn_all.
  set (rest := skipn _ _).
  match goal with
  | |- context [btstack_uart_slip_posix_process_buffer ?sb ?nb] =>
      pose proof (process_buffer_feed sb nb c1 (List.length enc1) fs1) as Hpb;
      destruct (btstack_uart_slip_posix_process_buffer sb nb) as [[s2 t2] found]
  end.
  cbn [s1 set_slip set_sr sr slip cb btstack_uart_slip_receive_buffer
       btstack_uart_slip_receive_pos btstack_uart_slip_receive_len
       btstack_uart_slip_receive_track_start btstack_uart_slip_receive_active
       btstack_uart_slip_receive_start_time transport_data_source_fd] in Hpb.
  specialize (Hpb ltac:(lia) ltac:(lia)).
  replace (Z.to_nat (sys_ret io - 0)) with (List.length (enc1 ++ enc2)) in Hpb
    by (rewrite length_app; lia).
  change (Z.to_nat 0) with O in Hpb.
  rewrite (window_prefix (enc1 ++ enc2) rest) in Hpb.
  specialize (Hpb (feed_app_stop _ _ _ _ _ _ F1 Hfs1)).
  destruct Hpb as (-> & Hc2 & Hbuf2 & Hp2 & Hl2 & Htr2 & Hact2 & Hfd2 & _ & _ & Hcb2 & _ & ->).
  intros Henc2.
  apply frame_encoding_feed in Henc2 as (c2 & F2 & Hfs2 & Hne2).
  assert (Hn2 : (1 <= List.length enc2)%nat).
  { destruct enc2; [contradiction | simpl; lia]. }
  destruct (Z.eqb_spec (0 + Z.of_nat (List.length enc1)) (sys_ret io)); [lia|].
  destruct (Z.eqb_spec fs1 0); [contradiction|].
  rewrite Hcb in *. cbn [Z.eqb app] in *.
  (* the second call *)
  unfold btstack_uart_slip_posix_receive_frame.
  rewrite Hl2.
  destruct (Z.eqb_spec (sys_ret io) 0); [lia|]. cbn [negb].
  match goal with
  | |- context [btstack_uart_slip_posix_process_buffer ?sb ?nb] =>
      pose proof (process_buffer_feed sb nb c2 (List.length enc2) fs2) as Hpb;
      destruct (btstack_uart_slip_posix_process_buffer sb nb) as [[s3 t3] found]
  end.
  cbn [set_slip set_sr sr slip cb btstack_uart_slip_receive_buffer
       btstack_uart_slip_receive_pos btstack_uart_slip_receive_len
       btstack_uart_slip_receive_track_start btstack_uart_slip_receive_active
       btstack_uart_slip_receive_start_time transport_data_source_fd] in Hpb.
  rewrite ?Hp2, ?Hbuf2, ?Hcb2, ?Hl2, ?Hcb in Hpb.
  specialize (Hpb ltac:(lia) ltac:(lia)).
  replace (Z.to_nat (0 + Z.of_nat (List.length enc1))) with (List.length enc1) in Hpb by lia.
  replace (Z.to_nat (sys_ret io - (0 + Z.of_nat (List.length enc1))))
    with (List.length enc2) in Hpb by lia.
  rewrite <- app_assoc, window_middle in Hpb.
  specialize (Hpb F2).
  destruct Hpb as (-> & _ & _ & Hp3 & Hl3 & _ & _ & _ & _ & _ & _ & _ & ->).
  destruct (Z.eqb_spec fs2 0); [contradiction|]. cbn [negb Z.eqb app].
  destruct (Z.eqb_spec (0 + Z.of_nat (List.length enc1) + Z.of_nat (List.length enc2))
                       (sys_ret io)); [|lia].
  repeat split; auto.
Qed.

Lemma two_frames_one_read_witness :
  let io := answer 5 [1; 2; 192; 3; 192] in
  let r1 := btstack_uart_slip_posix_receive_frame sample_state 0 100 0 in
  let r2 := hci_uart_posix_process (fst r1) DATA_SOURCE_CALLBACK_READ io in
  let r3 := btstack_uart_slip_posix_receive_frame (fst r2) 0 100 0 in
  frame_encoding (btstack_slip_decoder_init (slip sample_state) 0 100) [1; 2; 192] 2 /\
  frame_encoding (btstack_slip_decoder_init (slip (fst r2)) 0 100) [3; 192] 1 /\
  snd r3 = [log_debug "receive block, size %u" [100];
            log_debug "process buffer: pos %u, len %u" [3; 5];
            call_frame_received 1].
Proof.
  assert (E1 : frame_encoding (btstack_slip_decoder_init (slip sample_state) 0 100)
                              [1; 2; 192] 2) by by_compute.
  pose proof (two_frames_one_read sample_state 0 100 0 0 100 0
                (answer 5 [1; 2; 192; 3; 192]) [1; 2; 192] [3; 192] 2 1
                ltac:(by_compute) eq_refl eq_refl eq_refl eq_refl
                ltac:(by_compute) E1) as H.
  cbv zeta. 
  destruct (btstack_uart_slip_posix_receive_frame sample_state 0 100 0) as [s1 t1] eqn:R1.
  cbn [fst snd].
  destruct (hci_uart_posix_process s1 DATA_SOURCE_CALLBACK_READ
              (answer 5 [1; 2; 192; 3; 192])) as [s2 t2] eqn:R2.
  cbn [fst snd].
  assert (E2 : frame_encoding (btstack_slip_decoder_init (slip s2) 0 100) [3; 192] 1).
  { vm_compute in R1. inversion R1; subst s1. vm_compute in R2. inversion R2; subst s2.
    by_compute. }
  specialize (H E2).
  destruct (btstack_uart_slip_posix_receive_frame s2 0 100 0) as [s3 t3].
  destruct H as (_ & _ & _ & _ & H & _).
  split; [exact E1 | split; [exact E2 | exact H]].
Defined.

(** ** Zero-length syscall results *)

(** C6, as stated, fails in frame mode.  A chunk of three bytes is in
    flight and [write] returns zero: the dispatch logs no error and arms
    write interest again.  A frame receive is active and [read] returns
    zero: the dispatch logs no error and the receive stays active. *)
Lemma zero_length_abandons_counterexample :
  let s := fst (btstack_uart_slip_posix_send_frame sample_state [1; 2; 3] 3) in
  let '(_, t) := hci_uart_posix_process s DATA_SOURCE_CALLBACK_WRITE (answer 0 []) in
  let r := fst (btstack_uart_slip_posix_receive_frame sample_state 0 100 0) in
  let '(r', u) := hci_uart_posix_process r DATA_SOURCE_CALLBACK_READ (answer 0 []) in
  btstack_uart_slip_write_bytes_len (sw s) = 3 /\
  In (btstack_run_loop_enable_data_source_callbacks DATA_SOURCE_CALLBACK_WRITE) t /\
  (forall fmt args, ~ In (log_error fmt args) t) /\
  btstack_uart_slip_receive_active (sr r') = 1 /\
  (forall fmt args, ~ In (log_error fmt args) u).
Proof.
  vm_compute. split; [reflexivity|]. split; [right; now left|]. split.
  - intros fmt args [H|[H|[]]]; discriminate.
  - split; [reflexivity|].
    intros fmt args [H|[H|[H|[]]]]; discriminate.
Qed.

(** C6, amended: on a dispatch whose syscall returns zero,
    - an in-flight block write or block read logs an error and returns:
      the statics are unchanged, no interest is armed, no handler is
      called;
    - an in-flight frame write logs no error, leaves the chunk where it
      was and arms write interest again;
    - a frame read logs no error, leaves the receive buffer empty, the
      decoder unfed and the receive active;
    and in neither frame case is a handler called on that dispatch. *)
Theorem zero_length_result {C : SlipCodec} (s : state) (io : syscall) :
  0 <= transport_data_source_fd s ->
  sys_ret io = 0 ->
  (btstack_uart_slip_write_active (sw s) = 0 ->
   btstack_uart_block_write_bytes_len (bw s) <> 0 ->
   hci_uart_posix_process s DATA_SOURCE_CALLBACK_WRITE io =
   (s, sys_write (transport_data_source_fd s)
                 (btstack_uart_block_write_bytes_data (bw s))
                 (btstack_uart_block_write_bytes_len (bw s))
       :: log_slow "write took %u ms" io ++ [log_error "wrote zero bytes\n" []])) /\
  (btstack_uart_slip_receive_active (sr s) = 0 ->
   btstack_uart_block_read_bytes_len (br s) <> 0 ->
   hci_uart_posix_process s DATA_SOURCE_CALLBACK_READ io =
   (s, sys_read (transport_data_source_fd s) (btstack_uart_block_read_bytes_len (br s))
       :: log_slow "read took %u ms" io ++ [log_error "read zero bytes\n" []])) /\
  (btstack_uart_slip_write_active (sw s) <> 0 ->
   btstack_uart_slip_write_bytes_len (sw s) <> 0 ->
   hci_uart_posix_process s DATA_SOURCE_CALLBACK_WRITE io =
   (s, sys_write (transport_data_source_fd s)
                 (btstack_uart_slip_write_bytes_data (sw s))
                 (btstack_uart_slip_write_bytes_len (sw s))
       :: log_slow "write took %u ms" io
       ++ [btstack_run_loop_enable_data_source_callbacks DATA_SOURCE_CALLBACK_WRITE])) /\
  (btstack_uart_slip_receive_active (sr s) <> 0 ->
   let (s', t) := hci_uart_posix_process s DATA_SOURCE_CALLBACK_READ io in
   t = sys_read (transport_data_source_fd s) SLIP_RECEIVE_BUFFER_SIZE
       :: log_debug "requested %u bytes, got %d" [SLIP_RECEIVE_BUFFER_SIZE; 0]
       :: log_slow "read took %u ms" io
       ++ [log_debug "process buffer: pos %u, len %u" [0; 0]] /\
   btstack_uart_slip_receive_active (sr s') = btstack_uart_slip_receive_active (sr s) /\
   btstack_uart_slip_receive_pos (sr s') = 0 /\
   btstack_uart_slip_receive_len (sr s') = 0 /\
   btstack_uart_slip_receive_buffer (sr s') = btstack_uart_slip_receive_buffer (sr s) /\
   slip s' = slip s).
Proof.
  intros Hfd Hret.
  unfold hci_uart_posix_process.
  destruct (Z.ltb_spec (transport_data_source_fd s) 0); [lia|].
  split; [|split; [|split]].
  - intros Hact Hlen. rewrite Hact. cbn [Z.eqb negb].
    unfold btstack_uart_block_posix_process_write. rewrite Hret.
    destruct (Z.eqb_spec (btstack_uart_block_write_bytes_len (bw s)) 0); [contradiction|].
    reflexivity.
  - intros Hact Hlen. rewrite Hact. cbn [Z.eqb negb].
    unfold btstack_uart_block_posix_process_read. rewrite Hret.
    destruct (Z.eqb_spec (btstack_uart_block_read_bytes_len (br s)) 0); [contradiction|].
    reflexivity.
  - intros Hact Hlen.
    destruct (Z.eqb_spec (btstack_uart_slip_write_active (sw s)) 0); [contradiction|].
    cbn [negb].
    unfold btstack_uart_slip_posix_process_write. rewrite Hret.
    destruct (Z.eqb_spec (btstack_uart_slip_write_bytes_len (sw s)) 0); [contradiction|].
    cbn [Z.ltb Z.compare]. rewrite Z.sub_0_r, Z.add_0_r.
    destruct (Z.eqb_spec (btstack_uart_slip_write_bytes_len (sw s)) 0); [contradiction|].
    cbn [negb]. f_equal.
    destruct s as [fd0 bw0 br0 cb0 [ob wl wd wa] sr0 c0]; reflexivity.
  - intros Hact.
    destruct (Z.eqb_spec (btstack_uart_slip_receive_active (sr s)) 0); [contradiction|].
    cbn [negb].
    unfold btstack_uart_slip_posix_process_read, btstack_uart_slip_posix_process_buffer.
    rewrite Hret. cbn.
    destruct (btstack_uart_slip_receive_track_start (sr s) =? 0); cbn;
      repeat split; reflexivity.
Qed.

Lemma zero_length_result_witness :
  let s := fst (btstack_uart_posix_send_block sample_state 0 3) in
  hci_uart_posix_process s DATA_SOURCE_CALLBACK_WRITE (answer 0 []) =
  (s, [sys_write 3 0 3; log_error "wrote zero bytes\n" []]).
Proof.
  pose proof (zero_length_result
                (fst (btstack_uart_posix_send_block sample_state 0 3)) (answer 0 [])
                ltac:(by_compute) eq_refl) as H.
  destruct H as (H & _).
  exact (H eq_refl ltac:(by_compute)).
Defined.

(** ** Sending a frame in chunks *)

Lemma chunk_sends_app (a b : trace) : chunk_sends (a ++ b) = chunk_sends a ++ chunk_sends b.
Proof.
  induction a as [|e a IH]; [reflexivity|].
  change ((e :: a) ++ b) with (e :: (a ++ b)).
  assert (Hcase : (exists p, e = log_debug "slip: send %d bytes" [p])
                  \/ (forall t, chunk_sends (e :: t) = chunk_sends t)).
  { destruct e; try (right; reflexivity).
    destruct (string_dec fmt "slip: send %d bytes") as [->|Hne].
    - destruct args as [|p [|q args]]; try (right; reflexivity).
      left. now exists p.
    - right. intros t. simpl.
      repeat (match goal with
              | |- context [match ?x with _ => _ end] =>
                  match type of x with
                  | string => destruct x
                  | Ascii.ascii => destruct x
                  | bool => destruct x
                  end
              end; try reflexivity; try (exfalso; apply Hne; reflexivity)). }
  destruct Hcase as [[p ->]|Hskip].
  - simpl. now rewrite IH.
  - now rewrite !Hskip.
Qed.

Lemma chunk_sends_log_slow (fmt : string) (io : syscall) : chunk_sends (log_slow fmt io) = [].
Proof. unfold log_slow. destruct (10 <? _); reflexivity. Qed.

(** The chunk loop takes what the encoder has, up to the room left. *)
Lemma encode_chunk_spec {C : SlipCodec} (fuel : nat) (c : slip_t) (buf : list Z)
    (pos : Z) (n : nat) :
  encoder_pending n c ->
  0 <= pos -> pos + Z.of_nat fuel = SLIP_TX_CHUNK_LEN ->
  exists c' buf',
    encode_chunk fuel c buf pos = (c', buf', pos + Z.of_nat (Nat.min n fuel))
    /\ encoder_pending (n - Nat.min n fuel) c'.
Proof.
  unfold SLIP_TX_CHUNK_LEN.
  revert c buf pos n; induction fuel as [|fuel IH]; intros c buf pos n Hn Hpos Hfuel.
  - exists c, buf. rewrite Nat.min_0_r, Nat.sub_0_r, Z.add_0_r. now split.
  - cbn [encode_chunk]. unfold SLIP_TX_CHUNK_LEN.
    destruct (Z.ltb_spec pos 128); [|exfalso; lia].
    destruct n as [|n]; cbn [encoder_pending] in Hn.
    + rewrite Hn. cbn. exists c, buf. rewrite Z.add_0_r. now split.
    + destruct Hn as [Hd Hn]. rewrite Hd. cbn [Z.b2z Z.land Pos.land Z.eqb].
      destruct (btstack_slip_encoder_get_byte c) as [b c'] eqn:G.
      cbn [snd] in Hn. rewrite wrap16_small by lia.
      destruct (IH c' (array_set buf pos b) (pos + 1) n Hn ltac:(lia) ltac:(lia))
        as (c2 & buf2 & E & P).
      exists c2, buf2. rewrite E. split.
      * replace (pos + Z.of_nat (Nat.min (S n) (S fuel)))
          with (pos + 1 + Z.of_nat (Nat.min n fuel)) by lia.
        reflexivity.
      * exact P.
Qed.

(** What [encode_chunk_and_send] leaves behind when the encoder has [n]
    more bytes. *)
Lemma encode_chunk_and_send_spec {C : SlipCodec} (s : state) (n : nat) :
  encoder_pending n (slip s) ->
  let (s', t) := btstack_uart_slip_posix_encode_chunk_and_send s in
  btstack_uart_slip_write_bytes_len (sw s') = Z.of_nat (Nat.min n 128) /\
  encoder_pending (n - Nat.min n 128) (slip s') /\
  btstack_uart_slip_write_active (sw s') = btstack_uart_slip_write_active (sw s) /\
  transport_data_source_fd s' = transport_data_source_fd s /\
  cb s' = cb s /\
  t = [log_debug "slip: send %d bytes" [Z.of_nat (Nat.min n 128)];
       btstack_run_loop_enable_data_source_callbacks DATA_SOURCE_CALLBACK_WRITE].
Proof.
  intros Hn. unfold btstack_uart_slip_posix_encode_chunk_and_send.
  destruct (encode_chunk_spec (Z.to_nat SLIP_TX_CHUNK_LEN) (slip s)
              (btstack_uart_slip_outgoing_buffer (sw s)) 0 n Hn ltac:(lia) eq_refl)
    as (c' & buf' & E & P).
  rewrite E. change (Z.to_nat SLIP_TX_CHUNK_LEN) with 128%nat in *.
  cbn. repeat split; auto.
Qed.

Lemma writes_progress_positive {C : SlipCodec} (ios : list syscall) (s : state) :
  writes_progress s ios -> Forall (fun io => 0 < sys_ret io) ios.
Proof.
  revert s; induction ios as [|io ios IH]; intros s H; constructor.
  - simpl in H. lia.
  - simpl in H. destruct H as [_ H]. exact (IH _ H).
Qed.

(** One write-readiness dispatch of a chunk in flight on which [write]
    makes progress. *)
Lemma slip_write_dispatch {C : SlipCodec} (s : state) (io : syscall) :
  0 <= transport_data_source_fd s ->
  btstack_uart_slip_write_active (sw s) <> 0 ->
  0 < sys_ret io <= btstack_uart_slip_write_bytes_len (sw s) ->
  let s1 := set_sw {| btstack_uart_slip_outgoing_buffer :=
                        btstack_uart_slip_outgoing_buffer (sw s);
                      btstack_uart_slip_write_bytes_len :=
                        btstack_uart_slip_write_bytes_len (sw s) - sys_ret io;
                      btstack_uart_slip_write_bytes_data :=
                        btstack_uart_slip_write_bytes_data (sw s) + sys_ret io;
                      btstack_uart_slip_write_active :=
                        btstack_uart_slip_write_active (sw s) |} s in
  let t := sys_write (transport_data_source_fd s)
                     (btstack_uart_slip_write_bytes_data (sw s))
                     (btstack_uart_slip_write_bytes_len (sw s))
           :: log_slow "write took %u ms" io in
  hci_uart_posix_process s DATA_SOURCE_CALLBACK_WRITE io =
  if btstack_uart_slip_write_bytes_len (sw s) - sys_ret io =? 0
  then (fst (btstack_uart_slip_posix_block_sent s1),
        t ++ btstack_run_loop_disable_data_source_callbacks DATA_SOURCE_CALLBACK_WRITE
          :: snd (btstack_uart_slip_posix_block_sent s1))
  else (s1, t ++ [btstack_run_loop_enable_data_source_callbacks DATA_SOURCE_CALLBACK_WRITE]).
Proof.
  intros Hfd Hact Hret. cbv zeta.
  unfold hci_uart_posix_process, btstack_uart_slip_posix_process_write.
  destruct (Z.ltb_spec (transport_data_source_fd s) 0); [lia|].
  destruct (Z.eqb_spec (btstack_uart_slip_write_active (sw s)) 0); [contradiction|].
  cbn [negb].
  destruct (Z.eqb_spec (btstack_uart_slip_write_bytes_len (sw s)) 0); [lia|].
  destruct (Z.ltb_spec (sys_ret io) 0); [lia|].
  destruct (Z.eqb_spec (btstack_uart_slip_write_bytes_len (sw s) - sys_ret io) 0);
    cbn [negb]; [|reflexivity].
  destruct (btstack_uart_slip_posix_block_sent _); reflexivity.
Qed.

Lemma chunk_count_step (m : Z) :
  0 < m -> (m + 127) / 128 = 1 + (m - Z.min m 128 + 127) / 128.
Proof.
  intros Hm. destruct (Z.min_spec m 128) as [[H ->]|[H ->]].
  - replace (m - m + 127) with 127 by lia.
    change (127 / 128) with 0.
    rewrite Z.add_0_r. symmetry. apply Z.div_unique with (r := m - 1). lia. lia.
  - replace (m + 127) with ((m - 128 + 127) + 1 * 128) by lia.
    rewrite Z.div_add by lia. lia.
Qed.

(** A chunk of [len] bytes is in flight and the encoder holds [m] more:
    writes that sum to [len + m] send the rest of the frame. *)
Lemma frame_send_run {C : SlipCodec} (ios : list syscall) :
  forall (s : state) (m : nat),
  0 <= transport_data_source_fd s ->
  btstack_uart_slip_write_active (sw s) <> 0 ->
  frame_sent (cb s) = true ->
  0 < btstack_uart_slip_write_bytes_len (sw s) ->
  encoder_pending m (slip s) ->
  writes_progress s ios ->
  sum_ret ios = btstack_uart_slip_write_bytes_len (sw s) + Z.of_nat m ->
  let (s1, t1) := run s (ready_each DATA_SOURCE_CALLBACK_WRITE ios) in
  Z.of_nat (List.length (chunk_sends t1)) = (Z.of_nat m + 127) / 128 /\
  Forall (fun l => 0 < l <= SLIP_TX_CHUNK_LEN) (chunk_sends t1) /\
  fold_right Z.add 0 (chunk_sends t1) = Z.of_nat m /\
  btstack_uart_slip_write_active (sw s1) = 0 /\
  btstack_slip_encoder_has_data (slip s1) = 0 /\
  exists t,
    t1 = t ++ [btstack_run_loop_disable_data_source_callbacks DATA_SOURCE_CALLBACK_WRITE;
               call_frame_sent]
    /\ ~ In call_frame_sent t.
Proof.
  induction ios as [|io ios IH]; intros s m Hfd Hact Hcb Hlen Hm Hw Hsum.
  - simpl in Hsum. lia.
  - cbn [ready_each map run step]. fold (ready_each DATA_SOURCE_CALLBACK_WRITE ios).
    cbn [writes_progress syscall_count] in Hw. destruct Hw as [Hret Hw].
    destruct (Z.eqb_spec (btstack_uart_slip_write_active (sw s)) 0) as [|_];
      [contradiction|]. cbn [negb] in Hret.
    revert Hw. rewrite (slip_write_dispatch s io Hfd Hact Hret).
    cbn [sum_ret fold_right] in Hsum. fold (sum_ret ios) in Hsum.
    set (t0 := sys_write _ _ _ :: log_slow _ io).
    assert (Ht0 : chunk_sends t0 = []).
    { unfold t0. cbn [chunk_sends]. apply chunk_sends_log_slow. }
    assert (Ht0' : ~ In call_frame_sent t0).
    { unfold t0. intros [H|H]; [discriminate|].
      revert H. apply log_slow_no_event. discriminate. }
    set (s1 := set_sw _ s).
    destruct (Z.eqb_spec (btstack_uart_slip_write_bytes_len (sw s) - sys_ret io) 0) as [E|E].
    + (* the chunk is out *)
      unfold btstack_uart_slip_posix_block_sent.
      change (slip s1) with (slip s). change (cb s1) with (cb s).
      destruct m as [|m]; cbn [encoder_pending] in Hm.
      * (* the encoder is empty: the frame is out *)
        rewrite Hm, Hcb. cbn [Z.eqb negb fst snd]. intros Hw.
        apply writes_progress_positive in Hw.
        destruct ios as [|io2 ios].
        -- cbn [ready_each map run]. rewrite app_nil_r, chunk_sends_app, Ht0.
           cbn [chunk_sends app List.length fold_right].
           split; [reflexivity|]. split; [constructor|]. split; [reflexivity|].
           split; [reflexivity|]. split; [exact Hm|].
           exists t0. split; [reflexivity | exact Ht0'].
        -- exfalso. inversion Hw as [|? ? Hp Hrest]; subst.
           apply sum_ret_nonneg in Hrest. cbn [sum_ret fold_right] in Hsum.
           fold (sum_ret ios) in Hsum. lia.
      * (* another chunk *)
        destruct Hm as [Hd Hm']. rewrite Hd. cbn [Z.eqb negb].
        pose proof (encode_chunk_and_send_spec s1 (S m)
                      (conj Hd Hm' : encoder_pending (S m) (slip s1))) as Hc.
        destruct (btstack_uart_slip_posix_encode_chunk_and_send s1) as [s2 t2].
        destruct Hc as (Hl2 & Hp2 & Ha2 & Hf2 & Hcb2 & ->).
        cbn [fst snd]. intros Hw.
        specialize (IH s2 (S m - Nat.min (S m) 128)%nat).
        rewrite Hf2, Ha2, Hcb2, Hl2 in IH.
        specialize (IH Hfd Hact Hcb ltac:(lia) Hp2 Hw ltac:(lia)).
        destruct (run s2 _) as [s3 t3].
        destruct IH as (I1 & I2 & I3 & I4 & I5 & t & Et & I6).
        rewrite !chunk_sends_app, Ht0. cbn [chunk_sends app List.length].
        split; [|split; [|split; [|split; [|split]]]]; auto.
        -- rewrite Nat2Z.inj_succ, I1.
           rewrite (chunk_count_step (Z.of_nat (S m))) by lia.
           replace (Z.of_nat (S m - Nat.min (S m) 128))
             with (Z.of_nat (S m) - Z.min (Z.of_nat (S m)) 128) by lia.
           lia.
        -- constructor; [unfold SLIP_TX_CHUNK_LEN; lia | exact I2].
        -- cbn [fold_right]. rewrite I3. lia.
        -- exists (t0 ++ btstack_run_loop_disable_data_source_callbacks
                            DATA_SOURCE_CALLBACK_WRITE
                      :: log_debug "slip: send %d bytes" [Z.of_nat (Nat.min (S m) 128)]
                      :: btstack_run_loop_enable_data_source_callbacks
                           DATA_SOURCE_CALLBACK_WRITE
                      :: t).
           rewrite Et. split; [now rewrite <- !app_assoc|].
           rewrite in_app_iff. intros [H|[H|[H|[H|H]]]];
             try discriminate; [exact (Ht0' H) | exact (I6 H)].
    + (* the chunk is still in flight *)
      cbn [fst]. intros Hw.
      specialize (IH s1 m Hfd Hact Hcb).
      cbn [s1 sw set_sw btstack_uart_slip_write_bytes_len] in IH.
      specialize (IH ltac:(lia) Hm Hw ltac:(lia)).
      destruct (run s1 _) as [s3 t3].
      destruct IH as (I1 & I2 & I3 & I4 & I5 & t & Et & I6).
      rewrite !chunk_sends_app, Ht0. cbn [chunk_sends app].
      split; [|split; [|split; [|split; [|split]]]]; auto.
      exists (t0 ++ btstack_run_loop_enable_data_source_callbacks
                      DATA_SOURCE_CALLBACK_WRITE :: t).
      rewrite Et. split; [now rewrite <- !app_assoc|].
      rewrite in_app_iff. intros [H|[H|H]];
        try discriminate; [exact (Ht0' H) | exact (I6 H)].
Qed.

(** C7: [send_frame] of a frame whose encoding has [n > 0] bytes, followed
    by write dispatches that each make progress and together write [n]
    bytes.  Exactly [ceil (n / SLIP_TX_CHUNK_LEN)] chunks are submitted,
    each of at most [SLIP_TX_CHUNK_LEN] bytes and [n] bytes in all; the
    send is active after [send_frame]; the run ends with the last chunk
    written, the active flag cleared, the encoder empty and the one call
    of [frame_sent] as the very last event. *)
Theorem send_frame_chunks {C : SlipCodec}
    (s : state) (frame : list Z) (frame_size : Z) (n : nat) (ios : list syscall) :
  0 <= transport_data_source_fd s ->
  frame_sent (cb s) = true ->
  encoder_pending n (btstack_slip_encoder_start (slip s) frame frame_size) ->
  (0 < n)%nat ->
  let (s0, t0) := btstack_uart_slip_posix_send_frame s frame frame_size in
  writes_progress s0 ios ->
  sum_ret ios = Z.of_nat n ->
  let (s1, t1) := run s0 (ready_each DATA_SOURCE_CALLBACK_WRITE ios) in
  Z.of_nat (List.length (chunk_sends (t0 ++ t1))) = (Z.of_nat n + 127) / 128 /\
  Forall (fun l => 0 < l <= SLIP_TX_CHUNK_LEN) (chunk_sends (t0 ++ t1)) /\
  fold_right Z.add 0 (chunk_sends (t0 ++ t1)) = Z.of_nat n /\
  btstack_uart_slip_write_active (sw s0) = 1 /\
  btstack_uart_slip_write_active (sw s1) = 0 /\
  btstack_slip_encoder_has_data (slip s1) = 0 /\
  exists t,
    t0 ++ t1 = t ++ [btstack_run_loop_disable_data_source_callbacks DATA_SOURCE_CALLBACK_WRITE;
                     call_frame_sent]
    /\ ~ In call_frame_sent t.
Proof.
  intros Hfd Hcb Hn Hpos.
  unfold btstack_uart_slip_posix_send_frame.
  match goal with
  | |- context [btstack_uart_slip_posix_encode_chunk_and_send ?s'] =>
      pose proof (encode_chunk_and_send_spec s' n Hn) as Hc;
      destruct (btstack_uart_slip_posix_encode_chunk_and_send s') as [s0 t0]
  end.
  cbn [sw set_slip set_sw btstack_uart_slip_write_active transport_data_source_fd cb] in Hc.
  destruct Hc as (Hl & Hp & Ha & Hf & Hcb0 & ->).
  intros Hw Hsum.
  pose proof (frame_send_run ios s0 (n - Nat.min n 128)%nat) as H.
  rewrite Hf, Ha, Hcb0, Hl in H.
  specialize (H Hfd ltac:(lia) Hcb ltac:(lia) Hp Hw ltac:(lia)).
  destruct (run s0 _) as [s1 t1].
  destruct H as (I1 & I2 & I3 & I4 & I5 & t & Et & I6).
  cbn [chunk_sends app List.length fold_right].
  split; [|split; [|split; [|split; [|split; [|split]]]]]; auto.
  - rewrite Nat2Z.inj_succ, I1.
    rewrite (chunk_count_step (Z.of_nat n)) by lia.
    replace (Z.of_nat (n - Nat.min n 128))
      with (Z.of_nat n - Z.min (Z.of_nat n) 128) by lia.
    lia.
  - constructor; [unfold SLIP_TX_CHUNK_LEN; lia | exact I2].
  - rewrite I3. lia.
  - exists (log_debug "slip: send %d bytes" [Z.of_nat (Nat.min n 128)]
            :: btstack_run_loop_enable_data_source_callbacks DATA_SOURCE_CALLBACK_WRITE
            :: t).
    rewrite Et. split; [reflexivity|].
    intros [H|[H|H]]; try discriminate. exact (I6 H).
Qed.

(** A frame of 130 plain bytes leaves in two chunks, of 128 and 2 bytes,
    the first of them written in two pieces. *)
Lemma send_frame_chunks_witness :
  let r0 := btstack_uart_slip_posix_send_frame sample_state (repeat 7 130) 130 in
  let r1 := run (fst r0) (ready_each DATA_SOURCE_CALLBACK_WRITE
                            [answer 100 []; answer 28 []; answer 2 []]) in
  chunk_sends (snd r0 ++ snd r1) = [128; 2] /\
  btstack_uart_slip_write_active (sw (fst r1)) = 0 /\
  exists t,
    snd r0 ++ snd r1 =
    t ++ [btstack_run_loop_disable_data_source_callbacks DATA_SOURCE_CALLBACK_WRITE;
          call_frame_sent]
    /\ ~ In call_frame_sent t.
Proof.
  pose proof (send_frame_chunks sample_state (repeat 7 130) 130 130
                [answer 100 []; answer 28 []; answer 2 []]
                ltac:(by_compute) eq_refl ltac:(by_compute) ltac:(lia)) as H.
  cbv zeta.
  destruct (btstack_uart_slip_posix_send_frame sample_state (repeat 7 130) 130)
    as [s0 t0] eqn:R0.
  assert (Hw : writes_progress s0 [answer 100 []; answer 28 []; answer 2 []]).
  { vm_compute in R0. inversion R0; subst s0. by_compute. }
  specialize (H Hw eq_refl).
  cbn [fst snd].
  destruct (run s0 _) as [s1 t1] eqn:R1.
  destruct H as (_ & _ & _ & _ & Ha & _ & He).
  split; [|split; [exact Ha | exact He]].
  vm_compute in R0. inversion R0; subst s0 t0.
  vm_compute in R1. inversion R1; subst s1 t1. reflexivity.
Defined.

(** ** The cursors of the receive buffer *)

Ltac split_ifs :=
  repeat match goal with
         | |- context [if ?b then _ else _] => destruct b
         end.

Lemma process_buffer_cursors {C : SlipCodec} (s : state) (now : Z) :
  receive_cursors_bounded s ->
  receive_cursors_inv (fst (fst (btstack_uart_slip_posix_process_buffer s now))).
Proof.
  unfold receive_cursors_inv, receive_cursors_bounded, SLIP_RECEIVE_BUFFER_SIZE.
  intros (H0 & H1 & H2).
  destruct (feed (slip s)
              (window (btstack_uart_slip_receive_buffer (sr s))
                      (Z.to_nat (btstack_uart_slip_receive_pos (sr s)))
                      (Z.to_nat (btstack_uart_slip_receive_len (sr s)
                                 - btstack_uart_slip_receive_pos (sr s)))))
    as [[c n] fs] eqn:F.
  pose proof (process_buffer_feed s now c n fs ltac:(lia) ltac:(lia) F) as H.
  pose proof (feed_count
                (window (btstack_uart_slip_receive_buffer (sr s))
                        (Z.to_nat (btstack_uart_slip_receive_pos (sr s)))
                        (Z.to_nat (btstack_uart_slip_receive_len (sr s)
                                   - btstack_uart_slip_receive_pos (sr s))))
                (slip s)) as Hn.
  rewrite F in Hn. unfold window in Hn. rewrite length_map, length_seq in Hn.
  destruct Hn as (Hn & _).
  destruct (btstack_uart_slip_posix_process_buffer s now) as [[s' t] found].
  destruct H as (_ & _ & _ & Hp & Hl & _). cbn [fst].
  rewrite Hp, Hl.
  destruct (Z.eqb_spec (btstack_uart_slip_receive_pos (sr s) + Z.of_nat n)
                       (btstack_uart_slip_receive_len (sr s))); lia.
Qed.

Lemma encode_chunk_and_send_sr {C : SlipCodec} (s : state) :
  sr (fst (btstack_uart_slip_posix_encode_chunk_and_send s)) = sr s.
Proof.
  unfold btstack_uart_slip_posix_encode_chunk_and_send.
  destruct (encode_chunk _ _ _ _) as [[c buf] pos]. reflexivity.
Qed.

Lemma process_write_sr {C : SlipCodec} (s : state) (io : syscall) :
  sr (fst (btstack_uart_slip_posix_process_write s io)) = sr s /\
  sr (fst (btstack_uart_block_posix_process_write s io)) = sr s.
Proof.
  split.
  - unfold btstack_uart_slip_posix_process_write, btstack_uart_slip_posix_block_sent.
    destruct (_ =? 0); [reflexivity|]. destruct (_ <? 0); [reflexivity|].
    destruct (negb _); [reflexivity|].
    destruct (negb _).
    + match goal with
      | |- context [btstack_uart_slip_posix_encode_chunk_and_send ?s'] =>
          pose proof (encode_chunk_and_send_sr s') as H;
          destruct (btstack_uart_slip_posix_encode_chunk_and_send s')
      end. exact H.
    + reflexivity.
  - unfold btstack_uart_block_posix_process_write. split_ifs; reflexivity.
Qed.

Lemma step_cursors {C : SlipCodec} (s : state) (c : call) :
  receive_cursors_inv s -> posix_ok s c -> receive_cursors_inv (fst (step s c)).
Proof.
  intros Hinv Hok.
  assert (Hsame : forall s', sr s' = sr s -> receive_cursors_inv s').
  { intros s' E. unfold receive_cursors_inv, receive_cursors_bounded in *.
    now rewrite E. }
  assert (Hcur : forall s',
             btstack_uart_slip_receive_pos (sr s') = btstack_uart_slip_receive_pos (sr s) ->
             btstack_uart_slip_receive_len (sr s') = btstack_uart_slip_receive_len (sr s) ->
             receive_cursors_inv s').
  { intros s' E1 E2. unfold receive_cursors_inv, receive_cursors_bounded in *.
    now rewrite E1, E2. }
  destruct c as [| h | h | h | h | buffer len | data size | buffer len now
                 | frame frame_size | t io]; cbn [step fst];
    try (apply Hsame; reflexivity).
  - (* receive_frame *)
    unfold btstack_uart_slip_posix_receive_frame.
    destruct (negb (_ =? 0)).
    + match goal with
      | |- context [btstack_uart_slip_posix_process_buffer ?s1 ?n1] =>
          pose proof (process_buffer_cursors s1 n1 (proj1 Hinv)) as H;
          destruct (btstack_uart_slip_posix_process_buffer s1 n1) as [[s2 t2] found]
      end.
      destruct (negb _); exact H.
    + apply Hcur; reflexivity.
  - (* send_frame *)
    unfold btstack_uart_slip_posix_send_frame.
    apply Hsame. now rewrite encode_chunk_and_send_sr.
  - (* a dispatch *)
    unfold hci_uart_posix_process.
    destruct (_ <? 0); [apply Hsame; reflexivity|].
    destruct t; [apply Hsame; reflexivity | |].
    + cbn [posix_ok syscall_count] in Hok.
      destruct (negb (_ =? 0)).
      * unfold btstack_uart_slip_posix_process_read.
        destruct (Z.ltb_spec (sys_ret io) 0).
        -- cbn [fst]. destruct (negb _); apply Hcur; reflexivity.
        -- match goal with
           | |- context [btstack_uart_slip_posix_process_buffer ?s1 ?n1] =>
               pose proof (process_buffer_cursors s1 n1) as Hb;
               destruct (btstack_uart_slip_posix_process_buffer s1 n1)
                 as [[s2 t2] found]
           end.
           apply Hb. unfold receive_cursors_bounded, SLIP_RECEIVE_BUFFER_SIZE in *.
           cbn [sr set_sr btstack_uart_slip_receive_pos btstack_uart_slip_receive_len].
           rewrite wrap16_small by lia. lia.
      * apply Hsame. unfold btstack_uart_block_posix_process_read.
        split_ifs; reflexivity.
    + destruct (negb _); apply Hsame; apply process_write_sr.
Qed.

(** C8: the cursors of the frame receive buffer satisfy
    [0 <= position <= length <= SLIP_RECEIVE_BUFFER_SIZE], and are both
    zero whenever they are equal, after every call of the driver and
    every dispatch, along any run in which [read] and [write] return at
    most the count they were given. *)
Theorem receive_cursors_invariant {C : SlipCodec} (cs : list call) (s : state) :
  receive_cursors_inv s -> run_ok s cs -> receive_cursors_inv (fst (run s cs)).
Proof.
  revert s; induction cs as [|c cs IH]; intros s Hinv Hok; [exact Hinv|].
  cbn [run_ok] in Hok. destruct Hok as [Hc Hok].
  cbn [run]. pose proof (step_cursors s c Hinv Hc) as H1.
  destruct (step s c) as [s1 t1]. cbn [fst] in *.
  specialize (IH s1 H1 Hok).
  destruct (run s1 cs) as [s2 t2]. exact IH.
Qed.

Lemma receive_cursors_invariant_witness :
  let cs := [Receive_frame 0 100 0;
             Ready DATA_SOURCE_CALLBACK_READ (answer 5 [1; 2; 192; 3; 192]);
             Receive_frame 0 100 0] in
  receive_cursors_inv (fst (run sample_state (firstn 2 cs))) /\
  btstack_uart_slip_receive_pos (sr (fst (run sample_state (firstn 2 cs)))) = 3 /\
  receive_cursors_inv (fst (run sample_state cs)) /\
  btstack_uart_slip_receive_len (sr (fst (run sample_state cs))) = 0.
Proof.
  split; [|split; [reflexivity | split; [|reflexivity]]].
  - apply (receive_cursors_invariant
             [Receive_frame 0 100 0;
              Ready DATA_SOURCE_CALLBACK_READ (answer 5 [1; 2; 192; 3; 192])]
             sample_state); by_compute.
  - apply (receive_cursors_invariant
             [Receive_frame 0 100 0;
              Ready DATA_SOURCE_CALLBACK_READ (answer 5 [1; 2; 192; 3; 192]);
              Receive_frame 0 100 0]
             sample_state); by_compute.
Defined.

(** ** A frame whose encoder has nothing to give *)

Lemma log_slow_completes (fmt : string) (io : syscall) :
  existsb completes_write (log_slow fmt io) = false.
Proof. unfold log_slow. destruct (10 <? _); reflexivity. Qed.

Ltac no_write_completion :=
  split_ifs; cbn [fst snd sw set_slip set_sr set_br set_bw set_cb set_fd];
  repeat (rewrite ?existsb_app, ?log_slow_completes; cbn [existsb completes_write orb app]);
  auto.

Lemma process_buffer_no_completion {C : SlipCodec} (s : state) (now : Z) :
  sw (fst (fst (btstack_uart_slip_posix_process_buffer s now))) = sw s /\
  existsb completes_write (snd (fst (btstack_uart_slip_posix_process_buffer s now))) = false.
Proof.
  unfold btstack_uart_slip_posix_process_buffer.
  destruct (decode_bytes _ _ _ _ _ _) as [[c p] f].
  destruct (f =? 0); cbn [fst snd sw set_slip set_sr]; split; auto;
    no_write_completion.
Qed.

(** With the send active and no chunk byte outstanding, no call other
    than [send_frame] changes that, completes the send or disarms write
    interest. *)
Lemma stuck_step {C : SlipCodec} (s : state) (c : call) :
  is_send_frame c = false ->
  btstack_uart_slip_write_active (sw s) = 1 ->
  btstack_uart_slip_write_bytes_len (sw s) = 0 ->
  sw (fst (step s c)) = sw s /\ existsb completes_write (snd (step s c)) = false.
Proof.
  intros Hc Hact Hlen.
  destruct c as [| h | h | h | h | buffer len | data size | buffer len now
                 | frame frame_size | t io]; cbn [step fst snd];
    try discriminate; try (split; reflexivity).
  - (* receive_frame *)
    unfold btstack_uart_slip_posix_receive_frame.
    destruct (negb (_ =? 0)); [|split; reflexivity].
    match goal with
    | |- context [btstack_uart_slip_posix_process_buffer ?s1 ?n1] =>
        destruct (process_buffer_no_completion s1 n1) as [H1 H2];
        destruct (btstack_uart_slip_posix_process_buffer s1 n1) as [[s2 t2] found]
    end.
    cbn [fst snd] in *.
    destruct (negb _); cbn [fst snd]; split; auto; cbn [existsb completes_write orb];
      rewrite ?existsb_app, H2; reflexivity.
  - (* a dispatch *)
    unfold hci_uart_posix_process.
    destruct (_ <? 0); [split; reflexivity|].
    destruct t; [split; reflexivity | |].
    + destruct (negb (_ =? 0)).
      * unfold btstack_uart_slip_posix_process_read.
        destruct (sys_ret io <? 0).
        -- cbn [fst snd]. split; [reflexivity|].
           cbn [existsb completes_write orb]. apply log_slow_completes.
        -- match goal with
           | |- context [btstack_uart_slip_posix_process_buffer ?s1 ?n1] =>
               destruct (process_buffer_no_completion s1 n1) as [H1 H2];
               destruct (btstack_uart_slip_posix_process_buffer s1 n1)
                 as [[s2 t2] found]
           end.
           cbn [fst snd] in *. split; [exact H1|].
           cbn [existsb completes_write orb app].
           now rewrite existsb_app, log_slow_completes, H2.
      * unfold btstack_uart_block_posix_process_read.
        split; no_write_completion.
    + rewrite Hact. cbn [Z.eqb negb].
      unfold btstack_uart_slip_posix_process_write. rewrite Hlen.
      split; reflexivity.
Qed.

(** C10: if the encoder reports no pending byte right after
    [encoder_start], [send_frame] submits a chunk of length zero, and
    whatever follows short of another [send_frame] (write dispatches with
    any result, read dispatches, block requests, [receive_frame], handler
    changes, [close]) leaves the send active with nothing to write, never
    calls [frame_sent] and never disarms write interest. *)
Theorem empty_chunk_never_completes {C : SlipCodec}
    (s : state) (frame : list Z) (frame_size : Z) (cs : list call) :
  btstack_slip_encoder_has_data (btstack_slip_encoder_start (slip s) frame frame_size) = 0 ->
  forallb (fun c => negb (is_send_frame c)) cs = true ->
  let (s0, t0) := btstack_uart_slip_posix_send_frame s frame frame_size in
  let (s1, t1) := run s0 cs in
  btstack_uart_slip_write_bytes_len (sw s0) = 0 /\
  btstack_uart_slip_write_active (sw s1) = 1 /\
  btstack_uart_slip_write_bytes_len (sw s1) = 0 /\
  ~ In call_frame_sent (t0 ++ t1) /\
  ~ In (btstack_run_loop_disable_data_source_callbacks DATA_SOURCE_CALLBACK_WRITE)
       (t0 ++ t1).
Proof.
  intros Hd Hcs.
  unfold btstack_uart_slip_posix_send_frame.
  match goal with
  | |- context [btstack_uart_slip_posix_encode_chunk_and_send ?s'] =>
      pose proof (encode_chunk_and_send_spec s' O Hd) as Hc;
      destruct (btstack_uart_slip_posix_encode_chunk_and_send s') as [s0 t0]
  end.
  cbn [sw set_slip set_sw btstack_uart_slip_write_active Nat.min Z.of_nat] in Hc.
  destruct Hc as (Hl & _ & Ha & _ & _ & ->).
  assert (Hrun : forall cs s0,
             forallb (fun c => negb (is_send_frame c)) cs = true ->
             btstack_uart_slip_write_active (sw s0) = 1 ->
             btstack_uart_slip_write_bytes_len (sw s0) = 0 ->
             sw (fst (run s0 cs)) = sw s0
             /\ existsb completes_write (snd (run s0 cs)) = false).
  { clear. induction cs as [|c cs IH]; intros s0 Hcs Ha Hl; [split; reflexivity|].
    cbn [forallb] in Hcs. apply andb_true_iff in Hcs as [Hc Hcs].
    apply negb_true_iff in Hc.
    destruct (stuck_step s0 c Hc Ha Hl) as [E1 E2].
    cbn [run]. destruct (step s0 c) as [s1 t1]. cbn [fst snd] in *.
    specialize (IH s1 Hcs). rewrite E1 in IH. specialize (IH Ha Hl).
    destruct (run s1 cs) as [s2 t2]. cbn [fst snd] in *.
    destruct IH as [I1 I2]. split; [exact I1|].
    now rewrite existsb_app, E2, I2. }
  destruct (Hrun cs s0 Hcs Ha Hl) as [E1 E2].
  destruct (run s0 cs) as [s1 t1]. cbn [fst snd] in *.
  rewrite E1. split; [exact Hl|]. split; [exact Ha|]. split; [exact Hl|].
  assert (Hq : existsb completes_write
                 ([log_debug "slip: send %d bytes" [0];
                   btstack_run_loop_enable_data_source_callbacks DATA_SOURCE_CALLBACK_WRITE]
                  ++ t1) = false).
  { rewrite existsb_app, E2. reflexivity. }
  split; intros Hin.
  - assert (existsb completes_write
              ([log_debug "slip: send %d bytes" [0];
                btstack_run_loop_enable_data_source_callbacks DATA_SOURCE_CALLBACK_WRITE]
               ++ t1) = true); [|congruence].
    apply existsb_exists. eexists. split; [exact Hin | reflexivity].
  - assert (existsb completes_write
              ([log_debug "slip: send %d bytes" [0];
                btstack_run_loop_enable_data_source_callbacks DATA_SOURCE_CALLBACK_WRITE]
               ++ t1) = true); [|congruence].
    apply existsb_exists. eexists. split; [exact Hin | reflexivity].
Qed.

(** The empty frame: the sample encoder has nothing to give for it. *)
Lemma empty_chunk_never_completes_witness :
  let cs := [Ready DATA_SOURCE_CALLBACK_WRITE (answer 0 []);
             Ready DATA_SOURCE_CALLBACK_WRITE (answer 1 []);
             Send_block 0 4;
             Ready DATA_SOURCE_CALLBACK_WRITE (answer 4 [])] in
  let r0 := btstack_uart_slip_posix_send_frame sample_state [] 0 in
  let r1 := run (fst r0) cs in
  btstack_uart_slip_write_active (sw (fst r1)) = 1 /\
  ~ In call_frame_sent (snd r0 ++ snd r1).
Proof.
  pose proof (empty_chunk_never_completes sample_state [] 0
                [Ready DATA_SOURCE_CALLBACK_WRITE (answer 0 []);
                 Ready DATA_SOURCE_CALLBACK_WRITE (answer 1 []);
                 Send_block 0 4;
                 Ready DATA_SOURCE_CALLBACK_WRITE (answer 4 [])]
                eq_refl eq_refl) as H.
  cbv zeta.
  destruct (btstack_uart_slip_posix_send_frame sample_state [] 0) as [s0 t0].
  cbn [fst snd].
  destruct (run s0 _) as [s1 t1].
  destruct H as (_ & Ha & _ & Hn & _).
  split; [exact Ha | exact Hn].
Defined.

(** * Further properties of the driver *)

(** ** A closed session *)

(** X1: once the descriptor is negative, as [close] leaves it, readiness
    dispatches of any type and with any answer of the environment leave
    every static as it was and have no effect at all: no syscall, no log
    line, no handler call. *)
Theorem closed_session_ignores_dispatch {C : SlipCodec} (cs : list call) (s : state) :
  transport_data_source_fd s < 0 ->
  forallb is_ready cs = true ->
  run s cs = (s, []).
Proof.
  intros Hfd. induction cs as [|c cs IH]; intros Hcs; [reflexivity|].
  cbn [forallb] in Hcs. apply andb_true_iff in Hcs as [Hc Hcs].
  destruct c; try discriminate. cbn [run step].
  unfold hci_uart_posix_process.
  destruct (Z.ltb_spec (transport_data_source_fd s) 0); [|lia].
  now rewrite (IH Hcs).
Qed.

Lemma closed_session_ignores_dispatch_witness :
  let closed := fst (fst (btstack_uart_posix_close_new
                            (fst (btstack_uart_posix_send_block sample_state 0 4)))) in
  run closed [Ready DATA_SOURCE_CALLBACK_WRITE (answer 4 []);
              Ready DATA_SOURCE_CALLBACK_READ (answer 2 [1; 2]);
              Ready DATA_SOURCE_CALLBACK_POLL (answer 0 [])]
  = (closed, []).
Proof.
  apply (closed_session_ignores_dispatch
           [Ready DATA_SOURCE_CALLBACK_WRITE (answer 4 []);
            Ready DATA_SOURCE_CALLBACK_READ (answer 2 [1; 2]);
            Ready DATA_SOURCE_CALLBACK_POLL (answer 0 [])]); by_compute.
Defined.

(** ** Block transfer with failing syscalls *)

Lemma count_occ_log_slow (fmt : string) (io : syscall) (e : event) :
  (forall f a, e <> log_info f a) ->
  count_occ event_eq_dec (log_slow fmt io) e = 0%nat.
Proof.
  intros H. apply count_occ_not_In. now apply log_slow_no_event.
Qed.

Lemma writes_up_to_log_slow (stop : Z) (fmt : string) (io : syscall) :
  Forall (writes_up_to stop) (log_slow fmt io).
Proof. unfold log_slow. destruct (10 <? _); repeat constructor. Qed.

(** A pending or finished block write, driven by write dispatches whose
    syscalls may fail, return zero, or write a part. *)
Lemma block_write_run {C : SlipCodec} (ios : list syscall) :
  forall s : state,
  0 <= transport_data_source_fd s ->
  btstack_uart_slip_write_active (sw s) = 0 ->
  block_sent (cb s) = true ->
  0 <= btstack_uart_block_write_bytes_len (bw s) ->
  run_ok s (ready_each DATA_SOURCE_CALLBACK_WRITE ios) ->
  sum_pos ios = btstack_uart_block_write_bytes_len (bw s) ->
  let (s1, t1) := run s (ready_each DATA_SOURCE_CALLBACK_WRITE ios) in
  btstack_uart_block_write_bytes_len (bw s1) = 0 /\
  btstack_uart_block_write_bytes_data (bw s1) =
    btstack_uart_block_write_bytes_data (bw s) + btstack_uart_block_write_bytes_len (bw s) /\
  count_occ event_eq_dec t1 call_block_sent =
    (if btstack_uart_block_write_bytes_len (bw s) =? 0 then 0%nat else 1%nat) /\
  count_occ event_eq_dec t1
    (btstack_run_loop_disable_data_source_callbacks DATA_SOURCE_CALLBACK_WRITE) =
    (if btstack_uart_block_write_bytes_len (bw s) =? 0 then 0%nat else 1%nat) /\
  Forall (writes_up_to (btstack_uart_block_write_bytes_data (bw s)
                        + btstack_uart_block_write_bytes_len (bw s))) t1.
Proof.
  induction ios as [|io ios IH]; intros s Hfd Hact Hcb Hlen Hok Hsum.
  - cbn in *. rewrite <- Hsum. cbn. repeat split; auto. lia.
  - cbn [ready_each map run step run_ok posix_ok syscall_count fst] in *.
    fold (ready_each DATA_SOURCE_CALLBACK_WRITE ios) in *.
    rewrite Hact in Hok. cbn [Z.eqb negb] in Hok. destruct Hok as [Hret Hok].
    cbn [sum_pos fold_right] in Hsum. fold (sum_pos ios) in Hsum.
    revert Hok. unfold hci_uart_posix_process, btstack_uart_block_posix_process_write.
    destruct (Z.ltb_spec (transport_data_source_fd s) 0); [lia|].
    rewrite Hact. cbn [Z.eqb negb].
    set (w := sys_write _ _ _).
    assert (Hw : writes_up_to (btstack_uart_block_write_bytes_data (bw s)
                               + btstack_uart_block_write_bytes_len (bw s)) w)
      by reflexivity.
    destruct (Z.eqb_spec (btstack_uart_block_write_bytes_len (bw s)) 0) as [E0|E0].
    + (* nothing pending *)
      cbn [fst]. intros Hok. specialize (IH s Hfd Hact Hcb Hlen Hok ltac:(lia)).
      destruct (run s _) as [s1 t1]. rewrite E0 in IH. cbn [Z.eqb] in IH.
      rewrite E0. exact IH.
    + assert (Hstay :
          forall tl,
            count_occ event_eq_dec tl call_block_sent = 0%nat ->
            count_occ event_eq_dec tl
              (btstack_run_loop_disable_data_source_callbacks DATA_SOURCE_CALLBACK_WRITE)
            = 0%nat ->
            Forall (writes_up_to (btstack_uart_block_write_bytes_data (bw s)
                                  + btstack_uart_block_write_bytes_len (bw s))) tl ->
            sys_ret io <= 0 ->
            run_ok s (ready_each DATA_SOURCE_CALLBACK_WRITE ios) ->
            let (s1, t1) :=
              let (s2, t2) := run s (ready_each DATA_SOURCE_CALLBACK_WRITE ios) in
              (s2, tl ++ t2) in
            btstack_uart_block_write_bytes_len (bw s1) = 0 /\
            btstack_uart_block_write_bytes_data (bw s1) =
              btstack_uart_block_write_bytes_data (bw s)
              + btstack_uart_block_write_bytes_len (bw s) /\
            count_occ event_eq_dec t1 call_block_sent = 1%nat /\
            count_occ event_eq_dec t1
              (btstack_run_loop_disable_data_source_callbacks DATA_SOURCE_CALLBACK_WRITE)
            = 1%nat /\
            Forall (writes_up_to (btstack_uart_block_write_bytes_data (bw s)
                                  + btstack_uart_block_write_bytes_len (bw s))) t1).
      { intros tl Hc1 Hc2 Hf Hr Hok.
        specialize (IH s Hfd Hact Hcb Hlen Hok ltac:(lia)).
        destruct (run s _) as [s1 t1].
        destruct (Z.eqb_spec (btstack_uart_block_write_bytes_len (bw s)) 0);
          [contradiction|].
        destruct IH as (I1 & I2 & I3 & I4 & I5).
        rewrite !count_occ_app, Hc1, Hc2, I3, I4.
        repeat split; auto. apply Forall_app. now split. }
      destruct (Z.eqb_spec (sys_ret io) 0) as [Ez|Ez].
      * cbn [fst]. apply Hstay; try lia.
        -- cbn [count_occ app]. destruct (event_eq_dec w call_block_sent); [discriminate|].
           rewrite count_occ_app, count_occ_log_slow by discriminate. reflexivity.
        -- cbn [count_occ app]. destruct (event_eq_dec w _); [discriminate|].
           rewrite count_occ_app, count_occ_log_slow by discriminate. reflexivity.
        -- constructor; [exact Hw|]. apply Forall_app. split.
           ++ apply writes_up_to_log_slow.
           ++ repeat constructor.
      * destruct (Z.ltb_spec (sys_ret io) 0) as [En|En].
        -- cbn [fst]. apply Hstay; try lia.
           ++ cbn [count_occ app]. destruct (event_eq_dec w call_block_sent); [discriminate|].
              rewrite count_occ_app, count_occ_log_slow by discriminate. reflexivity.
           ++ cbn [count_occ app]. destruct (event_eq_dec w _); [discriminate|].
              rewrite count_occ_app, count_occ_log_slow by discriminate. reflexivity.
           ++ constructor; [exact Hw|]. apply Forall_app. split.
              ** apply writes_up_to_log_slow.
              ** repeat constructor.
        -- (* progress *)
           set (s1 := set_bw _ s).
           assert (Hend : btstack_uart_block_write_bytes_data (bw s1)
                          + btstack_uart_block_write_bytes_len (bw s1)
                          = btstack_uart_block_write_bytes_data (bw s)
                            + btstack_uart_block_write_bytes_len (bw s))
             by (cbn; lia).
           destruct (Z.eqb_spec (btstack_uart_block_write_bytes_len (bw s) - sys_ret io) 0)
             as [Ed|Ed]; cbn [negb fst]; intros Hok;
             (specialize (IH s1 Hfd Hact Hcb ltac:(cbn; lia) Hok ltac:(cbn; lia));
              destruct (run s1 _) as [s2 t2];
              destruct IH as (I1 & I2 & I3 & I4 & I5);
              rewrite Hend in I5; rewrite Hend in I2;
              cbn [s1 bw set_bw btstack_uart_block_write_bytes_len] in I3, I4).
           ++ rewrite Ed in I3, I4. cbn [Z.eqb] in I3, I4. rewrite Hcb.
              rewrite !count_occ_app, I3, I4.
              cbn [count_occ app].
              destruct (event_eq_dec w call_block_sent); [discriminate|].
              destruct (event_eq_dec w (btstack_run_loop_disable_data_source_callbacks
                                          DATA_SOURCE_CALLBACK_WRITE)); [discriminate|].
              rewrite ?count_occ_app, !count_occ_log_slow by discriminate.
              repeat split; auto.
              constructor; [exact Hw|]. rewrite <- app_assoc. apply Forall_app. split.
              ** apply writes_up_to_log_slow.
              ** apply Forall_app. split; [repeat constructor | exact I5].
           ++ destruct (Z.eqb_spec (btstack_uart_block_write_bytes_len (bw s) - sys_ret io) 0);
                [contradiction|].
              rewrite !count_occ_app, I3, I4.
              cbn [count_occ app].
              destruct (event_eq_dec w call_block_sent); [discriminate|].
              destruct (event_eq_dec w (btstack_run_loop_disable_data_source_callbacks
                                          DATA_SOURCE_CALLBACK_WRITE)); [discriminate|].
              rewrite ?count_occ_app, !count_occ_log_slow by discriminate.
              repeat split; auto.
              constructor; [exact Hw|]. rewrite <- app_assoc. apply Forall_app. split.
              ** apply writes_up_to_log_slow.
              ** apply Forall_app. split; [repeat constructor | exact I5].
Qed.

(** X2: a block send of [L > 0] bytes completes exactly once whatever
    mixture of failed ([< 0]), empty ([= 0]) and partial writes the
    dispatches bring, as long as the bytes written add up to [L]: the
    remaining length ends at zero, write interest is disarmed once,
    [block_sent] is called once, and every [write] issued on the way is
    for exactly the bytes not yet written (it ends at [data + L]). *)
Theorem block_send_survives_failed_writes {C : SlipCodec}
    (s : state) (data L : Z) (ios : list syscall) :
  0 <= transport_data_source_fd s ->
  btstack_uart_slip_write_active (sw s) = 0 ->
  block_sent (cb s) = true ->
  0 < L ->
  let (s0, t0) := btstack_uart_posix_send_block s data L in
  run_ok s0 (ready_each DATA_SOURCE_CALLBACK_WRITE ios) ->
  sum_pos ios = L ->
  let (s1, t1) := run s0 (ready_each DATA_SOURCE_CALLBACK_WRITE ios) in
  btstack_uart_block_write_bytes_len (bw s1) = 0 /\
  btstack_uart_block_write_bytes_data (bw s1) = data + L /\
  count_occ event_eq_dec t1 call_block_sent = 1%nat /\
  count_occ event_eq_dec t1
    (btstack_run_loop_disable_data_source_callbacks DATA_SOURCE_CALLBACK_WRITE) = 1%nat /\
  Forall (writes_up_to (data + L)) t1.
Proof.
  intros Hfd Hact Hcb HL. cbn [btstack_uart_posix_send_block].
  set (s0 := set_bw _ s). intros Hok Hsum.
  pose proof (block_write_run ios s0 Hfd Hact Hcb ltac:(cbn; lia) Hok Hsum) as H.
  destruct (run s0 _) as [s1 t1].
  cbn [s0 bw set_bw btstack_uart_block_write_bytes_len
       btstack_uart_block_write_bytes_data] in H.
  destruct (Z.eqb_spec L 0); [lia|]. exact H.
Qed.

Lemma block_send_survives_failed_writes_witness :
  let ios := [answer (-1) []; answer 4 []; answer 0 []; answer 6 []] in
  let s0 := fst (btstack_uart_posix_send_block sample_state 100 10) in
  let r := run s0 (ready_each DATA_SOURCE_CALLBACK_WRITE ios) in
  btstack_uart_block_write_bytes_len (bw (fst r)) = 0 /\
  count_occ event_eq_dec (snd r) call_block_sent = 1%nat /\
  Forall (writes_up_to 110) (snd r).
Proof.
  pose proof (block_send_survives_failed_writes sample_state 100 10
                [answer (-1) []; answer 4 []; answer 0 []; answer 6 []]
                ltac:(by_compute) eq_refl eq_refl ltac:(lia)) as H.
  cbn [btstack_uart_posix_send_block] in H.
  specialize (H ltac:(by_compute) eq_refl).
  cbv zeta. cbn [btstack_uart_posix_send_block fst].
  destruct (run _ _) as [s1 t1]. cbn [fst snd].
  destruct H as (H1 & _ & H3 & _ & H5).
  split; [exact H1 | split; [exact H3 | exact H5]].
Defined.

(** A pending or finished block read, driven by read dispatches whose
    syscalls may fail, return zero, or deliver a part. *)
Lemma block_read_run {C : SlipCodec} (ios : list syscall) :
  forall s : state,
  0 <= transport_data_source_fd s ->
  btstack_uart_slip_receive_active (sr s) = 0 ->
  block_received (cb s) = true ->
  0 <= btstack_uart_block_read_bytes_len (br s) < 65536 ->
  run_ok s (ready_each DATA_SOURCE_CALLBACK_READ ios) ->
  sum_pos ios = btstack_uart_block_read_bytes_len (br s) ->
  let (s1, t1) := run s (ready_each DATA_SOURCE_CALLBACK_READ ios) in
  btstack_uart_block_read_bytes_len (br s1) = 0 /\
  btstack_uart_block_read_bytes_data (br s1) =
    btstack_uart_block_read_bytes_data (br s) + btstack_uart_block_read_bytes_len (br s) /\
  count_occ event_eq_dec t1 call_block_received =
    (if btstack_uart_block_read_bytes_len (br s) =? 0 then 0%nat else 1%nat).
Proof.
  induction ios as [|io ios IH]; intros s Hfd Hact Hcb Hlen Hok Hsum.
  - cbn in *. rewrite <- Hsum. cbn. repeat split; auto. lia.
  - cbn [ready_each map run step run_ok posix_ok syscall_count fst] in *.
    fold (ready_each DATA_SOURCE_CALLBACK_READ ios) in *.
    rewrite Hact in Hok. cbn [Z.eqb negb] in Hok. destruct Hok as [Hret Hok].
    cbn [sum_pos fold_right] in Hsum. fold (sum_pos ios) in Hsum.
    revert Hok. unfold hci_uart_posix_process, btstack_uart_block_posix_process_read.
    destruct (Z.ltb_spec (transport_data_source_fd s) 0); [lia|].
    rewrite Hact. cbn [Z.eqb negb].
    remember (if btstack_uart_block_read_bytes_len (br s) =? 0
              then [log_info "called but no read pending" [];
                    btstack_run_loop_disable_data_source_callbacks
                      DATA_SOURCE_CALLBACK_READ]
              else []) as t0 eqn:Et0.
    assert (Ht0 : count_occ event_eq_dec t0 call_block_received = 0%nat).
    { subst t0. destruct (_ =? 0); reflexivity. }
    clear Et0.
    set (r := sys_read _ _).
    assert (Hhead : count_occ event_eq_dec (t0 ++ r :: log_slow "read took %u ms" io)
                      call_block_received = 0%nat).
    { rewrite count_occ_app, Ht0. cbn [count_occ].
      destruct (event_eq_dec r call_block_received); [discriminate|].
      apply count_occ_log_slow. discriminate. }
    assert (Hstay :
        forall tl,
          count_occ event_eq_dec tl call_block_received = 0%nat ->
          sys_ret io <= 0 ->
          run_ok s (ready_each DATA_SOURCE_CALLBACK_READ ios) ->
          let (s1, t1) :=
            let (s2, t2) := run s (ready_each DATA_SOURCE_CALLBACK_READ ios) in
            (s2, tl ++ t2) in
          btstack_uart_block_read_bytes_len (br s1) = 0 /\
          btstack_uart_block_read_bytes_data (br s1) =
            btstack_uart_block_read_bytes_data (br s)
            + btstack_uart_block_read_bytes_len (br s) /\
          count_occ event_eq_dec t1 call_block_received =
            (if btstack_uart_block_read_bytes_len (br s) =? 0 then 0%nat else 1%nat)).
    { intros tl Hc Hr Hok.
      specialize (IH s Hfd Hact Hcb Hlen Hok ltac:(lia)).
      destruct (run s _) as [s1 t1].
      destruct IH as (I1 & I2 & I3).
      rewrite count_occ_app, Hc, I3. repeat split; auto. }
    destruct (Z.eqb_spec (sys_ret io) 0) as [Ez|Ez].
    + cbn [fst]. apply Hstay; [|lia].
      rewrite count_occ_app, Hhead. reflexivity.
    + destruct (Z.ltb_spec (sys_ret io) 0) as [En|En].
      * cbn [fst]. apply Hstay; [|lia].
        rewrite count_occ_app, Hhead. reflexivity.
      * (* progress *)
        rewrite wrap16_small by lia.
        set (s1 := set_br _ s).
        destruct (Z.ltb_spec 0 (btstack_uart_block_read_bytes_len (br s) - sys_ret io))
          as [Ed|Ed]; cbn [fst]; intros Hok;
          (specialize (IH s1 Hfd Hact Hcb ltac:(cbn; lia) Hok ltac:(cbn; lia));
           destruct (run s1 _) as [s2 t2];
           destruct IH as (I1 & I2 & I3);
           cbn [s1 br set_br btstack_uart_block_read_bytes_len
                btstack_uart_block_read_bytes_data] in I2, I3);
          destruct (Z.eqb_spec (btstack_uart_block_read_bytes_len (br s)) 0); try lia;
          destruct (Z.eqb_spec (btstack_uart_block_read_bytes_len (br s) - sys_ret io) 0);
          try lia.
        -- rewrite count_occ_app, Hhead, I3. repeat split; auto. lia.
        -- rewrite Hcb. rewrite 2 count_occ_app, Hhead, I3. repeat split; auto. lia.
Qed.

(** X3: a block receive of [0 < L < 65536] bytes completes exactly once
    whatever mixture of failed, empty and partial reads the dispatches
    bring, as long as the bytes read add up to [L]: a failed or empty
    read leaves the request as it was, and [block_received] is called
    once, when the remaining length reaches zero. *)
Theorem block_receive_survives_failed_reads {C : SlipCodec}
    (s : state) (buffer L : Z) (ios : list syscall) :
  0 <= transport_data_source_fd s ->
  btstack_uart_slip_receive_active (sr s) = 0 ->
  block_received (cb s) = true ->
  0 < L < 65536 ->
  let (s0, t0) := btstack_uart_posix_receive_block s buffer L in
  run_ok s0 (ready_each DATA_SOURCE_CALLBACK_READ ios) ->
  sum_pos ios = L ->
  let (s1, t1) := run s0 (ready_each DATA_SOURCE_CALLBACK_READ ios) in
  btstack_uart_block_read_bytes_len (br s1) = 0 /\
  btstack_uart_block_read_bytes_data (br s1) = buffer + L /\
  count_occ event_eq_dec t1 call_block_received = 1%nat.
Proof.
  intros Hfd Hact Hcb HL. cbn [btstack_uart_posix_receive_block].
  set (s0 := set_br _ s). intros Hok Hsum.
  pose proof (block_read_run ios s0 Hfd Hact Hcb ltac:(cbn; lia) Hok Hsum) as H.
  destruct (run s0 _) as [s1 t1].
  cbn [s0 br set_br btstack_uart_block_read_bytes_len
       btstack_uart_block_read_bytes_data] in H.
  destruct (Z.eqb_spec L 0); [lia|]. exact H.
Qed.

Lemma block_receive_survives_failed_reads_witness :
  let ios := [answer 3 []; answer (-1) []; answer 0 []; answer 7 []] in
  let s0 := fst (btstack_uart_posix_receive_block sample_state 200 10) in
  let r := run s0 (ready_each DATA_SOURCE_CALLBACK_READ ios) in
  btstack_uart_block_read_bytes_len (br (fst r)) = 0 /\
  btstack_uart_block_read_bytes_data (br (fst r)) = 210 /\
  count_occ event_eq_dec (snd r) call_block_received = 1%nat.
Proof.
  pose proof (block_receive_survives_failed_reads sample_state 200 10
                [answer 3 []; answer (-1) []; answer 0 []; answer 7 []]
                ltac:(by_compute) eq_refl eq_refl ltac:(lia)) as H.
  cbn [btstack_uart_posix_receive_block] in H.
  specialize (H ltac:(by_compute) eq_refl).
  cbv zeta. cbn [btstack_uart_posix_receive_block fst].
  destruct (run _ _) as [s1 t1]. cbn [fst snd].
  exact H.
Defined.

(** ** Requests for no bytes, and dispatches with nothing pending *)

(** X4: a block send of zero bytes never completes: every later write
    dispatch in block mode returns at once, without a syscall, without
    touching the statics and without calling [block_sent]. *)
Theorem empty_block_send_never_completes {C : SlipCodec}
    (s : state) (data : Z) (ios : list syscall) :
  btstack_uart_slip_write_active (sw s) = 0 ->
  run (fst (btstack_uart_posix_send_block s data 0))
      (ready_each DATA_SOURCE_CALLBACK_WRITE ios)
  = (fst (btstack_uart_posix_send_block s data 0), []).
Proof.
  intros Hact. cbn [btstack_uart_posix_send_block fst].
  set (s0 := set_bw _ s).
  induction ios as [|io ios IH]; [reflexivity|].
  cbn [ready_each map run step]. fold (ready_each DATA_SOURCE_CALLBACK_WRITE ios).
  unfold hci_uart_posix_process, btstack_uart_block_posix_process_write.
  cbn [s0 sw set_bw bw btstack_uart_block_write_bytes_len transport_data_source_fd].
  rewrite Hact. cbn [Z.eqb negb]. fold s0.
  destruct (_ <? 0); now rewrite IH.
Qed.

Lemma empty_block_send_never_completes_witness :
  run (fst (btstack_uart_posix_send_block sample_state 100 0))
      (ready_each DATA_SOURCE_CALLBACK_WRITE [answer 0 []; answer (-1) []])
  = (fst (btstack_uart_posix_send_block sample_state 100 0), []).
Proof.
  apply (empty_block_send_never_completes sample_state 100
           [answer 0 []; answer (-1) []]).
  reflexivity.
Defined.

Lemma reads_nothing_log_slow (fmt : string) (io : syscall) :
  Forall reads_nothing (log_slow fmt io).
Proof. unfold log_slow. destruct (10 <? _); repeat constructor. Qed.

Lemma log_slow_no_handler (fmt : string) (io : syscall) :
  forallb (fun e => negb (is_handler_call e)) (log_slow fmt io) = true.
Proof. unfold log_slow. destruct (10 <? _); reflexivity. Qed.

(** X5: read readiness with no read pending (no frame receive active, no
    block read outstanding, as after a frame was delivered or after
    [receive_block] for zero bytes): every dispatch disarms read
    interest and issues a [read] for zero bytes only, so no byte is taken
    from the device; the statics, with the receive buffer and its
    cursors, stay as they were and no handler is called. *)
Theorem idle_read_dispatch_disarms {C : SlipCodec} (ios : list syscall) (s : state) :
  0 <= transport_data_source_fd s ->
  btstack_uart_slip_receive_active (sr s) = 0 ->
  btstack_uart_block_read_bytes_len (br s) = 0 ->
  run_ok s (ready_each DATA_SOURCE_CALLBACK_READ ios) ->
  let (s1, t1) := run s (ready_each DATA_SOURCE_CALLBACK_READ ios) in
  s1 = s /\
  forallb (fun e => negb (is_handler_call e)) t1 = true /\
  Forall reads_nothing t1 /\
  (ios <> [] ->
   In (btstack_run_loop_disable_data_source_callbacks DATA_SOURCE_CALLBACK_READ) t1).
Proof.
  intros Hfd Hact Hlen.
  induction ios as [|io ios IH]; intros Hok.
  - cbn. repeat split; auto.
  - cbn [ready_each map run step run_ok posix_ok syscall_count fst] in *.
    fold (ready_each DATA_SOURCE_CALLBACK_READ ios) in *.
    rewrite Hact, Hlen in Hok. cbn [Z.eqb negb] in Hok. destruct Hok as [Hret Hok].
    revert Hok.
    unfold hci_uart_posix_process, btstack_uart_block_posix_process_read.
    destruct (Z.ltb_spec (transport_data_source_fd s) 0); [lia|].
    rewrite Hact, Hlen. cbn [Z.eqb negb app].
    assert (Hhead :
        forall e,
          is_handler_call e = false -> reads_nothing e ->
          forallb (fun e => negb (is_handler_call e))
            ((log_info "called but no read pending" []
              :: btstack_run_loop_disable_data_source_callbacks DATA_SOURCE_CALLBACK_READ
              :: sys_read (transport_data_source_fd s) 0
              :: log_slow "read took %u ms" io) ++ [e]) = true
          /\ Forall reads_nothing
               ((log_info "called but no read pending" []
                 :: btstack_run_loop_disable_data_source_callbacks DATA_SOURCE_CALLBACK_READ
                 :: sys_read (transport_data_source_fd s) 0
                 :: log_slow "read took %u ms" io) ++ [e])).
    { intros e He Hr. split.
      - cbn [app forallb is_handler_call negb andb].
        rewrite forallb_app, log_slow_no_handler. cbn. now rewrite He.
      - cbn [app]. repeat constructor.
        apply Forall_app. split; [apply reads_nothing_log_slow | now constructor]. }
    assert (Hgo :
        forall e,
          is_handler_call e = false -> reads_nothing e ->
          run_ok s (ready_each DATA_SOURCE_CALLBACK_READ ios) ->
          let (s1, t1) :=
            let (s2, t2) := run s (ready_each DATA_SOURCE_CALLBACK_READ ios) in
            (s2, ((log_info "called but no read pending" []
                   :: btstack_run_loop_disable_data_source_callbacks
                        DATA_SOURCE_CALLBACK_READ
                   :: sys_read (transport_data_source_fd s) 0
                   :: log_slow "read took %u ms" io) ++ [e]) ++ t2) in
          s1 = s /\
          forallb (fun e => negb (is_handler_call e)) t1 = true /\
          Forall reads_nothing t1 /\
          (io :: ios <> [] ->
           In (btstack_run_loop_disable_data_source_callbacks DATA_SOURCE_CALLBACK_READ)
              t1)).
    { intros e He Hr Hok. specialize (IH Hok).
      destruct (run s _) as [s1 t1]. destruct IH as (I1 & I2 & I3 & _).
      destruct (Hhead e He Hr) as [H1 H2].
      split; [exact I1|]. split; [now rewrite forallb_app, H1, I2|].
      split; [apply Forall_app; now split|].
      intros _. apply in_or_app. left. right. now left. }
    destruct (Z.eqb_spec (sys_ret io) 0).
    + cbn [fst]. apply Hgo; reflexivity.
    + destruct (Z.ltb_spec (sys_ret io) 0); [|lia].
      cbn [fst]. apply Hgo; reflexivity.
Qed.

(** After a frame was delivered, with a second one still buffered. *)
Lemma idle_read_dispatch_disarms_witness :
  let s := fst (run sample_state
                    [Receive_frame 0 100 0;
                     Ready DATA_SOURCE_CALLBACK_READ (answer 5 [1; 2; 192; 3; 192])]) in
  let r := run s (ready_each DATA_SOURCE_CALLBACK_READ [answer 0 []]) in
  btstack_uart_slip_receive_pos (sr s) = 3 /\
  fst r = s /\
  In (btstack_run_loop_disable_data_source_callbacks DATA_SOURCE_CALLBACK_READ) (snd r).
Proof.
  pose proof (idle_read_dispatch_disarms [answer 0 []]
                (fst (run sample_state
                          [Receive_frame 0 100 0;
                           Ready DATA_SOURCE_CALLBACK_READ (answer 5 [1; 2; 192; 3; 192])]))
                ltac:(by_compute) eq_refl eq_refl ltac:(by_compute)) as H.
  cbv zeta. destruct (run (fst _) (ready_each _ _)) as [s1 t1]. cbn [fst snd].
  destruct H as (H1 & _ & _ & H4).
  split; [reflexivity | split; [exact H1 | apply H4; discriminate]].
Defined.

(** ** Handlers *)

Lemma handler_only_last_removelast (t : trace) :
  forallb (fun e => negb (is_handler_call e)) (removelast t) = true ->
  handler_only_last t.
Proof.
  intros H.
  destruct t as [|e t];
    [exists [], []; split; [reflexivity | split; [reflexivity | cbn; lia]]|].
  exists (removelast (e :: t)), [last (e :: t) e].
  split; [apply app_removelast_last; discriminate|]. split; [exact H | cbn; lia].
Qed.

Ltac split_ifs_eqn :=
  repeat (first
            [ match goal with
              | H : ?b = _ |- context [if ?b then _ else _] => rewrite H
              | H : ?b = _ |- context [if negb ?b then _ else _] => rewrite H
              end
            | match goal with
              | |- context [if negb ?b then _ else _] => destruct b eqn:?
              | |- context [if ?b then _ else _] => destruct b eqn:?
              end ];
          cbn [negb]).

Ltac use_flags :=
  cbn [cb set_slip set_sr set_sw set_bw set_br set_fd] in *;
  repeat match goal with
         | H : ?x = true |- context [?x] => rewrite H
         | H : ?x = false |- context [?x] => rewrite H
         end.

(** every call of the driver and every dispatch: where handlers are
    invoked, and which *)
Lemma step_handlers {C : SlipCodec} (s : state) (c : call) :
  handler_only_last (snd (step s c))
  /\ forallb (justified (cb s)) (snd (step s c)) = true
  /\ (is_setter c = false -> cb (fst (step s c)) = cb s).
Proof.
  destruct c as [| h | h | h | h | buffer len | data size | buffer len now
                 | frame frame_size | t io]; cbn [step fst snd is_setter];
    try (split; [apply handler_only_last_removelast; reflexivity
                | split; [reflexivity | try reflexivity; intros; discriminate]]).
  - (* receive_frame *)
    unfold btstack_uart_slip_posix_receive_frame, btstack_uart_slip_posix_process_buffer.
    destruct (decode_bytes _ _ _ _ _ _) as [[c p] f].
    split_ifs_eqn; cbn [fst snd cb set_slip set_sr app];
      (split; [apply handler_only_last_removelast; reflexivity
              | split; [cbn; use_flags; reflexivity | reflexivity]]).
  - (* send_frame *)
    unfold btstack_uart_slip_posix_send_frame, btstack_uart_slip_posix_encode_chunk_and_send.
    destruct (encode_chunk _ _ _ _) as [[c buf] pos]. cbn [fst snd].
    split; [apply handler_only_last_removelast; reflexivity
           | split; reflexivity].
  - (* a dispatch *)
    unfold hci_uart_posix_process.
    destruct (_ <? 0);
      [split; [apply handler_only_last_removelast; reflexivity | split; reflexivity]|].
    destruct t;
      [split; [apply handler_only_last_removelast; reflexivity | split; reflexivity] | |].
    + destruct (negb (_ =? 0)).
      * unfold btstack_uart_slip_posix_process_read,
          btstack_uart_slip_posix_process_buffer, log_slow.
        destruct (sys_ret io <? 0).
        -- split_ifs_eqn; cbn [fst snd cb set_slip set_sr app];
             (split; [apply handler_only_last_removelast; reflexivity
                     | split; reflexivity]).
        -- destruct (decode_bytes _ _ _ _ _ _) as [[c p] f].
           split_ifs_eqn; cbn [fst snd cb set_slip set_sr app];
             (split; [apply handler_only_last_removelast; reflexivity
                     | split; [cbn; use_flags; reflexivity | reflexivity]]).
      * unfold btstack_uart_block_posix_process_read, log_slow.
        split_ifs_eqn; cbn [fst snd cb set_br app];
          (split; [apply handler_only_last_removelast; reflexivity
                  | split; [cbn; use_flags; reflexivity | reflexivity]]).
    + destruct (negb (_ =? 0)).
      * unfold btstack_uart_slip_posix_process_write, btstack_uart_slip_posix_block_sent,
          btstack_uart_slip_posix_encode_chunk_and_send, log_slow.
        destruct (encode_chunk _ _ _ _) as [[c buf] pos].
        split_ifs_eqn; cbn [fst snd cb set_slip set_sw app];
          (split; [apply handler_only_last_removelast; reflexivity
                  | split; [cbn; use_flags; reflexivity | reflexivity]]).
      * unfold btstack_uart_block_posix_process_write, log_slow.
        split_ifs_eqn; cbn [fst snd cb set_bw app];
          (split; [apply handler_only_last_removelast; reflexivity
                  | split; [cbn; use_flags; reflexivity | reflexivity]]).
Qed.

(** X6: in every call of the driver and in every readiness dispatch, at
    most one handler is invoked, and the invocation is the very last
    thing the driver does: nothing is logged, armed, disarmed, read or
    written after it.  (This is what makes it safe for a handler to call
    back into the driver.) *)
Theorem handler_invoked_last {C : SlipCodec} (s : state) (c : call) :
  handler_only_last (snd (step s c)).
Proof. exact (proj1 (step_handlers s c)). Qed.

(** X7: along any run that registers no handler, the handler table stays
    as it is and every handler invocation is justified by it: a handler
    that is not stored is never invoked, and a call through NULL happens
    only for [frame_received] (the one handler invoked without a test),
    hence never while [frame_received] is stored. *)
Theorem only_stored_handlers_invoked {C : SlipCodec} (cs : list call) (s : state) :
  forallb (fun c => negb (is_setter c)) cs = true ->
  let (s1, t1) := run s cs in
  cb s1 = cb s /\
  forallb (justified (cb s)) t1 = true /\
  (frame_received (cb s) = true -> ~ In call_null t1).
Proof.
  revert s; induction cs as [|c cs IH]; intros s Hcs.
  - cbn. repeat split; auto.
  - cbn [forallb] in Hcs. apply andb_true_iff in Hcs as [Hc Hcs].
    apply negb_true_iff in Hc.
    destruct (step_handlers s c) as (_ & Hj & Hcb). specialize (Hcb Hc).
    cbn [run]. destruct (step s c) as [s1 t1]. cbn [fst snd] in *.
    specialize (IH s1 Hcs). destruct (run s1 cs) as [s2 t2].
    destruct IH as (I1 & I2 & _). rewrite Hcb in I1, I2.
    assert (Hall : forallb (justified (cb s)) (t1 ++ t2) = true)
      by now rewrite forallb_app, Hj, I2.
    split; [exact I1|]. split; [exact Hall|].
    intros Hreg Hin. rewrite forallb_forall in Hall. apply Hall in Hin.
    cbn in Hin. rewrite Hreg in Hin. discriminate.
Qed.

Lemma only_stored_handlers_invoked_witness :
  let s := btstack_uart_posix_set_block_sent sample_state false in
  let cs := [Send_block 0 4; Ready DATA_SOURCE_CALLBACK_WRITE (answer 4 []);
             Receive_frame 0 100 0;
             Ready DATA_SOURCE_CALLBACK_READ (answer 3 [1; 2; 192])] in
  btstack_uart_block_write_bytes_len (bw (fst (run s cs))) = 0 /\
  In (call_frame_received 2) (snd (run s cs)) /\
  forallb (justified (cb s)) (snd (run s cs)) = true.
Proof.
  pose proof (only_stored_handlers_invoked
                [Send_block 0 4; Ready DATA_SOURCE_CALLBACK_WRITE (answer 4 []);
                 Receive_frame 0 100 0;
                 Ready DATA_SOURCE_CALLBACK_READ (answer 3 [1; 2; 192])]
                (btstack_uart_posix_set_block_sent sample_state false) eq_refl) as H.
  cbv zeta. destruct (run _ _) as [s1 t1] eqn:R. cbn [fst snd].
  destruct H as (_ & H & _).
  split; [|split; [|exact H]];
    vm_compute in R; inversion R; subst; [reflexivity|].
  repeat (first [left; reflexivity | right]).
Defined.

(** ** The two directions and the two engines *)

Ltac rest_untouched :=
  cbn [fst];
  repeat (first [split | intro]);
  try discriminate; try reflexivity;
  try (match goal with
       | |- if ?b then _ else _ => destruct b; repeat split; reflexivity
       end).

(** what one readiness dispatch leaves as it was *)
Lemma dispatch_untouched {C : SlipCodec}
    (s : state) (t : btstack_data_source_callback_type_t) (io : syscall) :
  let s' := fst (hci_uart_posix_process s t io) in
  transport_data_source_fd s' = transport_data_source_fd s /\
  cb s' = cb s /\
  (t = DATA_SOURCE_CALLBACK_POLL -> s' = s) /\
  (t = DATA_SOURCE_CALLBACK_WRITE ->
   br s' = br s /\ sr s' = sr s /\
   if btstack_uart_slip_write_active (sw s) =? 0
   then sw s' = sw s /\ slip s' = slip s
   else bw s' = bw s) /\
  (t = DATA_SOURCE_CALLBACK_READ ->
   bw s' = bw s /\ sw s' = sw s /\
   if btstack_uart_slip_receive_active (sr s) =? 0
   then sr s' = sr s /\ slip s' = slip s
   else br s' = br s).
Proof.
  cbv zeta. unfold hci_uart_posix_process.
  destruct (transport_data_source_fd s <? 0); [rest_untouched|].
  destruct t.
  - rest_untouched.
  - destruct (btstack_uart_slip_receive_active (sr s) =? 0) eqn:Ea; cbn [negb].
    + unfold btstack_uart_block_posix_process_read.
      split_ifs_eqn; rest_untouched.
    + unfold btstack_uart_slip_posix_process_read,
        btstack_uart_slip_posix_process_buffer.
      destruct (sys_ret io <? 0).
      * split_ifs_eqn; rest_untouched.
      * destruct (decode_bytes _ _ _ _ _ _) as [[c p] f].
        split_ifs_eqn; rest_untouched.
  - destruct (btstack_uart_slip_write_active (sw s) =? 0) eqn:Ea; cbn [negb].
    + unfold btstack_uart_block_posix_process_write.
      split_ifs_eqn; rest_untouched.
    + unfold btstack_uart_slip_posix_process_write, btstack_uart_slip_posix_block_sent,
        btstack_uart_slip_posix_encode_chunk_and_send.
      destruct (encode_chunk _ _ _ _) as [[c buf] pos].
      split_ifs_eqn; rest_untouched.
Qed.

(** X8: a readiness dispatch never changes the descriptor or the handler
    table.  A write dispatch leaves the read side (block read, frame
    receive) untouched and a read dispatch leaves the write side
    untouched.  Of the two engines of a direction only the one the
    active flag selects is touched: while a frame send is active a
    pending block write makes no progress, and a block-mode dispatch
    leaves the frame state and the codec alone. *)
Theorem dispatch_leaves_the_rest {C : SlipCodec}
    (s : state) (t : btstack_data_source_callback_type_t) (io : syscall) :
  let s' := fst (hci_uart_posix_process s t io) in
  transport_data_source_fd s' = transport_data_source_fd s /\
  cb s' = cb s /\
  (t = DATA_SOURCE_CALLBACK_POLL -> s' = s) /\
  (t = DATA_SOURCE_CALLBACK_WRITE ->
   br s' = br s /\ sr s' = sr s /\
   if btstack_uart_slip_write_active (sw s) =? 0
   then sw s' = sw s /\ slip s' = slip s
   else bw s' = bw s) /\
  (t = DATA_SOURCE_CALLBACK_READ ->
   bw s' = bw s /\ sw s' = sw s /\
   if btstack_uart_slip_receive_active (sr s) =? 0
   then sr s' = sr s /\ slip s' = slip s
   else br s' = br s).
Proof.
  exact (dispatch_untouched s t io).
Qed.

(** ** The outgoing chunk *)

Lemma array_set_length (a : list Z) (i v : Z) :
  0 <= i < Z.of_nat (List.length a) ->
  List.length (array_set a i v) = List.length a.
Proof.
  intros H. unfold array_set.
  rewrite length_app, length_firstn. cbn [List.length]. rewrite length_skipn. lia.
Qed.

Lemma array_set_firstn (a : list Z) (i v : Z) :
  0 <= i < Z.of_nat (List.length a) ->
  firstn (Z.to_nat (i + 1)) (array_set a i v) = firstn (Z.to_nat i) a ++ [v].
Proof.
  intros H. unfold array_set.
  replace (Z.to_nat (i + 1)) with (List.length (firstn (Z.to_nat i) a) + 1)%nat
    by (rewrite length_firstn; lia).
  rewrite firstn_app_2. reflexivity.
Qed.

(** The chunk loop for any codec whatever: it stores inside the buffer
    only, and it stops because its condition fails, not for lack of
    fuel. *)
Lemma encode_chunk_bounds {C : SlipCodec} (fuel : nat) (c : slip_t) (buf : list Z) (pos : Z) :
  0 <= pos -> pos + Z.of_nat fuel = SLIP_TX_CHUNK_LEN ->
  SLIP_TX_CHUNK_LEN <= Z.of_nat (List.length buf) ->
  let '(c', buf', pos') := encode_chunk fuel c buf pos in
  pos <= pos' <= SLIP_TX_CHUNK_LEN
  /\ List.length buf' = List.length buf
  /\ Z.land (btstack_slip_encoder_has_data c') (Z.b2z (pos' <? SLIP_TX_CHUNK_LEN)) = 0.
Proof.
  unfold SLIP_TX_CHUNK_LEN.
  revert c buf pos; induction fuel as [|fuel IH]; intros c buf pos Hpos Hfuel Hbuf.
  - cbn [encode_chunk]. split; [lia|]. split; [reflexivity|].
    destruct (Z.ltb_spec pos 128); [lia|]. cbn. apply Z.land_0_r.
  - cbn [encode_chunk]. unfold SLIP_TX_CHUNK_LEN.
    destruct (Z.eqb_spec (Z.land (btstack_slip_encoder_has_data c)
                                 (Z.b2z (pos <? 128))) 0) as [E|E].
    + split; [lia|]. split; [reflexivity | exact E].
    + destruct (btstack_slip_encoder_get_byte c) as [b c'].
      rewrite wrap16_small by lia.
      specialize (IH c' (array_set buf pos b) (pos + 1) ltac:(lia) ltac:(lia)).
      rewrite array_set_length in IH by lia. specialize (IH Hbuf).
      destruct (encode_chunk fuel c' _ _) as [[c2 buf2] pos2].
      destruct IH as (I1 & I2 & I3). repeat split; auto; lia.
Qed.

Lemma encode_chunk_and_send_inv {C : SlipCodec} (s : state) :
  Z.of_nat (List.length (btstack_uart_slip_outgoing_buffer (sw s))) = SLIP_TX_CHUNK_LEN + 1 ->
  send_chunk_inv (fst (btstack_uart_slip_posix_encode_chunk_and_send s)).
Proof.
  intros Hbuf. unfold btstack_uart_slip_posix_encode_chunk_and_send.
  pose proof (encode_chunk_bounds (Z.to_nat SLIP_TX_CHUNK_LEN) (slip s)
                (btstack_uart_slip_outgoing_buffer (sw s)) 0
                ltac:(lia) eq_refl ltac:(lia)) as H.
  destruct (encode_chunk _ _ _ _) as [[c buf] pos].
  destruct H as (H1 & H2 & _).
  unfold send_chunk_inv, SLIP_TX_CHUNK_LEN in *. cbn. rewrite H2.
  repeat split; lia.
Qed.

Lemma step_send_chunk {C : SlipCodec} (s : state) (c : call) :
  send_chunk_inv s -> posix_ok s c -> send_chunk_inv (fst (step s c)).
Proof.
  intros Hinv Hok.
  assert (Hsame : forall s', sw s' = sw s -> send_chunk_inv s').
  { intros s' E. unfold send_chunk_inv in *. now rewrite E. }
  destruct c as [| h | h | h | h | buffer len | data size | buffer len now
                 | frame frame_size | t io]; cbn [step fst];
    try (apply Hsame; reflexivity).
  - (* receive_frame *)
    unfold btstack_uart_slip_posix_receive_frame.
    destruct (negb (_ =? 0)); [|apply Hsame; reflexivity].
    match goal with
    | |- context [btstack_uart_slip_posix_process_buffer ?s1 ?n1] =>
        destruct (process_buffer_no_completion s1 n1) as [H1 _];
        destruct (btstack_uart_slip_posix_process_buffer s1 n1) as [[s2 t2] found]
    end.
    cbn [fst] in H1. destruct (negb _); apply Hsame; exact H1.
  - (* send_frame *)
    unfold btstack_uart_slip_posix_send_frame.
    apply encode_chunk_and_send_inv. exact (proj1 Hinv).
  - (* a dispatch *)
    destruct (dispatch_untouched s t io) as (_ & _ & Hp & Hw & Hr).
    destruct t.
    + rewrite (Hp eq_refl). exact Hinv.
    + apply Hsame. apply (Hr eq_refl).
    + cbn [posix_ok syscall_count] in Hok.
      specialize (Hw eq_refl). destruct Hw as (_ & _ & Hw).
      destruct (Z.eqb_spec (btstack_uart_slip_write_active (sw s)) 0) as [Ea|Ea].
      * apply Hsame. apply Hw.
      * cbn [negb] in Hok. clear Hw Hp Hr.
        unfold hci_uart_posix_process, btstack_uart_slip_posix_process_write.
        destruct (_ <? 0); [exact Hinv|].
        destruct (Z.eqb_spec (btstack_uart_slip_write_active (sw s)) 0);
          [contradiction|]. cbn [negb].
        destruct (_ =? 0); [exact Hinv|].
        destruct (Z.ltb_spec (sys_ret io) 0); [exact Hinv|].
        destruct Hinv as (I1 & I2 & I3 & I4).
        destruct (negb (_ =? 0)).
        -- cbn [fst]. unfold send_chunk_inv, SLIP_TX_CHUNK_LEN in *. cbn. repeat split; lia.
        -- unfold btstack_uart_slip_posix_block_sent.
           destruct (negb (_ =? 0)).
           ++ match goal with
              | |- context [btstack_uart_slip_posix_encode_chunk_and_send ?s1] =>
                  pose proof (encode_chunk_and_send_inv s1 I1) as H1;
                  destruct (btstack_uart_slip_posix_encode_chunk_and_send s1)
              end. exact H1.
           ++ cbn [fst]. unfold send_chunk_inv, SLIP_TX_CHUNK_LEN in *. cbn. repeat split; lia.
Qed.

(** X9: for any codec whatever, along any run in which [write] returns
    at most the count it was given, the outgoing buffer keeps its
    declared size of [SLIP_TX_CHUNK_LEN + 1] bytes and the chunk in
    flight, from the data pointer over the remaining length, lies inside
    its first [SLIP_TX_CHUNK_LEN] bytes: the driver never stores to, or
    hands [write], a byte outside the buffer. *)
Theorem send_chunk_invariant {C : SlipCodec} (cs : list call) (s : state) :
  send_chunk_inv s -> run_ok s cs -> send_chunk_inv (fst (run s cs)).
Proof.
  revert s; induction cs as [|c cs IH]; intros s Hinv Hok; [exact Hinv|].
  cbn [run_ok] in Hok. destruct Hok as [Hc Hok].
  cbn [run]. pose proof (step_send_chunk s c Hinv Hc) as H1.
  destruct (step s c) as [s1 t1]. cbn [fst] in *.
  specialize (IH s1 H1 Hok).
  destruct (run s1 cs) as [s2 t2]. exact IH.
Qed.

Lemma send_chunk_invariant_witness :
  let cs := [Send_frame (repeat 7 130) 130;
             Ready DATA_SOURCE_CALLBACK_WRITE (answer 100 []);
             Ready DATA_SOURCE_CALLBACK_WRITE (answer (-1) []);
             Ready DATA_SOURCE_CALLBACK_WRITE (answer 28 [])] in
  send_chunk_inv (fst (run sample_state cs)) /\
  btstack_uart_slip_write_bytes_len (sw (fst (run sample_state cs))) = 2.
Proof.
  split; [|reflexivity].
  apply (send_chunk_invariant
           [Send_frame (repeat 7 130) 130;
            Ready DATA_SOURCE_CALLBACK_WRITE (answer 100 []);
            Ready DATA_SOURCE_CALLBACK_WRITE (answer (-1) []);
            Ready DATA_SOURCE_CALLBACK_WRITE (answer 28 [])]
           sample_state); by_compute.
Defined.

Lemma encode_chunk_content {C : SlipCodec} (fuel : nat) :
  forall (c : slip_t) (buf : list Z) (pos : Z) (n : nat),
  encoder_pending n c ->
  0 <= pos -> pos + Z.of_nat fuel = SLIP_TX_CHUNK_LEN ->
  SLIP_TX_CHUNK_LEN <= Z.of_nat (List.length buf) ->
  let '(c', buf', pos') := encode_chunk fuel c buf pos in
  pos' = pos + Z.of_nat (Nat.min n fuel)
  /\ c' = snd (encoder_take (Nat.min n fuel) c)
  /\ firstn (Z.to_nat pos') buf'
     = firstn (Z.to_nat pos) buf ++ fst (encoder_take (Nat.min n fuel) c).
Proof.
  unfold SLIP_TX_CHUNK_LEN.
  induction fuel as [|fuel IH]; intros c buf pos n Hn Hpos Hfuel Hbuf.
  - cbn [encode_chunk]. rewrite Nat.min_0_r. cbn. rewrite Z.add_0_r, app_nil_r.
    repeat split; reflexivity.
  - cbn [encode_chunk]. unfold SLIP_TX_CHUNK_LEN.
    destruct (Z.ltb_spec pos 128); [|lia].
    destruct n as [|n]; cbn [encoder_pending] in Hn.
    + rewrite Hn. cbn. rewrite Z.add_0_r, app_nil_r. repeat split; reflexivity.
    + destruct Hn as [Hd Hn]. rewrite Hd. cbn [Z.b2z Z.land Pos.land Z.eqb].
      cbn [Nat.min encoder_take].
      destruct (btstack_slip_encoder_get_byte c) as [b c'] eqn:G.
      cbn [snd] in Hn. rewrite wrap16_small by lia.
      specialize (IH c' (array_set buf pos b) (pos + 1) n Hn ltac:(lia) ltac:(lia)).
      rewrite array_set_length in IH by lia. specialize (IH Hbuf).
      destruct (encode_chunk fuel c' _ _) as [[c2 buf2] pos2].
      destruct (encoder_take (Nat.min n fuel) c') as [l c3].
      cbn [fst snd] in *.
      destruct IH as (I1 & I2 & I3). split; [lia|]. split; [exact I2|].
      rewrite I3, array_set_firstn by lia. now rewrite <- app_assoc.
Qed.

(** X10: when the encoder has [n] more bytes, the chunk that
    [encode_chunk_and_send] submits starts at the head of the outgoing
    buffer and holds, in order, exactly the next [min n SLIP_TX_CHUNK_LEN]
    bytes the encoder gives; the encoder is left advanced by exactly
    that many bytes, none is skipped and none is pulled in advance. *)
Theorem chunk_holds_next_encoded_bytes {C : SlipCodec} (s : state) (n : nat) :
  encoder_pending n (slip s) ->
  Z.of_nat (List.length (btstack_uart_slip_outgoing_buffer (sw s))) = SLIP_TX_CHUNK_LEN + 1 ->
  let (s', t) := btstack_uart_slip_posix_encode_chunk_and_send s in
  let k := Nat.min n (Z.to_nat SLIP_TX_CHUNK_LEN) in
  btstack_uart_slip_write_bytes_data (sw s') = 0 /\
  btstack_uart_slip_write_bytes_len (sw s') = Z.of_nat k /\
  firstn k (btstack_uart_slip_outgoing_buffer (sw s')) = fst (encoder_take k (slip s)) /\
  slip s' = snd (encoder_take k (slip s)) /\
  encoder_pending (n - k) (slip s').
Proof.
  intros Hn Hbuf.
  pose proof (encode_chunk_and_send_spec s n Hn) as Hs.
  unfold btstack_uart_slip_posix_encode_chunk_and_send in *.
  pose proof (encode_chunk_content (Z.to_nat SLIP_TX_CHUNK_LEN) (slip s)
                (btstack_uart_slip_outgoing_buffer (sw s)) 0 n Hn
                ltac:(lia) eq_refl ltac:(lia)) as H.
  destruct (encode_chunk _ _ _ _) as [[c buf] pos].
  destruct H as (H1 & H2 & H3). destruct Hs as (_ & Hp & _).
  cbv zeta. cbn [sw slip set_slip set_sw btstack_uart_slip_write_bytes_data
                 btstack_uart_slip_write_bytes_len btstack_uart_slip_outgoing_buffer] in *.
  change (Z.to_nat SLIP_TX_CHUNK_LEN) with 128%nat in *.
  split; [reflexivity|]. split; [lia|]. split; [|split; [exact H2 | exact Hp]].
  rewrite H1 in H3. cbn [Z.to_nat firstn app] in H3.
  replace (Z.to_nat (0 + Z.of_nat (Nat.min n 128))) with (Nat.min n 128) in H3 by lia.
  exact H3.
Qed.

Lemma chunk_holds_next_encoded_bytes_witness :
  let s := set_slip (btstack_slip_encoder_start (slip sample_state) [1; 192; 3] 3)
                    sample_state in
  let s' := fst (btstack_uart_slip_posix_encode_chunk_and_send s) in
  btstack_uart_slip_write_bytes_len (sw s') = 4 /\
  firstn 4 (btstack_uart_slip_outgoing_buffer (sw s')) = [1; 219; 220; 3].
Proof.
  pose proof (chunk_holds_next_encoded_bytes
                (set_slip (btstack_slip_encoder_start (slip sample_state) [1; 192; 3] 3)
                          sample_state) 4
                ltac:(by_compute) eq_refl) as H.
  cbv zeta in *. destruct (btstack_uart_slip_posix_encode_chunk_and_send _) as [s' t].
  cbn [fst]. destruct H as (_ & H2 & H3 & _).
  split; [exact H2 | exact H3].
Defined.

(** ** Draining the receive buffer *)

Lemma window_app (buf : list Z) (p a b : nat) :
  window buf p (a + b) = window buf p a ++ window buf (p + a) b.
Proof. unfold window. now rewrite seq_app, map_app. Qed.

Lemma window_length (buf : list Z) (p n : nat) : List.length (window buf p n) = n.
Proof. unfold window. now rewrite length_map, length_seq. Qed.

Lemma app_eq_length {A} (a c b d : list A) :
  List.length a = List.length c -> a ++ b = c ++ d -> a = c /\ b = d.
Proof.
  revert c; induction a as [|x a IH]; intros [|y c] Hl H; try discriminate.
  - now split.
  - cbn in *. inversion H; subst. destruct (IH c ltac:(lia) H2). subst. now split.
Qed.

(** X11: if [process_buffer] finds no frame it has fed every buffered
    byte to the decoder, in order, and left the buffer empty with both
    cursors at zero; it changes nothing else and only writes its debug
    line. *)
Theorem process_buffer_without_frame_drains {C : SlipCodec} (s : state) (now : Z) :
  0 <= btstack_uart_slip_receive_pos (sr s) <= btstack_uart_slip_receive_len (sr s) ->
  btstack_uart_slip_receive_len (sr s) < 65536 ->
  let '(s', t, found) := btstack_uart_slip_posix_process_buffer s now in
  found = 0 ->
  let bytes := window (btstack_uart_slip_receive_buffer (sr s))
                      (Z.to_nat (btstack_uart_slip_receive_pos (sr s)))
                      (Z.to_nat (btstack_uart_slip_receive_len (sr s)
                                 - btstack_uart_slip_receive_pos (sr s))) in
  feed (slip s) bytes = (slip s', List.length bytes, 0) /\
  btstack_uart_slip_receive_pos (sr s') = 0 /\
  btstack_uart_slip_receive_len (sr s') = 0 /\
  btstack_uart_slip_receive_active (sr s') = btstack_uart_slip_receive_active (sr s) /\
  btstack_uart_slip_receive_track_start (sr s')
    = btstack_uart_slip_receive_track_start (sr s) /\
  t = [log_debug "process buffer: pos %u, len %u"
         [btstack_uart_slip_receive_pos (sr s); btstack_uart_slip_receive_len (sr s)]].
Proof.
  intros Hpos Hlen.
  destruct (feed (slip s)
              (window (btstack_uart_slip_receive_buffer (sr s))
                      (Z.to_nat (btstack_uart_slip_receive_pos (sr s)))
                      (Z.to_nat (btstack_uart_slip_receive_len (sr s)
                                 - btstack_uart_slip_receive_pos (sr s)))))
    as [[c n] fs] eqn:F.
  pose proof (process_buffer_feed s now c n fs Hpos Hlen F) as H.
  pose proof (feed_count
                (window (btstack_uart_slip_receive_buffer (sr s))
                        (Z.to_nat (btstack_uart_slip_receive_pos (sr s)))
                        (Z.to_nat (btstack_uart_slip_receive_len (sr s)
                                   - btstack_uart_slip_receive_pos (sr s))))
                (slip s)) as Hn.
  rewrite F in Hn. rewrite window_length in Hn.
  destruct (btstack_uart_slip_posix_process_buffer s now) as [[s' t] found].
  destruct H as (-> & Hc & _ & Hp & Hl & Htr & Hact & _ & _ & _ & _ & _ & ->).
  intros ->. cbv zeta. rewrite F, window_length.
  destruct Hn as (_ & Hn & _). specialize (Hn eq_refl). subst n.
  cbn [Z.eqb] in *.
  destruct (Z.eqb_spec (btstack_uart_slip_receive_pos (sr s)
                        + Z.of_nat (Z.to_nat (btstack_uart_slip_receive_len (sr s)
                                              - btstack_uart_slip_receive_pos (sr s))))
                       (btstack_uart_slip_receive_len (sr s))); [|lia].
  rewrite Hc. repeat split; auto.
Qed.

Lemma process_buffer_without_frame_drains_witness :
  let armed := fst (btstack_uart_slip_posix_receive_frame sample_state 0 100 0) in
  let s := set_sr {| btstack_uart_slip_receive_buffer := [1; 219; 220; 3];
                     btstack_uart_slip_receive_pos := 1;
                     btstack_uart_slip_receive_len := 4;
                     btstack_uart_slip_receive_track_start := 0;
                     btstack_uart_slip_receive_start_time := 0;
                     btstack_uart_slip_receive_active := 1 |} armed in
  let '(s', t, found) := btstack_uart_slip_posix_process_buffer s 0 in
  found = 0 /\
  btstack_uart_slip_receive_pos (sr s') = 0 /\
  btstack_uart_slip_receive_len (sr s') = 0 /\
  btstack_uart_slip_receive_active (sr s') = 1.
Proof.
  pose proof (process_buffer_without_frame_drains
                (set_sr {| btstack_uart_slip_receive_buffer := [1; 219; 220; 3];
                           btstack_uart_slip_receive_pos := 1;
                           btstack_uart_slip_receive_len := 4;
                           btstack_uart_slip_receive_track_start := 0;
                           btstack_uart_slip_receive_start_time := 0;
                           btstack_uart_slip_receive_active := 1 |}
                   (fst (btstack_uart_slip_posix_receive_frame sample_state 0 100 0)))
                0 ltac:(by_compute) ltac:(by_compute)) as H.
  cbv zeta.
  destruct (btstack_uart_slip_posix_process_buffer _ 0) as [[s' t] found] eqn:R.
  assert (Hf : found = 0) by (vm_compute in R; now inversion R).
  specialize (H Hf). cbv zeta in H.
  destruct H as (_ & H1 & H2 & H3 & _).
  split; [exact Hf | split; [exact H1 | split; [exact H2 | exact H3]]].
Defined.

(** ** Any number of frames in one read *)

Lemma log_slow_no_frame (fmt : string) (io : syscall) :
  frame_calls (log_slow fmt io) = []
  /\ filter is_sys_read (log_slow fmt io) = []
  /\ filter arms_read (log_slow fmt io) = [].
Proof. unfold log_slow. destruct (10 <? _); repeat split; reflexivity. Qed.

(** [process_buffer] when the bytes between the cursors start with a
    complete frame: that frame is delivered, the cursors move to what
    follows it. *)
Lemma process_buffer_first_frame {C : SlipCodec} (s : state) (now : Z)
    (enc rest : list Z) (c' : slip_t) (fs : Z) :
  0 <= btstack_uart_slip_receive_pos (sr s) <= btstack_uart_slip_receive_len (sr s) ->
  btstack_uart_slip_receive_len (sr s) < 65536 ->
  frame_received (cb s) = true ->
  window (btstack_uart_slip_receive_buffer (sr s))
         (Z.to_nat (btstack_uart_slip_receive_pos (sr s)))
         (Z.to_nat (btstack_uart_slip_receive_len (sr s)
                    - btstack_uart_slip_receive_pos (sr s))) = enc ++ rest ->
  feed (slip s) enc = (c', List.length enc, fs) -> fs <> 0 ->
  let '(s', t, found) := btstack_uart_slip_posix_process_buffer s now in
  found = fs /\ cb s' = cb s /\ transport_data_source_fd s' = transport_data_source_fd s /\
  0 <= btstack_uart_slip_receive_pos (sr s') <= btstack_uart_slip_receive_len (sr s') /\
  btstack_uart_slip_receive_len (sr s') < 65536 /\
  (btstack_uart_slip_receive_pos (sr s') = btstack_uart_slip_receive_len (sr s') ->
   btstack_uart_slip_receive_len (sr s') = 0) /\
  window (btstack_uart_slip_receive_buffer (sr s'))
         (Z.to_nat (btstack_uart_slip_receive_pos (sr s')))
         (Z.to_nat (btstack_uart_slip_receive_len (sr s')
                    - btstack_uart_slip_receive_pos (sr s'))) = rest /\
  frame_calls t = [fs] /\ filter is_sys_read t = [] /\ filter arms_read t = [].
Proof.
  intros Hpos Hlen Hcb Hwin F Hfs.
  pose proof (process_buffer_feed s now c' (List.length enc) fs Hpos Hlen) as H.
  rewrite Hwin in H. specialize (H (feed_app_stop _ _ _ _ _ _ F Hfs)).
  assert (Hl : (List.length enc + List.length rest)%nat
               = Z.to_nat (btstack_uart_slip_receive_len (sr s)
                           - btstack_uart_slip_receive_pos (sr s))).
  { rewrite <- length_app, <- Hwin. apply window_length. }
  destruct (btstack_uart_slip_posix_process_buffer s now) as [[s' t] found].
  destruct H as (-> & _ & Hbuf & Hp & Hle & _ & _ & Hfd & _ & _ & Hcb' & _ & ->).
  rewrite Hp, Hle, Hbuf, Hcb.
  destruct (Z.eqb_spec fs 0); [contradiction|].
  split; [reflexivity|]. split; [exact Hcb'|]. split; [exact Hfd|].
  assert (Hrest : window (btstack_uart_slip_receive_buffer (sr s))
                         (Z.to_nat (btstack_uart_slip_receive_pos (sr s))
                          + List.length enc) (List.length rest) = rest).
  { rewrite <- Hl, window_app in Hwin.
    apply app_eq_length in Hwin; [tauto|]. apply window_length. }
  destruct (Z.eqb_spec (btstack_uart_slip_receive_pos (sr s) + Z.of_nat (List.length enc))
                       (btstack_uart_slip_receive_len (sr s))) as [E|E].
  - assert (List.length rest = O) by lia.
    destruct rest; [|discriminate].
    repeat split; try lia; try reflexivity;
      destruct (_ =? 0); reflexivity.
  - repeat split; try lia.
    + replace (Z.to_nat (btstack_uart_slip_receive_pos (sr s) + Z.of_nat (List.length enc)))
        with (Z.to_nat (btstack_uart_slip_receive_pos (sr s)) + List.length enc)%nat by lia.
      replace (Z.to_nat (btstack_uart_slip_receive_len (sr s)
                         - (btstack_uart_slip_receive_pos (sr s)
                            + Z.of_nat (List.length enc))))
        with (List.length rest) by lia.
      exact Hrest.
    + destruct (_ =? 0); reflexivity.
    + destruct (_ =? 0); reflexivity.
    + destruct (_ =? 0); reflexivity.
Qed.

(** Frames waiting between the cursors are handed out one per
    [receive_frame], without a read and without arming read interest. *)
Lemma receive_frames_from_buffer {C : SlipCodec} (frames : list frame_req) :
  forall s : state,
  0 <= btstack_uart_slip_receive_pos (sr s) <= btstack_uart_slip_receive_len (sr s) ->
  btstack_uart_slip_receive_len (sr s) < 65536 ->
  (btstack_uart_slip_receive_pos (sr s) = btstack_uart_slip_receive_len (sr s) ->
   btstack_uart_slip_receive_len (sr s) = 0) ->
  frame_received (cb s) = true ->
  window (btstack_uart_slip_receive_buffer (sr s))
         (Z.to_nat (btstack_uart_slip_receive_pos (sr s)))
         (Z.to_nat (btstack_uart_slip_receive_len (sr s)
                    - btstack_uart_slip_receive_pos (sr s)))
  = List.concat (map fr_enc frames) ->
  Forall frame_req_ok frames ->
  let (s1, t1) := run s (map receive_frame_call frames) in
  frame_calls t1 = map fr_size frames /\
  filter is_sys_read t1 = [] /\ filter arms_read t1 = [] /\
  btstack_uart_slip_receive_pos (sr s1) = 0 /\
  btstack_uart_slip_receive_len (sr s1) = 0.
Proof.
  induction frames as [|r frames IH]; intros s Hpos Hlen Hinv Hcb Hwin Hok.
  - cbn in *. apply (f_equal (@List.length Z)) in Hwin.
    rewrite window_length in Hwin. cbn in Hwin.
    assert (E : btstack_uart_slip_receive_pos (sr s) = btstack_uart_slip_receive_len (sr s))
      by lia.
    specialize (Hinv E). repeat split; auto; lia.
  - inversion Hok as [|? ? Hr Hrest]; subst.
    cbn [map List.concat] in Hwin.
    destruct (frame_encoding_feed _ _ _ (Hr (slip s))) as (c' & F & Hfs & Hne).
    assert (Hlen0 : btstack_uart_slip_receive_len (sr s) <> 0).
    { apply (f_equal (@List.length Z)) in Hwin.
      rewrite window_length, length_app in Hwin.
      destruct (fr_enc r); [contradiction|]. cbn in Hwin. lia. }
    cbn [map run step receive_frame_call].
    unfold btstack_uart_slip_posix_receive_frame.
    destruct (Z.eqb_spec (btstack_uart_slip_receive_len (sr s)) 0); [contradiction|].
    cbn [negb].
    match goal with
    | |- context [btstack_uart_slip_posix_process_buffer ?s1 ?n1] =>
        pose proof (process_buffer_first_frame s1 n1 (fr_enc r)
                      (List.concat (map fr_enc frames)) c' (fr_size r)
                      Hpos Hlen Hcb Hwin F Hfs) as H;
        destruct (btstack_uart_slip_posix_process_buffer s1 n1) as [[s2 t2] found]
    end.
    destruct H as (-> & Hcb2 & _ & Hpos2 & Hlen2 & Hinv2 & Hwin2 & Hf1 & Hf2 & Hf3).
    destruct (Z.eqb_spec (fr_size r) 0); [contradiction|]. cbn [negb].
    cbn [cb set_slip set_sr] in Hcb2. rewrite <- Hcb2 in Hcb.
    specialize (IH s2 Hpos2 Hlen2 Hinv2 Hcb Hwin2 Hrest).
    destruct (run s2 _) as [s3 t3].
    destruct IH as (I1 & I2 & I3 & I4 & I5).
    unfold frame_calls in *. cbn [app flat_map filter is_sys_read arms_read].
    rewrite flat_map_app, !filter_app, Hf1, Hf2, Hf3, I1, I2, I3.
    cbn. repeat split; auto.
Qed.

(** X12: any number of complete frames arriving in one read (at most
    [SLIP_RECEIVE_BUFFER_SIZE] bytes in all): [receive_frame] arms read
    interest, the read dispatch delivers the first frame, and each
    further [receive_frame] delivers the next one from the buffer.  The
    frames are delivered in arrival order, one per call, with exactly one
    [read] and one arming of read interest in the whole run, and the
    buffer is empty at the end. *)
Theorem frames_in_one_read {C : SlipCodec}
    (s : state) (first : frame_req) (more : list frame_req) (io : syscall) :
  0 <= transport_data_source_fd s ->
  frame_received (cb s) = true ->
  btstack_uart_slip_receive_len (sr s) = 0 ->
  Forall frame_req_ok (first :: more) ->
  sys_data io = List.concat (map fr_enc (first :: more)) ->
  sys_ret io = Z.of_nat (List.length (sys_data io)) ->
  sys_ret io <= SLIP_RECEIVE_BUFFER_SIZE ->
  let (s1, t1) :=
    run s (receive_frame_call first
           :: Ready DATA_SOURCE_CALLBACK_READ io
           :: map receive_frame_call more) in
  frame_calls t1 = map fr_size (first :: more) /\
  List.length (filter is_sys_read t1) = 1%nat /\
  List.length (filter arms_read t1) = 1%nat /\
  btstack_uart_slip_receive_pos (sr s1) = 0 /\
  btstack_uart_slip_receive_len (sr s1) = 0.
Proof.
  intros Hfd Hcb Hlen0 Hok Hdata Hret Hmax.
  unfold SLIP_RECEIVE_BUFFER_SIZE in Hmax.
  inversion Hok as [|? ? Hr Hrest]; subst.
  cbn [map List.concat] in Hdata.
  cbn [run step receive_frame_call].
  (* the call that arms the read *)
  unfold btstack_uart_slip_posix_receive_frame at 1.
  rewrite Hlen0. cbn [Z.eqb negb].
  set (s1 := set_slip _ _).
  destruct (frame_encoding_feed _ _ _ (Hr (slip s))) as (c' & F & Hfs & Hne).
  (* the dispatch *)
  unfold hci_uart_posix_process, btstack_uart_slip_posix_process_read.
  cbn [s1 transport_data_source_fd set_slip set_sr sr btstack_uart_slip_receive_active
       btstack_uart_slip_receive_track_start btstack_uart_slip_receive_buffer
       btstack_uart_slip_receive_pos btstack_uart_slip_receive_len
       btstack_uart_slip_receive_start_time Z.eqb negb].
  destruct (Z.ltb_spec (transport_data_source_fd s) 0) as [Hn|_]; [lia|].
  destruct (Z.ltb_spec (sys_ret io) 0) as [Hn|_]; [lia|].
  rewrite wrap16_small by lia.
  unfold array_fill.
  replace (Z.to_nat (sys_ret io)) with (List.length (sys_data io)) by lia.
  rewrite firstn_all.
  set (tailbuf := skipn _ _).
  match goal with
  | |- context [btstack_uart_slip_posix_process_buffer ?sb ?nb] =>
      pose proof (process_buffer_first_frame sb nb (fr_enc first)
                    (List.concat (map fr_enc more)) c' (fr_size first)) as Hpb;
      destruct (btstack_uart_slip_posix_process_buffer sb nb) as [[s2 t2] found]
  end.
  cbn [s1 set_slip set_sr sr slip cb btstack_uart_slip_receive_buffer
       btstack_uart_slip_receive_pos btstack_uart_slip_receive_len] in Hpb.
  specialize (Hpb ltac:(lia) ltac:(lia) Hcb).
  replace (Z.to_nat (sys_ret io - 0)) with (List.length (sys_data io)) in Hpb by lia.
  change (Z.to_nat 0) with O in Hpb.
  rewrite window_prefix in Hpb. specialize (Hpb Hdata F Hfs).
  destruct Hpb as (_ & Hcb2 & _ & Hpos2 & Hlen2 & Hinv2 & Hwin2 & Hf1 & Hf2 & Hf3).
  rewrite <- Hcb2 in Hcb.
  pose proof (receive_frames_from_buffer more s2 Hpos2 Hlen2 Hinv2 Hcb Hwin2 Hrest) as Hd.
  destruct (run s2 _) as [s3 t3].
  destruct Hd as (I1 & I2 & I3 & I4 & I5).
  destruct (log_slow_no_frame "read took %u ms" io) as (L1 & L2 & L3).
  unfold frame_calls in *.
  cbn [app flat_map filter is_sys_read arms_read].
  rewrite !flat_map_app, !filter_app, L1, L2, L3, Hf1, Hf2, Hf3, I1, I2, I3.
  cbn. repeat split; auto.
Qed.

Lemma frames_in_one_read_witness :
  let f1 := {| fr_enc := [1; 2; 192]; fr_size := 2;
               fr_buffer := 0; fr_len := 100; fr_now := 0 |} in
  let f2 := {| fr_enc := [3; 192]; fr_size := 1;
               fr_buffer := 0; fr_len := 100; fr_now := 0 |} in
  let f3 := {| fr_enc := [219; 220; 5; 6; 192]; fr_size := 3;
               fr_buffer := 0; fr_len := 100; fr_now := 0 |} in
  let io := answer 10 [1; 2; 192; 3; 192; 219; 220; 5; 6; 192] in
  frame_calls
    (snd (run sample_state
              (receive_frame_call f1 :: Ready DATA_SOURCE_CALLBACK_READ io
               :: map receive_frame_call [f2; f3])))
  = [2; 1; 3].
Proof.
  pose proof (frames_in_one_read sample_state
                {| fr_enc := [1; 2; 192]; fr_size := 2;
                   fr_buffer := 0; fr_len := 100; fr_now := 0 |}
                [{| fr_enc := [3; 192]; fr_size := 1;
                    fr_buffer := 0; fr_len := 100; fr_now := 0 |};
                 {| fr_enc := [219; 220; 5; 6; 192]; fr_size := 3;
                    fr_buffer := 0; fr_len := 100; fr_now := 0 |}]
                (answer 10 [1; 2; 192; 3; 192; 219; 220; 5; 6; 192])
                ltac:(by_compute) eq_refl eq_refl) as H.
  assert (Hok : forall enc n,
             In (enc, n) [([1; 2; 192], 2); ([3; 192], 1); ([219; 220; 5; 6; 192], 3)] ->
             frame_req_ok {| fr_enc := enc; fr_size := n;
                             fr_buffer := 0; fr_len := 100; fr_now := 0 |}).
  { intros enc n [E|[E|[E|[]]]]; inversion E; subst;
      intros [p cap pos esc f]; by_compute. }
  assert (Hall : Forall frame_req_ok
                   [{| fr_enc := [1; 2; 192]; fr_size := 2;
                       fr_buffer := 0; fr_len := 100; fr_now := 0 |};
                    {| fr_enc := [3; 192]; fr_size := 1;
                       fr_buffer := 0; fr_len := 100; fr_now := 0 |};
                    {| fr_enc := [219; 220; 5; 6; 192]; fr_size := 3;
                       fr_buffer := 0; fr_len := 100; fr_now := 0 |}]).
  { constructor; [apply Hok; cbn; tauto|].
    constructor; [apply Hok; cbn; tauto|].
    constructor; [apply Hok; cbn; tauto|]. constructor. }
  specialize (H Hall eq_refl eq_refl ltac:(by_compute)).
  cbv zeta. destruct (run sample_state _) as [s1 t1]. cbn [snd].
  exact (proj1 H).
Defined.

(** ** Sending a frame with failing writes *)

Lemma sum_pos_app (a b : list syscall) : sum_pos (a ++ b) = sum_pos a + sum_pos b.
Proof.
  induction a as [|x a IH]; [reflexivity|].
  unfold sum_pos in *. cbn [fold_right app]. rewrite IH. lia.
Qed.

Lemma sum_pos_nonneg (ios : list syscall) : 0 <= sum_pos ios.
Proof.
  induction ios as [|x a IH]; [reflexivity|].
  unfold sum_pos in *. cbn [fold_right]. lia.
Qed.

(** A chunk of [len] bytes is in flight and the encoder holds [m] more;
    the writes may fail or return zero, the last one makes progress. *)
Lemma frame_send_run_failing {C : SlipCodec} (pre : list syscall) :
  forall (s : state) (m : nat) (last : syscall),
  0 <= transport_data_source_fd s ->
  btstack_uart_slip_write_active (sw s) <> 0 ->
  frame_sent (cb s) = true ->
  0 < btstack_uart_slip_write_bytes_len (sw s) ->
  encoder_pending m (slip s) ->
  run_ok s (ready_each DATA_SOURCE_CALLBACK_WRITE (pre ++ [last])) ->
  0 < sys_ret last ->
  sum_pos (pre ++ [last]) = btstack_uart_slip_write_bytes_len (sw s) + Z.of_nat m ->
  let (s1, t1) := run s (ready_each DATA_SOURCE_CALLBACK_WRITE (pre ++ [last])) in
  Z.of_nat (List.length (chunk_sends t1)) = (Z.of_nat m + 127) / 128 /\
  Forall (fun l => 0 < l <= SLIP_TX_CHUNK_LEN) (chunk_sends t1) /\
  fold_right Z.add 0 (chunk_sends t1) = Z.of_nat m /\
  btstack_uart_slip_write_active (sw s1) = 0 /\
  btstack_slip_encoder_has_data (slip s1) = 0 /\
  exists t,
    t1 = t ++ [btstack_run_loop_disable_data_source_callbacks DATA_SOURCE_CALLBACK_WRITE;
               call_frame_sent]
    /\ ~ In call_frame_sent t.
Proof.
  induction pre as [|io pre IH]; intros s m last Hfd Hact Hcb Hlen Hm Hok Hlast Hsum.
  - (* the last write *)
    cbn [app] in *. cbn [sum_pos fold_right] in Hsum.
    cbn [ready_each map run_ok posix_ok syscall_count] in Hok.
    destruct (Z.eqb_spec (btstack_uart_slip_write_active (sw s)) 0); [contradiction|].
    cbn [negb] in Hok.
    apply (frame_send_run [last] s m Hfd Hact Hcb Hlen Hm).
    + cbn [writes_progress syscall_count].
      destruct (Z.eqb_spec (btstack_uart_slip_write_active (sw s)) 0); [contradiction|].
      cbn [negb]. split; [lia | exact I].
    + cbn [sum_ret fold_right]. lia.
  - cbn [app ready_each map run step run_ok posix_ok syscall_count fst] in *.
    fold (ready_each DATA_SOURCE_CALLBACK_WRITE (pre ++ [last])) in *.
    cbn [sum_pos fold_right] in Hsum. fold (sum_pos (pre ++ [last])) in Hsum.
    destruct (Z.eqb_spec (btstack_uart_slip_write_active (sw s)) 0) as [|_];
      [contradiction|]. cbn [negb] in Hok. destruct Hok as [Hret Hok].
    revert Hok.
    unfold hci_uart_posix_process, btstack_uart_slip_posix_process_write.
    destruct (Z.ltb_spec (transport_data_source_fd s) 0) as [Hn|_]; [lia|].
    destruct (Z.eqb_spec (btstack_uart_slip_write_active (sw s)) 0) as [|_];
      [contradiction|]. cbn [negb].
    destruct (Z.eqb_spec (btstack_uart_slip_write_bytes_len (sw s)) 0) as [Hn|_]; [lia|].
    set (w := sys_write _ _ _).
    destruct (Z.ltb_spec (sys_ret io) 0) as [En|En].
    + (* the write failed *)
      cbn [fst]. intros Hok.
      specialize (IH s m last Hfd Hact Hcb Hlen Hm Hok Hlast ltac:(lia)).
      destruct (run s _) as [s3 t3].
      destruct IH as (I1 & I2 & I3 & I4 & I5 & t & Et & I6).
      cbn [app chunk_sends].
      split; [exact I1|]. split; [exact I2|]. split; [exact I3|].
      split; [exact I4|]. split; [exact I5|].
      exists (w :: btstack_run_loop_enable_data_source_callbacks
                     DATA_SOURCE_CALLBACK_WRITE :: t).
      rewrite Et. split; [reflexivity|].
      intros [H|[H|H]]; try discriminate. exact (I6 H).
    + set (t0 := w :: log_slow _ io).
      assert (Ht0 : chunk_sends t0 = []).
      { unfold t0. cbn [chunk_sends]. apply chunk_sends_log_slow. }
      assert (Ht0' : ~ In call_frame_sent t0).
      { unfold t0. intros [H|H]; [discriminate|].
        revert H. apply log_slow_no_event. discriminate. }
      set (s1 := set_sw _ s).
      destruct (Z.eqb_spec (btstack_uart_slip_write_bytes_len (sw s) - sys_ret io) 0)
        as [E|E]; cbn [negb].
      * (* the chunk is out *)
        unfold btstack_uart_slip_posix_block_sent.
        change (slip s1) with (slip s). change (cb s1) with (cb s).
        destruct m as [|m]; cbn [encoder_pending] in Hm.
        -- exfalso. rewrite sum_pos_app in Hsum.
           pose proof (sum_pos_nonneg pre). cbn [sum_pos fold_right] in Hsum. lia.
        -- destruct Hm as [Hd Hm']. rewrite Hd. cbn [Z.eqb negb].
           pose proof (encode_chunk_and_send_spec s1 (S m)
                         (conj Hd Hm' : encoder_pending (S m) (slip s1))) as Hc.
           destruct (btstack_uart_slip_posix_encode_chunk_and_send s1) as [s2 t2].
           destruct Hc as (Hl2 & Hp2 & Ha2 & Hf2 & Hcb2 & ->).
           cbn [fst snd]. intros Hok.
           specialize (IH s2 (S m - Nat.min (S m) 128)%nat last).
           rewrite Hf2, Ha2, Hcb2, Hl2 in IH.
           specialize (IH Hfd Hact Hcb ltac:(lia) Hp2 Hok Hlast ltac:(lia)).
           destruct (run s2 _) as [s3 t3].
           destruct IH as (I1 & I2 & I3 & I4 & I5 & t & Et & I6).
           rewrite !chunk_sends_app, Ht0. cbn [chunk_sends app List.length].
           split; [|split; [|split; [|split; [|split]]]]; auto.
           ++ rewrite Nat2Z.inj_succ, I1.
              rewrite (chunk_count_step (Z.of_nat (S m))) by lia.
              replace (Z.of_nat (S m - Nat.min (S m) 128))
                with (Z.of_nat (S m) - Z.min (Z.of_nat (S m)) 128) by lia.
              lia.
           ++ constructor; [unfold SLIP_TX_CHUNK_LEN; lia | exact I2].
           ++ cbn [fold_right]. rewrite I3. lia.
           ++ exists (t0 ++ btstack_run_loop_disable_data_source_callbacks
                              DATA_SOURCE_CALLBACK_WRITE
                         :: log_debug "slip: send %d bytes" [Z.of_nat (Nat.min (S m) 128)]
                         :: btstack_run_loop_enable_data_source_callbacks
                              DATA_SOURCE_CALLBACK_WRITE
                         :: t).
              rewrite Et. split; [now rewrite <- !app_assoc|].
              rewrite in_app_iff. intros [H|[H|[H|[H|H]]]];
                try discriminate; [exact (Ht0' H) | exact (I6 H)].
      * (* the chunk is still in flight: a part was written, or nothing *)
        cbn [fst]. intros Hok.
        specialize (IH s1 m last Hfd Hact Hcb).
        cbn [s1 sw set_sw btstack_uart_slip_write_bytes_len] in IH.
        specialize (IH ltac:(lia) Hm Hok Hlast ltac:(lia)).
        destruct (run s1 _) as [s3 t3].
        destruct IH as (I1 & I2 & I3 & I4 & I5 & t & Et & I6).
        rewrite !chunk_sends_app, Ht0. cbn [chunk_sends app].
        split; [|split; [|split; [|split; [|split]]]]; auto.
        exists (t0 ++ btstack_run_loop_enable_data_source_callbacks
                        DATA_SOURCE_CALLBACK_WRITE :: t).
        rewrite Et. split; [now rewrite <- !app_assoc|].
        rewrite in_app_iff. intros [H|[H|H]];
          try discriminate; [exact (Ht0' H) | exact (I6 H)].
Qed.

(** X13: a frame whose encoding has [n > 0] bytes is sent completely,
    and [frame_sent] called exactly once and last, whatever mixture of
    failed ([< 0]), empty ([= 0]) and partial writes the dispatches
    bring before the write that finishes it: failed and empty writes
    only re-arm write interest and leave the chunk as it is, the number
    of chunks stays [ceil (n / SLIP_TX_CHUNK_LEN)]. *)
Theorem send_frame_survives_failed_writes {C : SlipCodec}
    (s : state) (frame : list Z) (frame_size : Z) (n : nat)
    (pre : list syscall) (last : syscall) :
  0 <= transport_data_source_fd s ->
  frame_sent (cb s) = true ->
  encoder_pending n (btstack_slip_encoder_start (slip s) frame frame_size) ->
  (0 < n)%nat ->
  0 < sys_ret last ->
  sum_pos (pre ++ [last]) = Z.of_nat n ->
  let (s0, t0) := btstack_uart_slip_posix_send_frame s frame frame_size in
  run_ok s0 (ready_each DATA_SOURCE_CALLBACK_WRITE (pre ++ [last])) ->
  let (s1, t1) := run s0 (ready_each DATA_SOURCE_CALLBACK_WRITE (pre ++ [last])) in
  Z.of_nat (List.length (chunk_sends (t0 ++ t1))) = (Z.of_nat n + 127) / 128 /\
  fold_right Z.add 0 (chunk_sends (t0 ++ t1)) = Z.of_nat n /\
  btstack_uart_slip_write_active (sw s1) = 0 /\
  btstack_slip_encoder_has_data (slip s1) = 0 /\
  exists t,
    t0 ++ t1 = t ++ [btstack_run_loop_disable_data_source_callbacks DATA_SOURCE_CALLBACK_WRITE;
                     call_frame_sent]
    /\ ~ In call_frame_sent t.
Proof.
  intros Hfd Hcb Hn Hpos Hlast Hsum.
  unfold btstack_uart_slip_posix_send_frame.
  match goal with
  | |- context [btstack_uart_slip_posix_encode_chunk_and_send ?s'] =>
      pose proof (encode_chunk_and_send_spec s' n Hn) as Hc;
      destruct (btstack_uart_slip_posix_encode_chunk_and_send s') as [s0 t0]
  end.
  cbn [sw set_slip set_sw btstack_uart_slip_write_active transport_data_source_fd cb] in Hc.
  destruct Hc as (Hl & Hp & Ha & Hf & Hcb0 & ->).
  intros Hok.
  pose proof (frame_send_run_failing pre s0 (n - Nat.min n 128)%nat last) as H.
  rewrite Hf, Ha, Hcb0, Hl in H.
  specialize (H Hfd ltac:(lia) Hcb ltac:(lia) Hp Hok Hlast ltac:(lia)).
  destruct (run s0 _) as [s1 t1].
  destruct H as (I1 & I2 & I3 & I4 & I5 & t & Et & I6).
  cbn [chunk_sends app List.length fold_right].
  split; [|split; [|split; [|split]]]; auto.
  - rewrite Nat2Z.inj_succ, I1.
    rewrite (chunk_count_step (Z.of_nat n)) by lia.
    replace (Z.of_nat (n - Nat.min n 128))
      with (Z.of_nat n - Z.min (Z.of_nat n) 128) by lia.
    lia.
  - rewrite I3. lia.
  - exists (log_debug "slip: send %d bytes" [Z.of_nat (Nat.min n 128)]
            :: btstack_run_loop_enable_data_source_callbacks DATA_SOURCE_CALLBACK_WRITE
            :: t).
    rewrite Et. split; [reflexivity|].
    intros [H|[H|H]]; try discriminate. exact (I6 H).
Qed.

Lemma send_frame_survives_failed_writes_witness :
  let pre := [answer (-1) []; answer 2 []; answer 0 []] in
  let r0 := btstack_uart_slip_posix_send_frame sample_state [1; 192; 3] 3 in
  let r1 := run (fst r0) (ready_each DATA_SOURCE_CALLBACK_WRITE (pre ++ [answer 2 []])) in
  chunk_sends (snd r0 ++ snd r1) = [4] /\
  btstack_uart_slip_write_active (sw (fst r1)) = 0 /\
  exists t,
    snd r0 ++ snd r1 =
    t ++ [btstack_run_loop_disable_data_source_callbacks DATA_SOURCE_CALLBACK_WRITE;
          call_frame_sent]
    /\ ~ In call_frame_sent t.
Proof.
  pose proof (send_frame_survives_failed_writes sample_state [1; 192; 3] 3 4
                [answer (-1) []; answer 2 []; answer 0 []] (answer 2 [])
                ltac:(by_compute) eq_refl ltac:(by_compute) ltac:(lia)
                ltac:(by_compute) eq_refl) as H.
  cbv zeta.
  destruct (btstack_uart_slip_posix_send_frame sample_state [1; 192; 3] 3)
    as [s0 t0] eqn:R0.
  assert (Hok : run_ok s0 (ready_each DATA_SOURCE_CALLBACK_WRITE
                             ([answer (-1) []; answer 2 []; answer 0 []]
                              ++ [answer 2 []]))).
  { vm_compute in R0. inversion R0; subst s0. by_compute. }
  specialize (H Hok). cbn [fst snd].
  destruct (run s0 _) as [s1 t1] eqn:R1.
  destruct H as (_ & _ & Ha & _ & He).
  split; [|split; [exact Ha | exact He]].
  vm_compute in R0. inversion R0; subst s0 t0.
  vm_compute in R1. inversion R1; subst s1 t1. reflexivity.
Defined.

(** ** Serial port configuration *)

Ltac bits :=
  rewrite ?Z.lor_spec, ?Z.land_spec, ?Z.lnot_spec by assumption.

(** X14: [set_parity_option] and [set_flowcontrol_option] change
    [c_cflag] on the bits of their own mask only, setting them when the
    argument is non-zero and clearing them when it is zero; every other
    bit of [c_cflag] and every other member of the attributes is kept. *)
Theorem option_touches_only_its_mask {P : Platform}
    (toptions : termios) (parity flowcontrol n : Z) :
  0 <= n ->
  Z.testbit (c_cflag (btstack_uart_posix_set_parity_option toptions parity)) n
  = (if Z.testbit PARENB n then negb (parity =? 0) else Z.testbit (c_cflag toptions) n)
  /\ Z.testbit (c_cflag (btstack_uart_posix_set_flowcontrol_option toptions flowcontrol)) n
     = (if Z.testbit CRTSCTS n then negb (flowcontrol =? 0)
        else Z.testbit (c_cflag toptions) n)
  /\ set_c_cflag (c_cflag toptions)
       (btstack_uart_posix_set_parity_option toptions parity) = toptions
  /\ set_c_cflag (c_cflag toptions)
       (btstack_uart_posix_set_flowcontrol_option toptions flowcontrol) = toptions.
Proof.
  intros Hn.
  unfold btstack_uart_posix_set_parity_option, btstack_uart_posix_set_flowcontrol_option.
  repeat split.
  - destruct (parity =? 0); cbn [negb c_cflag set_c_cflag]; bits;
      destruct (Z.testbit PARENB n), (Z.testbit (c_cflag toptions) n); reflexivity.
  - destruct (flowcontrol =? 0); cbn [negb c_cflag set_c_cflag]; bits;
      destruct (Z.testbit CRTSCTS n), (Z.testbit (c_cflag toptions) n); reflexivity.
  - destruct toptions, (parity =? 0); reflexivity.
  - destruct toptions, (flowcontrol =? 0); reflexivity.
Qed.

Lemma option_touches_only_its_mask_witness :
  c_cflag (btstack_uart_posix_set_parity_option sample_termios 1) = 3261 + 256 /\
  Z.testbit (c_cflag (btstack_uart_posix_set_parity_option sample_termios 1)) 8 = true /\
  Z.testbit (c_cflag (btstack_uart_posix_set_parity_option sample_termios 0)) 7
  = Z.testbit (c_cflag sample_termios) 7.
Proof.
  split; [reflexivity|].
  destruct (option_touches_only_its_mask sample_termios 1 0 8 ltac:(lia)) as (H1 & _).
  destruct (option_touches_only_its_mask sample_termios 0 0 7 ltac:(lia)) as (H2 & _).
  split; [exact H1 | exact H2].
Defined.

(** X15: each of [set_parity], [set_flowcontrol] and [set_baudrate]
    returns 0 exactly when both [tcgetattr] and [tcsetattr] succeed and
    -1 otherwise; when [tcgetattr] fails no [tcsetattr] is attempted;
    when it succeeds, the attributes handed to [tcsetattr] are the ones
    just read from the stored descriptor with only the setter's own
    change applied. *)
Theorem setter_outcome {C : SlipCodec} {P : Platform}
    (s : state) (v : Z) (a : tc_answer) :
  let ok := 0 <= tcget_ret a /\ 0 <= tcset_ret a in
  let fd := transport_data_source_fd s in
  let good (r : list os_event * Z) (toptions : termios) :=
    (snd r = 0 <-> ok) /\ (snd r = 0 \/ snd r = -1) /\
    (tcget_ret a < 0 -> forall x y z, ~ In (os_tcsetattr x y z) (fst r)) /\
    (0 <= tcget_ret a -> In (os_tcsetattr fd TCSANOW toptions) (fst r)) in
  good (btstack_uart_posix_set_parity s v a)
       (btstack_uart_posix_set_parity_option (tcget_attr a) v) /\
  good (btstack_uart_posix_set_flowcontrol s v a)
       (btstack_uart_posix_set_flowcontrol_option (tcget_attr a) v) /\
  good (btstack_uart_posix_set_baudrate s v a)
       (cfsetispeed (cfsetospeed (tcget_attr a) (baudrate_to_speed v))
                    (baudrate_to_speed v)).
Proof.
  cbv zeta.
  unfold btstack_uart_posix_set_parity, btstack_uart_posix_set_flowcontrol,
    btstack_uart_posix_set_baudrate.
  destruct (Z.ltb_spec (tcget_ret a) 0); destruct (Z.ltb_spec (tcset_ret a) 0);
    cbn [fst snd]; repeat split; intros;
      try lia; try discriminate; try tauto;
      try (cbn; intuition discriminate).
Qed.

Lemma setter_outcome_witness :
  let closed := fst (fst (btstack_uart_posix_close_new sample_state)) in
  snd (btstack_uart_posix_set_parity sample_state 1 (tc_ok sample_termios)) = 0 /\
  snd (btstack_uart_posix_set_baudrate closed 115200
         {| tcget_ret := -1; tcget_attr := sample_termios; tcset_ret := 0 |}) <> 0.
Proof.
  destruct (setter_outcome sample_state 1 (tc_ok sample_termios)) as ((H1 & _) & _).
  destruct (setter_outcome (fst (fst (btstack_uart_posix_close_new sample_state))) 115200
              {| tcget_ret := -1; tcget_attr := sample_termios; tcset_ret := 0 |})
    as (_ & _ & (H2 & _)).
  split.
  - apply H1. cbn. lia.
  - intros E. apply H2 in E. cbn in E. lia.
Defined.

(** X16: [open] returns 0 exactly when [open], both [tcgetattr] and both
    [tcsetattr] succeed, and -1 otherwise.  The data source is added to
    the run loop exactly when it returns 0, and then as the last step
    before the final sleep.  Of the statics only the descriptor can
    change, and it is stored as soon as [open]'s own attribute calls
    have succeeded: a failure before that leaves the state as it was
    (the descriptor just opened is dropped), a failure in
    [set_baudrate] leaves the new descriptor stored although [open]
    reports failure and nothing was added to the run loop. *)
Theorem open_outcome {C : SlipCodec} {P : Platform}
    (uart_config : btstack_uart_config_t) (s : state)
    (open_ret : Z) (a1 a2 : tc_answer) :
  let '(s', t, r) := btstack_uart_posix_open uart_config s open_ret a1 a2 in
  let configured := open_ret <> -1 /\ 0 <= tcget_ret a1 /\ 0 <= tcset_ret a1 in
  (r = 0 \/ r = -1) /\
  (r = 0 <-> configured /\ 0 <= tcget_ret a2 /\ 0 <= tcset_ret a2) /\
  (In os_add_data_source t <-> r = 0) /\
  (r = 0 ->
   exists t', t = t' ++ [os_set_data_source_fd open_ret; os_set_data_source_handler;
                         os_add_data_source; os_usleep 100000]) /\
  (configured -> s' = set_fd open_ret s) /\
  (~ configured -> s' = s) /\
  (open_ret <> -1 -> 0 <= tcget_ret a1 ->
   In (os_tcsetattr open_ret TCSANOW
         (open_attributes (tcget_attr a1) (flowcontrol uart_config))) t).
Proof.
  unfold btstack_uart_posix_open, btstack_uart_posix_set_baudrate.
  destruct (Z.eqb_spec open_ret (-1)).
  { cbv zeta. repeat split; intros; try lia; try tauto; try discriminate;
      try (cbn in *; intuition discriminate). }
  destruct (Z.ltb_spec (tcget_ret a1) 0).
  { cbv zeta. repeat split; intros; try lia; try tauto; try discriminate;
      try (cbn in *; intuition discriminate). }
  destruct (Z.ltb_spec (tcset_ret a1) 0).
  { cbv zeta. repeat split; intros; try lia; try tauto; try discriminate;
      try (cbn in *; intuition discriminate). }
  cbn [transport_data_source_fd set_fd].
  destruct (Z.ltb_spec (tcget_ret a2) 0).
  { cbn [Z.ltb Z.compare app]. cbv zeta.
    repeat split; intros; try lia; try tauto; try discriminate;
      try (cbn in *; intuition discriminate). }
  destruct (Z.ltb_spec (tcset_ret a2) 0).
  { cbn [Z.ltb Z.compare app]. cbv zeta.
    repeat split; intros; try lia; try tauto; try discriminate;
      try (cbn in *; intuition discriminate). }
  cbn [Z.ltb Z.compare app]. cbv zeta.
  repeat split; intros; try lia; try tauto; try discriminate;
    try (cbn; tauto).
  eexists [_; _; _; _; _; _]. reflexivity.
Qed.

Lemma array_set_nth_eq (a : list Z) (i v d : Z) :
  0 <= i < Z.of_nat (List.length a) -> nth (Z.to_nat i) (array_set a i v) d = v.
Proof.
  intros H. unfold array_set.
  rewrite app_nth2 by (rewrite length_firstn; lia).
  rewrite length_firstn.
  replace (Z.to_nat i - Nat.min (Z.to_nat i) (List.length a))%nat with O by lia.
  reflexivity.
Qed.

Lemma array_set_nth_neq (a : list Z) (i j v d : Z) :
  0 <= i < Z.of_nat (List.length a) -> 0 <= j -> i <> j ->
  nth (Z.to_nat j) (array_set a i v) d = nth (Z.to_nat j) a d.
Proof.
  intros Hi Hj Hne. unfold array_set.
  destruct (Z.ltb_spec j i).
  - rewrite app_nth1 by (rewrite length_firstn; lia).
    rewrite nth_firstn.
    destruct (Nat.ltb_spec (Z.to_nat j) (Z.to_nat i)); [reflexivity | lia].
  - rewrite app_nth2 by (rewrite length_firstn; lia).
    rewrite length_firstn.
    replace (Z.to_nat j - Nat.min (Z.to_nat i) (List.length a))%nat
      with (S (Z.to_nat j - Z.to_nat i - 1)) by lia.
    cbn [nth]. rewrite nth_skipn. f_equal. lia.
Qed.

(** X17: the attributes [open] hands to [tcsetattr], bit by bit, for any
    platform.  In [c_cflag], and in this order of precedence should masks
    overlap: the [CRTSCTS] bits follow the configured flow control, the
    [PARENB] bits are clear (no parity), the [CREAD], [CLOCAL] and [CS8]
    bits are set, the [CSTOPB] bits are clear (one stop bit), and every
    other bit is as [cfmakeraw] left it.  In [c_iflag] the [IXON],
    [IXOFF] and [IXANY] bits are clear.  [c_cc[VMIN]] is 1 and
    [c_cc[VTIME]] is 0 when the two are distinct positions of the
    array. *)
Theorem open_attributes_bits {P : Platform} (toptions : termios) (flowcontrol n : Z) :
  0 <= n ->
  let raw := cfmakeraw toptions in
  let t := open_attributes toptions flowcontrol in
  Z.testbit (c_cflag t) n
  = (if Z.testbit CRTSCTS n then negb (flowcontrol =? 0)
     else if Z.testbit PARENB n then false
     else if Z.testbit CREAD n || Z.testbit CLOCAL n || Z.testbit CS8 n then true
     else if Z.testbit CSTOPB n then false
     else Z.testbit (c_cflag raw) n)
  /\ Z.testbit (c_iflag t) n
     = (if Z.testbit IXON n || Z.testbit IXOFF n || Z.testbit IXANY n then false
        else Z.testbit (c_iflag raw) n)
  /\ c_oflag t = c_oflag raw /\ c_lflag t = c_lflag raw
  /\ c_ispeed t = c_ispeed raw /\ c_ospeed t = c_ospeed raw
  /\ (0 <= VMIN < Z.of_nat (List.length (c_cc raw)) ->
      0 <= VTIME < Z.of_nat (List.length (c_cc raw)) ->
      VMIN <> VTIME ->
      nth (Z.to_nat VMIN) (c_cc t) 0 = 1 /\ nth (Z.to_nat VTIME) (c_cc t) 0 = 0).
Proof.
  intros Hn. cbv zeta.
  unfold open_attributes, btstack_uart_posix_set_parity_option,
    btstack_uart_posix_set_flowcontrol_option.
  cbn [Z.eqb negb].
  split; [|split; [|split; [|split; [|split; [|split]]]]].
  - destruct (flowcontrol =? 0);
      cbn [negb c_cflag c_iflag c_cc set_c_cflag set_c_iflag set_c_cc]; repeat bits;
      destruct (Z.testbit CRTSCTS n), (Z.testbit PARENB n), (Z.testbit CREAD n),
        (Z.testbit CLOCAL n), (Z.testbit CS8 n), (Z.testbit CSTOPB n),
        (Z.testbit (c_cflag (cfmakeraw toptions)) n); reflexivity.
  - destruct (flowcontrol =? 0);
      cbn [negb c_cflag c_iflag c_cc set_c_cflag set_c_iflag set_c_cc]; repeat bits;
      destruct (Z.testbit IXON n), (Z.testbit IXOFF n), (Z.testbit IXANY n),
        (Z.testbit (c_iflag (cfmakeraw toptions)) n); reflexivity.
  - destruct (flowcontrol =? 0); reflexivity.
  - destruct (flowcontrol =? 0); reflexivity.
  - destruct (flowcontrol =? 0); reflexivity.
  - destruct (flowcontrol =? 0); reflexivity.
  - intros Hmin Htime Hne.
    assert (Hcc : forall d,
               nth (Z.to_nat VMIN)
                   (array_set (array_set (c_cc (cfmakeraw toptions)) VMIN 1) VTIME 0) d = 1
               /\ nth (Z.to_nat VTIME)
                      (array_set (array_set (c_cc (cfmakeraw toptions)) VMIN 1) VTIME 0) d
                  = 0).
    { intros d. split.
      - rewrite array_set_nth_neq by (rewrite ?array_set_length; lia).
        apply array_set_nth_eq. lia.
      - apply array_set_nth_eq. rewrite array_set_length; lia. }
    destruct (flowcontrol =? 0);
      cbn [negb c_cflag c_iflag c_cc set_c_cflag set_c_iflag set_c_cc]; apply Hcc.
Qed.

(** On Linux: 8 data bits, no parity, one stop bit, RTS/CTS on. *)
Lemma open_attributes_bits_witness :
  let t := open_attributes sample_termios 1 in
  Z.testbit (c_cflag t) 31 = true /\          (* CRTSCTS *)
  Z.testbit (c_cflag t) 8 = false /\          (* PARENB *)
  Z.testbit (c_cflag t) 6 = false /\          (* CSTOPB *)
  Z.land (c_cflag t) 48 = 48 /\               (* CS8 *)
  nth 6 (c_cc t) 0 = 1 /\ nth 5 (c_cc t) 0 = 0.
Proof.
  cbv zeta.
  destruct (open_attributes_bits sample_termios 1 31 ltac:(lia)) as (H31 & _).
  destruct (open_attributes_bits sample_termios 1 8 ltac:(lia)) as (H8 & _).
  destruct (open_attributes_bits sample_termios 1 6 ltac:(lia))
    as (H6 & _ & _ & _ & _ & _ & Hcc).
  cbv zeta in *.
  specialize (Hcc ltac:(by_compute) ltac:(by_compute) ltac:(by_compute)).
  split; [exact H31|]. split; [exact H8|]. split; [exact H6|].
  split; [reflexivity | exact Hcc].
Defined.

Lemma open_outcome_witness :
  let '(s', t, r) :=
    btstack_uart_posix_open sample_config
      (fst (fst (btstack_uart_posix_close_new sample_state))) 7
      (tc_ok sample_termios)
      {| tcget_ret := 0; tcget_attr := sample_termios; tcset_ret := -1 |} in
  r = -1 /\ transport_data_source_fd s' = 7 /\ ~ In os_add_data_source t.
Proof.
  pose proof (open_outcome sample_config
                (fst (fst (btstack_uart_posix_close_new sample_state))) 7
                (tc_ok sample_termios)
                {| tcget_ret := 0; tcget_attr := sample_termios; tcset_ret := -1 |}) as H.
  destruct (btstack_uart_posix_open _ _ _ _ _) as [[s' t] r].
  cbv zeta in H. destruct H as (Hr & Hiff & Hadd & _ & Hs & _).
  assert (Hne : r <> 0).
  { intros E. apply Hiff in E. cbn in E. lia. }
  split; [lia|]. split.
  - rewrite Hs; [reflexivity | cbn; lia].
  - intros Hin. apply Hadd in Hin. contradiction.
Defined.
